(* ===== verification/_CoqProject ===== *)
-Q . S2P
Prelude.v
PyData.v
Optuna.v
CometClient.v
CometCallback.v
Fixtures.v
StudyExperiment.v
TrialExperiment.v
TrialLogging.v
Decorator.v
Process.v
Registry.v
Workers.v
