(* ===== verification/Prelude.v ===== *)
(** * A verification development for [optuna_integration/comet.py]

    The program is one Python class, [CometCallback]
    (src/optuna_integration/comet.py).  Optuna calls it after each trial
    of a study.  It records the study and its trials in the Comet ML
    experiment-tracking service.  Three parties interact:

    - the optimisation framework (Optuna).  It supplies the [Study]
      (name, directions, user attributes, storage backend, best trials)
      and the finished [FrozenTrial] (number, parameters, values), and
      calls the callback and the decorated objective;
    - the tracking client ([comet_ml]).  It creates and resumes remote
      experiment records, logs tags, "others", parameters, metrics and
      optimisation results, and ends streaming experiments.  The code
      also keeps a process-wide pointer, [comet_ml.active_experiment];
    - the callback itself.  Its fields are [_project_name],
      [_workspace], [_study], [_metric_names], [study_experiment] and
      [_trial_experiments].  Its operations are [__init__],
      [_init_optuna_study_experiment], [_init_optuna_trial_experiment],
      [__call__] and [track_in_comet].

    ** Files and what they model

    - [Prelude] (this file): a state-and-error monad [M E St A] in which
      a raise keeps the state reached so far, as a Python exception
      does, with its notation scope [cm_scope].  Also the run predicates
      [runs] and [raises], the hint databases [cm] and [cm_rw], the
      tactics [cm_simp], [split_ands] and [app_norm], and generic lemmas
      on lists.
    - [PyData]: the Python values the code handles ([pyval]) and its
      exceptions ([exn]).  Truthiness ([py_truthy], lines 144 and 173),
      [==] of a value and a key ([py_eq_str], line 166), [dict.get] and
      [d[k] = v] on a dict kept as an association list ([py_dict_get],
      [py_dict_setitem], lines 162 and 181), f-strings ([fmt_name],
      [py_str_nat]), and [json.dumps] of an int list ([json_dumps_ints],
      line 132) with a decoder and the round trip.
    - [Optuna]: what the code reads of Optuna.  [StudyDirection];
      [FrozenTrial] and its [value] property, which raises on several
      values; [study.direction] ([study_direction]), which raises on a
      multi-objective study.  The study is an interface: the class
      [StudyHandle], with the store laws [StudyLaws].  The theorems are
      proved against the interface, and the record [study_rec] over a
      [gmap] is the instance the witnesses run.
    - [CometClient]: the comet_ml library, as the environment of the
      code.  A [world] holds the trace of calls to the service
      ([w_trace]) and the key counter.  It also holds the process's
      Python Experiment objects with their [ended] flag ([w_objs]), and
      [comet_ml.active_experiment] ([w_active]).  Each method the code
      calls ([APIExperiment], [Experiment], [ExistingExperiment],
      [add_tag], [log_other], [log_parameters], [log_metric],
      [log_optimization], [get_key], [ended], [end]) is one operation of
      the monad [CM].  The invariant of a world is [wf_world]: objects
      name existing records, the active handle is valid, only the active
      object may be open, keys are fresh, and the service is reliable.
      [wf_worldb] is its checker.  A remote call may fail: [w_fail]
      holds one transient fault, at a position of the trace, and
      [emit] raises [ServiceError] at that position instead of
      recording the call (spec section 7).  The class [WorldState] is
      the interface of a state that holds the world, and
      [fault_sound m] is the contract of a program under one fault.  It
      is proved for every primitive, and composes through bind and
      loops: the tactic [fsound] proves it by the structure of a
      program.
    - [CometCallback]: the object's attributes (the record
      [CometCallback]) and the monad [CCM] of the methods, over the
      object and the world, since the methods mutate [self].  Also the
      module's guarded import of [comet_ml] (lines 14-15,
      [import_comet_ml]), the loading of the module with its class body
      ([load_comet_module]), and the [WorldState] instance of the
      methods' state.
    - [Fixtures]: concrete studies, worlds, trials and callbacks for the
      witnesses, after the examples of the docstring and the spec.
    - [StudyExperiment]: [__init__] ([CometCallback_init], lines
      68-101) and [_init_optuna_study_experiment] (lines 136-153).
      [CometCallback_init_in] is [__init__] in a module that loaded,
      which without [comet_ml] happens only with lazy annotations.
    - [TrialExperiment]: [_init_optuna_trial_experiment] (lines
      155-184), split at line 172 into the active-experiment check and
      [load_or_create_trial_experiment].  Also the callback's invariant
      [wf_cb]: the study record exists, and the dict maps trial numbers
      to existing records.
    - [TrialLogging]: [__call__] ([CometCallback_call], lines 103-134)
      and its objective branch [log_objectives] (lines 114-129).
    - [Decorator]: the wrapper of [track_in_comet] (lines 186-196).  The
      objective is any client computation; [trial.experiment] is its
      argument.
    - [Process]: a process as the step relation [proc_step] ([__call__],
      returning or raising, and decorated objectives) and its reachable
      states [proc_reach] from [__init__].
    - [Registry]: the abstract contract of [_trial_experiments].
      [RegistrySpec] is a registry from trial numbers to record keys,
      with its [resolve] operation and [step] relation.
      [refines_registry] relates it to the concrete dict.  The file
      proves that one resolution refines [RegistrySpec.resolve], and
      that a run of the process is simulated by registry steps, as in a
      simulation diagram.
    - [Workers]: several worker processes of one distributed study
      (spec sections 2 and 5).  A [cluster] holds the shared study store,
      the shared service and the progress of each worker's [__init__].
      The [__init__] is split at its read of the store (line 141):
      [worker_read] is lines 84-86 and that read, [worker_init] the rest
      ([study_experiment_of_key] is lines 143-153, with the write of
      line 151).  Run back to back the two steps are [__init__]
      ([worker_steps_are_init]).  A schedule is a list of steps
      ([run_ops]): any interleaving of the workers.

    Each component file declares its operations in a Section over the
    study interface.  It then gives the reference lists of calls they
    make ([study_creation_calls], [trial_creation_calls],
    [objective_calls], ...) and run lemmas with the exact result of each
    branch.  The claims follow, then their witnesses on the fixtures.

    ** What the theorems show

    - Study experiment: a new study gets one fresh record, tagged and
      annotated, whose key is stored in the study.  A stored key is
      resumed.  A second [__init__] creates no record.  A stored key
      naming no record raises [ExperimentNotFound].  The directions are
      logged under their names, and a metric name equal to an index
      collides with it.  The dict of trial keys is never written back.
    - Trial experiment: a new trial gets one fresh record, stored in
      the dict.  The active experiment is reused when its key is the
      stored one.  A stored key is resumed.  An open previous experiment
      is ended before a switch.  A dict keyed by strs, as a JSON store
      returns it, never matches the int trial number.
    - [__call__]: the exact trace of both objective branches; the
      "best_trials" overwrite and its JSON round trip; the end of the
      experiment, and that it returns when the values can be logged.
      On a failed multi-objective trial it raises and leaves the
      experiment open.  A second resolution of the trial after
      [__call__] returns the ended object.
    - Decorator: the objective receives the trial's active object.  The
      decorator and [__call__] of one instance share one record.
    - Process: [wf_world] and [wf_cb] hold in every reachable state, by
      rule induction, and from each of them every resolution returns.
      Over any run of one instance ([rtc proc_step] from [__init__]),
      the dict's keys are distinct trial numbers, and the trial records
      created equal the entries holding a key: one record per trial.
    - Registry: resolution and whole runs refine the registry
      specification.  The spec-level fact then holds of the code: a
      trial's record never changes.  The
      dict stays a dict from non-negative ints to non-empty strs, and
      the other attributes never change after [__init__].
    - Service failures: the run lemmas and the process assume a
      reliable service ([w_fail w = None], part of [wf_world]).  Every
      method satisfies the fault contract [fault_sound], so a run on a
      faulty service that returns is the reliable run ([fault_reduce],
      [runs_reduce]), and the claims on returning runs hold on every
      service.  A failure of the [add_tag] that follows
      [comet_ml.Experiment()] leaves, for every callback, trial and
      world, an open experiment that is neither active nor recorded.  A
      failure between the creation of the study's record and the write
      of its key leaves that record orphaned, and the next worker
      creates a second one.
    - Workers: a worker's two steps run back to back are [__init__]
      itself.  Run one after another, [n] workers share one study
      record.  When they all read before any writes, which no lock
      prevents, they create [n] distinct study records, and the store
      names only the last: the spec's "exactly one StudyExperiment per
      study" does not hold across processes.

    ** Bounds and fuel

    The only fuelled function is the JSON decoder [json_read_items].
    It reads one item per unit of fuel and is given the length of its
    input, which bounds the number of items: the round trip is proved
    for every list.  The loops of the code ([enumerate] over directions
    or values) are structural recursions on the list ([mfor_enum]), so
    they terminate by construction.  Keys, trial numbers and indices are
    unbounded naturals, as Python ints are.  One fault per run is
    modelled: it is spent when it fires, and the service works again
    afterwards, which is what the leak theorem needs.  Several faults
    compose the same way, one position at a time.

    ** Not modelled

    The network, authentication, and the payloads and code/system
    metrics comet_ml collects on its own.  Concurrency between
    processes beyond their [__init__] ([Workers]; each process has its
    own [comet_ml.active_experiment], and the shared state is the study
    storage).  Optuna's storage, sampler
    and [optimize] loop, beyond the order of calls in [proc_step].
    Without [comet_ml] the module does not load before Python 3.14
    ([load_comet_module]); with lazy annotations the error is modelled
    for [__init__] only, since no callback then exists for the other
    methods to run on.  A
    failing call raises at the call itself: the buffering of
    [Experiment] uploads, which may report a failure later or not at
    all, is not modelled, nor are time-outs and partial writes on the
    service side.  The process relation [proc_step] is stated on a
    reliable service; under faults the methods are covered one by one
    by their fault contracts.  Across workers only [__init__]
    is interleaved: [__call__] reads and writes no attribute of the
    shared study, so its runs in different processes meet only on the
    service, where records are created under fresh keys. *)

From Stdlib Require Import List.
From stdpp Require Import base list options.
Import ListNotations.

(** ** A state and error monad *)

(** [M E St A] is a computation over the state [St] that returns an [A]
    or raises an exception of type [E].  It is the shape of Python code
    that mutates objects and may raise.  A raise keeps the state reached
    so far: the mutations made before a Python exception are not undone. *)
Definition M (E St A : Type) : Type := St -> (E + A) * St.

Definition mret {E St A} (a : A) : M E St A := fun s => (inr a, s).

Definition mbind {E St A B} (m : M E St A) (k : A -> M E St B) : M E St B :=
  fun s => match m s with
           | (inl e, s') => (inl e, s')
           | (inr a, s') => k a s'
           end.

Definition raise {E St A} (e : E) : M E St A := fun s => (inl e, s).

Definition mget {E St} : M E St St := fun s => (inr s, s).

Definition mput {E St} (s : St) : M E St unit := fun _ => (inr tt, s).

Definition mmodify {E St} (f : St -> St) : M E St unit :=
  fun s => (inr tt, f s).

(** A pure result that may have raised, lifted into the monad. *)
Definition of_sum {E St A} (r : E + A) : M E St A := fun s => (r, s).

Declare Scope cm_scope.
Delimit Scope cm_scope with cm.
Notation "x <- m ;; k" := (mbind m (fun x => k))
  (at level 100, m at next level, right associativity) : cm_scope.
Notation "m ;;; k" := (mbind m (fun _ => k))
  (at level 100, right associativity) : cm_scope.
Open Scope cm_scope.

(** A Python [for] loop over a list, with the running index that
    [enumerate] supplies. *)
Fixpoint mfor_enum {E St A} (i : nat) (l : list A) (body : nat -> A -> M E St unit)
  : M E St unit :=
  match l with
  | [] => mret tt
  | x :: l' => body i x ;;; mfor_enum (S i) l' body
  end.

(** [runs m s a s'] : [m] started in [s] returns [a] in the state [s']. *)
Definition runs {E St A} (m : M E St A) (s : St) (a : A) (s' : St) : Prop :=
  m s = (inr a, s').

(** [raises m s e s'] : [m] started in [s] raises [e] in the state [s']. *)
Definition raises {E St A} (m : M E St A) (s : St) (e : E) (s' : St) : Prop :=
  m s = (inl e, s').

Create HintDb cm discriminated.
Create Rewrite HintDb cm_rw.

Section MonadLaws.
Context {E St : Type}.

Lemma mbind_ret_l {A B} (a : A) (k : A -> M E St B) (s : St) :
  mbind (mret a) k s = k a s.
Proof. reflexivity. Qed.

Lemma mbind_inr {A B} (m : M E St A) (k : A -> M E St B) s a s' :
  m s = (inr a, s') -> mbind m k s = k a s'.
Proof. unfold mbind. by intros ->. Qed.

Lemma mbind_inl {A B} (m : M E St A) (k : A -> M E St B) s e s' :
  m s = (inl e, s') -> mbind m k s = (inl e, s').
Proof. unfold mbind. by intros ->. Qed.

Lemma mbind_assoc {A B C} (m : M E St A) (k : A -> M E St B)
      (k' : B -> M E St C) s :
  mbind (mbind m k) k' s = mbind m (fun a => mbind (k a) k') s.
Proof. unfold mbind. by destruct (m s) as [[]]. Qed.

End MonadLaws.

#[export] Hint Rewrite @mbind_ret_l @mbind_assoc : cm_rw.

(** ** Generic lemmas on lists and options *)

Lemma app_cons_assoc {A} (l1 l2 : list A) (x : A) :
  l1 ++ x :: l2 = (l1 ++ [x]) ++ l2.
Proof. by rewrite <- app_assoc. Qed.

Lemma existsb_app_single {A} (f : A -> bool) l x :
  existsb f (l ++ [x]) = existsb f l || f x.
Proof. rewrite existsb_app. simpl. by rewrite orb_false_r. Qed.

Lemma lookup_app_single_lt {A} (l : list A) x i o :
  l !! i = Some o -> (l ++ [x]) !! i = Some o.
Proof. intros H. by apply lookup_app_l_Some. Qed.

#[export] Hint Resolve lookup_app_single_lt : cm.
#[export] Hint Rewrite @existsb_app_single : cm_rw.

(** Normalise appends of lists: right-nested, with known heads pushed
    through. *)
Ltac app_norm := repeat progress (rewrite <- ?app_assoc; cbn [app]).

(** Split a goal that is a conjunction, and only conjunctions. *)
Ltac split_ands := repeat match goal with |- _ /\ _ => split end.

(** Unfold the monad's plumbing after the definitions of a program have
    been unfolded. *)
Ltac cm_simp :=
  repeat (unfold mbind, mret, mget, mput, mmodify, raise, of_sum in *; simpl in *).
