(* ===== verification/PyData.v ===== *)
(** * Python data as the callback handles it

    The values the callback reads from and writes into Optuna's
    user-attribute store, its dict of trial experiment keys, Python
    truthiness ([if x:]), [==] between a stored value and an int or str
    key, [dict.get] and [d[k] = v], [str()] of a non-negative int, the
    f-strings of comet.py, and [json.dumps] of the list of best trial
    numbers (comet.py line 132) with a decoder that inverts it.  The
    exceptions the program can raise are the constructors of [exn]. *)

From Stdlib Require Import List ZArith QArith String Ascii.
From Stdlib Require Import DecimalString DecimalNat.
From stdpp Require Import base list strings.
From S2P Require Import Prelude.
Import ListNotations.
Local Open Scope string_scope.

(** ** Values *)

(** A Python value as Optuna's attribute store holds it (JSON-like).
    Floats are carried as rationals: the code never computes with them,
    it only passes them on, tests them for truth and compares them with
    an int key. *)
#[warnings="-register-all"]
Inductive pyval : Type :=
| PyNone
| PyBool (b : bool)
| PyInt (z : Z)
| PyFloat (q : Q)
| PyStr (s : string)
| PyList (l : list pyval)
| PyDict (d : list (pyval * pyval)).

(** The exceptions the modelled code raises.  [AttributeError] comes
    from calling [.get] on a value that is not a dict, [RuntimeError]
    and [IndexError] from Optuna's accessors, [ExperimentNotFound] from
    the tracking client when a key names no record, [TypeError] from an
    item assignment on a value that is not a dict, [ImportError] from a
    missing module, [NameError] from a read of an unbound name. *)
Inductive exn : Type :=
| AttributeError (what : string)
| TypeError (what : string)
| IndexError (what : string)
| RuntimeError (what : string)
| ExperimentNotFound (key : pyval)
| ReferenceError
| ImportError (name : string)
| NameError (name : string)
| ServiceError.

(** [bool(x)] *)
Definition py_truthy (v : pyval) : bool :=
  match v with
  | PyNone => false
  | PyBool b => b
  | PyInt z => negb (Z.eqb z 0)
  | PyFloat q => negb (Qeq_bool q 0)
  | PyStr s => negb (String.eqb s "")
  | PyList l => negb (length l =? 0)%nat
  | PyDict d => negb (length d =? 0)%nat
  end.

(** [v == k] for an int [k]: Python compares an int equal to the bool
    and the float of the same number, and unequal to any other type. *)
Definition py_eq_int (v : pyval) (k : Z) : bool :=
  match v with
  | PyInt z => Z.eqb z k
  | PyBool b => Z.eqb (if b then 1 else 0) k
  | PyFloat q => Qeq_bool q (inject_Z k)
  | _ => false
  end.

(** [v == s] for a str [s]: only a str can be equal to it. *)
Definition py_eq_str (v : pyval) (s : string) : bool :=
  match v with
  | PyStr s' => String.eqb s' s
  | _ => false
  end.

(** ** Dicts keyed by ints *)

(** Lookup in the entries of a dict: the value of the first key equal
    to [k]. *)
Fixpoint dict_find (d : list (pyval * pyval)) (k : Z) : option pyval :=
  match d with
  | [] => None
  | (k', v) :: d' => if py_eq_int k' k then Some v else dict_find d' k
  end.

(** [d[k] = v]: an existing equal key keeps its position and gets the
    new value; a new key is appended (dicts keep insertion order). *)
Fixpoint dict_assign (d : list (pyval * pyval)) (k : Z) (v : pyval)
  : list (pyval * pyval) :=
  match d with
  | [] => [(PyInt k, v)]
  | (k', v') :: d' =>
      if py_eq_int k' k then (k', v) :: d' else (k', v') :: dict_assign d' k v
  end.

(** [d.get(k)]: [None] when absent; an [AttributeError] when [d] is not
    a dict. *)
Definition py_dict_get (d : pyval) (k : Z) : exn + pyval :=
  match d with
  | PyDict es => inr (default PyNone (dict_find es k))
  | _ => inl (AttributeError "get")
  end.

(** [d[k] = v] *)
Definition py_dict_setitem (d : pyval) (k : Z) (v : pyval) : exn + pyval :=
  match d with
  | PyDict es => inr (PyDict (dict_assign es k v))
  | _ => inl (TypeError "item assignment")
  end.

(** The number of entries of a dict whose value is truthy. *)
Definition dict_truthy_count (d : list (pyval * pyval)) : nat :=
  length (List.filter (fun p => py_truthy p.2) d).

(** A dict whose keys are distinct Python ints. *)
Definition int_keyed (d : list (pyval * pyval)) : Prop :=
  Forall (fun p => exists z, p.1 = PyInt z) d /\ NoDup (map fst d).

(** ** [str()] of a non-negative int and the f-strings *)

(** [str(n)]: the decimal digits of [n], without leading zeros. *)
Definition py_str_nat (n : nat) : string :=
  NilEmpty.string_of_uint (Nat.to_uint n).

(** A name that comet.py builds with [names[i] if i < len(names) else i]
    is a str or an int index; [f"{x}"] renders it. *)
Definition name_or_index : Type := string + nat.

Definition fmt_name (x : name_or_index) : string :=
  match x with
  | inl s => s
  | inr i => py_str_nat i
  end.

(** ** [json.dumps] of a list of ints *)

Fixpoint json_items (l : list nat) : string :=
  match l with
  | [] => ""
  | [n] => py_str_nat n
  | n :: l' => py_str_nat n ++ ", " ++ json_items l'
  end.

(** [json.dumps([0, 3])] is ["[0, 3]"]: items separated by a comma and a
    space, the default separators of Python's [json] module. *)
Definition json_dumps_ints (l : list nat) : string :=
  "[" ++ json_items l ++ "]".

(** A decoder for the strings [json_dumps_ints] produces. *)
Definition digit_of (c : ascii) : option (Decimal.uint -> Decimal.uint) :=
  if ascii_dec c "0" then Some Decimal.D0 else
  if ascii_dec c "1" then Some Decimal.D1 else
  if ascii_dec c "2" then Some Decimal.D2 else
  if ascii_dec c "3" then Some Decimal.D3 else
  if ascii_dec c "4" then Some Decimal.D4 else
  if ascii_dec c "5" then Some Decimal.D5 else
  if ascii_dec c "6" then Some Decimal.D6 else
  if ascii_dec c "7" then Some Decimal.D7 else
  if ascii_dec c "8" then Some Decimal.D8 else
  if ascii_dec c "9" then Some Decimal.D9 else None.

(** The longest prefix of digits, and the rest of the string. *)
Fixpoint read_digits (s : string) : Decimal.uint * string :=
  match s with
  | EmptyString => (Decimal.Nil, EmptyString)
  | String c s' =>
      match digit_of c with
      | Some d => let (u, r) := read_digits s' in (d u, r)
      | None => (Decimal.Nil, s)
      end
  end.

Fixpoint json_read_items (fuel : nat) (s : string) : option (list nat) :=
  match fuel with
  | O => None
  | S fuel' =>
      let (u, r) := read_digits s in
      match u with
      | Decimal.Nil => None
      | _ =>
          match r with
          | String "]" EmptyString => Some [Nat.of_uint u]
          | String "," (String " " r') =>
              match json_read_items fuel' r' with
              | Some l => Some (Nat.of_uint u :: l)
              | None => None
              end
          | _ => None
          end
      end
  end.

Definition json_loads_ints (s : string) : option (list nat) :=
  match s with
  | String "[" r =>
      if String.eqb r "]" then Some [] else json_read_items (String.length s) r
  | _ => None
  end.

(** ** Lemmas *)

(** stdpp makes [String.append] opaque to [simpl]; this lemma unfolds
    one step of it. *)
Lemma str_app_cons c (s1 s2 : string) : String c s1 ++ s2 = String c (s1 ++ s2).
Proof. reflexivity. Qed.

Lemma str_app_nil_l (s : string) : "" ++ s = s.
Proof. reflexivity. Qed.

Lemma str_app_nil_r (s : string) : s ++ "" = s.
Proof. induction s as [|c s IH]; [reflexivity|]. by rewrite str_app_cons, IH. Qed.

Lemma str_app_assoc (s1 s2 s3 : string) : (s1 ++ s2) ++ s3 = s1 ++ (s2 ++ s3).
Proof.
  induction s1 as [|c s1 IH]; [reflexivity|]. by rewrite !str_app_cons, IH.
Qed.

Lemma str_length_app (s1 s2 : string) :
  String.length (s1 ++ s2) = String.length s1 + String.length s2.
Proof.
  induction s1 as [|c s1 IH]; [reflexivity|]. rewrite str_app_cons. simpl. by rewrite IH.
Qed.

Lemma py_str_nat_inj n m : py_str_nat n = py_str_nat m -> n = m.
Proof.
  unfold py_str_nat. intros H.
  apply (f_equal NilEmpty.uint_of_string) in H. rewrite !NilEmpty.usu in H.
  apply Unsigned.to_uint_inj. congruence.
Qed.

Lemma py_eq_str_true v s : py_eq_str v s = true -> v = PyStr s.
Proof. destruct v; simpl; try discriminate. by intros ->%String.eqb_eq. Qed.

Lemma py_dict_get_dict es k : py_dict_get (PyDict es) k = inr (default PyNone (dict_find es k)).
Proof. reflexivity. Qed.

(** [d[k] = v] followed by [d.get(k)] gives [v]. *)
Lemma dict_find_assign_eq es k v : dict_find (dict_assign es k v) k = Some v.
Proof.
  induction es as [|[k' v'] es IH]; simpl.
  - by rewrite Z.eqb_refl.
  - destruct (py_eq_int k' k) eqn:E; simpl; rewrite ?E; auto.
Qed.

(** [d[k] = v] leaves the other int keys alone. *)
Lemma dict_find_assign_ne es k k' v :
  k <> k' -> dict_find (dict_assign es k v) k' = dict_find es k'.
Proof.
  intros Hne. induction es as [|[k0 v0] es IH]; simpl.
  - destruct (Z.eqb_spec k k'); [congruence|reflexivity].
  - destruct (py_eq_int k0 k) eqn:E; simpl.
    + destruct (py_eq_int k0 k') eqn:E'; [|reflexivity].
      exfalso. apply Hne. destruct k0; simpl in *; try discriminate.
      * apply Z.eqb_eq in E, E'. congruence.
      * apply Z.eqb_eq in E, E'. congruence.
      * apply Qeq_bool_eq in E, E'. apply inject_Z_injective.
        eapply Qeq_trans; [apply Qeq_sym, E | exact E'].
    + by rewrite IH.
Qed.

Lemma read_digits_string_of_uint u r :
  (match r with String c _ => digit_of c = None | EmptyString => True end) ->
  read_digits (NilEmpty.string_of_uint u ++ r) = (u, r).
Proof.
  intros Hr. induction u; simpl; try (rewrite IHu; reflexivity).
  destruct r as [|c r]; simpl; [reflexivity|]. by rewrite Hr.
Qed.

Lemma to_uint_not_nil n : Nat.to_uint n <> Decimal.Nil.
Proof.
  intros H. pose proof (Unsigned.of_to n) as E. rewrite H in E. simpl in E.
  subst n. discriminate.
Qed.

Lemma json_read_items_dumps l fuel :
  l <> [] -> length l <= fuel ->
  json_read_items fuel (json_items l ++ "]") = Some l.
Proof.
  revert fuel. induction l as [|n l IH]; intros fuel Hne Hf; [congruence|].
  destruct fuel as [|fuel]; simpl in Hf; [lia|].
  destruct l as [|m l].
  - simpl. unfold py_str_nat.
    rewrite read_digits_string_of_uint by reflexivity.
    destruct (Nat.to_uint n) eqn:Hu; try (rewrite <- Hu, Unsigned.of_to; reflexivity).
    by apply to_uint_not_nil in Hu.
  - change (json_items (n :: m :: l)) with (py_str_nat n ++ ", " ++ json_items (m :: l)).
    rewrite !str_app_assoc. cbn [json_read_items]. unfold py_str_nat at 1.
    rewrite read_digits_string_of_uint by reflexivity.
    change (", " ++ ?x) with (String "," (String " " x)). cbn.
    rewrite IH by (discriminate || (simpl in *; lia)).
    destruct (Nat.to_uint n) eqn:Hu; try (rewrite <- Hu, Unsigned.of_to; reflexivity).
    by apply to_uint_not_nil in Hu.
Qed.

Lemma py_str_nat_length n : 1 <= String.length (py_str_nat n).
Proof.
  unfold py_str_nat. destruct (Nat.to_uint n) eqn:Hu; simpl; try lia.
  by apply to_uint_not_nil in Hu.
Qed.

Lemma json_items_length l : length l <= String.length (json_items l).
Proof.
  induction l as [|n [|m l] IH]; [simpl; lia| |].
  - pose proof (py_str_nat_length n). change (json_items [n]) with (py_str_nat n).
    simpl length. lia.
  - change (json_items (n :: m :: l)) with (py_str_nat n ++ ", " ++ json_items (m :: l)).
    pose proof (py_str_nat_length n). rewrite !str_length_app.
    simpl length in *. cbn [String.length]. lia.
Qed.

(** [json.loads] inverts [json.dumps] on lists of non-negative ints. *)
Lemma json_loads_dumps_ints l : json_loads_ints (json_dumps_ints l) = Some l.
Proof.
  destruct l as [|n l]; [reflexivity|].
  unfold json_dumps_ints. rewrite str_app_cons, str_app_nil_l.
  pose proof (json_items_length (n :: l)) as Hlen.
  destruct (json_items (n :: l) ++ "]") as [|c [|c' r]] eqn:E;
    try (apply (f_equal String.length) in E; rewrite str_length_app in E;
         simpl in E, Hlen; lia).
  unfold json_loads_ints.
  replace (String.eqb (String c (String c' r)) "]") with false
    by (symmetry; apply String.eqb_neq; intros Heq; rewrite Heq in E;
        apply (f_equal String.length) in E; rewrite str_length_app in E;
        simpl in E, Hlen; lia).
  rewrite <- E. apply json_read_items_dumps; [discriminate|].
  cbn [String.length]. rewrite str_length_app. lia.
Qed.

Lemma dict_find_In es k v : dict_find es k = Some v -> exists k', In (k', v) es.
Proof.
  induction es as [|[k0 v0] es IH]; simpl; [discriminate|].
  destruct (py_eq_int k0 k).
  - intros [= ->]. eauto.
  - intros (k' & Hk')%IH. eauto.
Qed.

Lemma In_dict_assign es k v k' v' :
  In (k', v') (dict_assign es k v) -> In (k', v') es \/ v' = v.
Proof.
  induction es as [|[k0 v0] es IH]; simpl.
  - intros [[= _ ->]|[]]. by right.
  - destruct (py_eq_int k0 k); simpl.
    + intros [[= -> ->]|H]; [by right | by left; right].
    + intros [[= -> ->]|H]; [by left; left|]. destruct (IH H); [by left; right | by right].
Qed.

(** Assigning a truthy value under a key that had none, or a falsy one,
    adds one truthy entry. *)
Lemma dict_truthy_count_assign es k v :
  py_truthy v = true -> py_truthy (default PyNone (dict_find es k)) = false ->
  dict_truthy_count (dict_assign es k v) = S (dict_truthy_count es).
Proof.
  unfold dict_truthy_count. intros Hv. induction es as [|[k' v'] es IH]; simpl.
  - by rewrite Hv.
  - destruct (py_eq_int k' k); simpl; intros Hf.
    + by rewrite Hv, Hf.
    + destruct (py_truthy v'); simpl; rewrite IH; auto.
Qed.

Lemma dict_find_None_keys es k : dict_find es k = None -> ~ In (PyInt k) (map fst es).
Proof.
  induction es as [|[k' v'] es IH]; simpl; [tauto|].
  destruct (py_eq_int k' k) eqn:E; [discriminate|]. intros Hf [->|Hin]; [|by apply IH].
  simpl in E. by rewrite Z.eqb_refl in E.
Qed.

Lemma dict_assign_keys es k v :
  map fst (dict_assign es k v)
  = match dict_find es k with Some _ => map fst es | None => (map fst es ++ [PyInt k])%list end.
Proof.
  induction es as [|[k' v'] es IH]; simpl; [done|].
  destruct (py_eq_int k' k); simpl; [done|]. rewrite IH. by destruct (dict_find es k).
Qed.

(** [d[k] = v] on an int key keeps the keys distinct ints. *)
Lemma int_keyed_assign es k v : int_keyed es -> int_keyed (dict_assign es k v).
Proof.
  intros [Hk Hnd]. split.
  - induction es as [|[k' v'] es IH]; simpl; [repeat constructor; eauto|].
    inversion Hk as [|? ? Hk1 Hks]; subst. inversion Hnd; subst.
    destruct (py_eq_int k' k); constructor; auto.
  - rewrite dict_assign_keys. destruct (dict_find es k) eqn:Hf; [done|].
    apply NoDup_app. split; [done|split; [|apply NoDup_singleton]].
    intros x Hx ->%list_elem_of_singleton. apply (dict_find_None_keys es k Hf).
    by apply list_elem_of_In.
Qed.

(** A str key is never equal to an int: [d.get(n)] misses every entry
    of a dict keyed by strs. *)
Lemma dict_find_str_keys es k :
  Forall (fun p => exists s, p.1 = PyStr s) es -> dict_find es k = None.
Proof.
  induction 1 as [|[k' v] es [s Hs] _ IH]; [done|]. simpl in *. by subst k'.
Qed.

