(* ===== verification/Optuna.v ===== *)
(** * The optimisation framework's side: studies and trials

    What comet.py reads from Optuna.  [StudyDirection] and
    [FrozenTrial] are data.  The [value] property of a trial and the
    [direction] property of a study are partial: Optuna raises on them,
    and the callback can reach those raises.  The study is an
    interface.  The class [StudyHandle] lists what the callback uses:
    name, directions, the user-attribute store with [get] and
    [set_user_attr], the storage class name and the numbers of the best
    trials.  The class [StudyLaws] states the store's laws.
    [study_rec] over a [gmap] is one instance, used by the concrete
    runs. *)

From Stdlib Require Import List QArith String.
From stdpp Require Import base gmap strings list.
From S2P Require Import Prelude PyData.
Import ListNotations.
Local Open Scope string_scope.

(** [optuna.study.StudyDirection] *)
Inductive StudyDirection : Type := NOT_SET | MINIMIZE | MAXIMIZE.

#[export] Instance StudyDirection_eq_dec : EqDecision StudyDirection.
Proof. solve_decision. Defined.

(** The fields of [optuna.trial.FrozenTrial] that comet.py reads: the
    number, the parameters, and the objective values ([None] for a
    failed or pruned trial). *)
Record FrozenTrial : Type := mkTrial {
  number : nat;
  params : list (string * pyval);
  values : option (list Q)
}.

(** [FrozenTrial.value]: [None] without values, a [RuntimeError] for
    several values, the first value otherwise. *)
Definition trial_value (t : FrozenTrial) : exn + option Q :=
  match values t with
  | None => inr None
  | Some [] => inl (IndexError "list index out of range")
  | Some [v] => inr (Some v)
  | Some _ => inl (RuntimeError "value of a multi-objective trial")
  end.

(** The study as the callback sees it. *)
Class StudyHandle (S : Type) : Type := {
  study_name : S -> string;
  directions : S -> list StudyDirection;
  user_attr : S -> string -> option pyval;          (** [study.user_attrs.get(k)] *)
  set_user_attr : string -> pyval -> S -> S;        (** [study.set_user_attr(k, v)] *)
  storage_name : S -> string;                        (** [type(study._storage).__name__] *)
  best_trial_numbers : S -> list nat                (** [[t.number for t in study.best_trials]] *)
}.

(** The laws of the attribute store: a key-value store, written only by
    [set_user_attr], which changes nothing else of the study. *)
Class StudyLaws (S : Type) `{StudyHandle S} : Prop := {
  user_attr_set_eq s k v : user_attr (set_user_attr k v s) k = Some v;
  user_attr_set_ne s k k' v : k <> k' -> user_attr (set_user_attr k v s) k' = user_attr s k';
  study_name_set s k v : study_name (set_user_attr k v s) = study_name s;
  directions_set s k v : directions (set_user_attr k v s) = directions s;
  storage_name_set s k v : storage_name (set_user_attr k v s) = storage_name s;
  best_trial_numbers_set s k v : best_trial_numbers (set_user_attr k v s) = best_trial_numbers s
}.

(** [study.direction]: Optuna raises a [RuntimeError] on a
    multi-objective study. *)
Definition study_direction {Sd : Type} `{StudyHandle Sd} (s : Sd) : exn + StudyDirection :=
  match directions s with
  | [] => inl (IndexError "list index out of range")
  | [d] => inr d
  | _ => inl (RuntimeError "direction of a multi-objective study")
  end.

(** ** A concrete study *)

Record study_rec : Type := mkStudy {
  sr_name : string;
  sr_directions : list StudyDirection;
  sr_attrs : gmap string pyval;
  sr_storage : string;
  sr_best : list nat
}.

#[export] Instance study_rec_handle : StudyHandle study_rec := {
  study_name := sr_name;
  directions := sr_directions;
  user_attr s k := sr_attrs s !! k;
  set_user_attr k v s :=
    mkStudy (sr_name s) (sr_directions s) (<[k := v]> (sr_attrs s)) (sr_storage s) (sr_best s);
  storage_name := sr_storage;
  best_trial_numbers := sr_best
}.

#[export] Instance study_rec_laws : StudyLaws study_rec.
Proof.
  split; intros; simpl; try reflexivity.
  - apply lookup_insert_eq.
  - by apply lookup_insert_ne.
Qed.

Create Rewrite HintDb study_rw.
#[export] Hint Rewrite @user_attr_set_eq @study_name_set @directions_set
  @storage_name_set @best_trial_numbers_set : study_rw.

(** ** Lemmas *)

Lemma study_direction_single {Sd : Type} `{StudyHandle Sd} (s : Sd) d :
  directions s = [d] -> study_direction s = inr d.
Proof. unfold study_direction. by intros ->. Qed.

Lemma study_direction_multi {Sd : Type} `{StudyHandle Sd} (s : Sd) :
  1 < length (directions s) -> exists msg, study_direction s = inl (RuntimeError msg).
Proof.
  unfold study_direction. destruct (directions s) as [|d [|d' ds]]; simpl; intros; try lia.
  eauto.
Qed.
