(* ===== verification/CometClient.v ===== *)
(** * The tracking client: [comet_ml] as comet.py uses it

    The remote service is the trace of the calls that reach it
    ([w_trace], in order), plus a key generator ([w_next_key]).  A
    record exists when a [NewAPIExperiment] or [NewExperiment] call
    with its key is in the trace.  Records made before the process
    started (by another worker) are calls at the front of the trace.
    The process side is the table of Python [Experiment] objects
    ([w_objs], a handle is an index) with their [ended] flags, and the
    module attribute [comet_ml.active_experiment] ([w_active]), which
    only comet.py sets.  An [APIExperiment] has no local state that
    the code reads, so it is represented by its key.

    Each primitive below is one method or constructor of the client.
    Resuming a key that names no record raises [ExperimentNotFound]:
    this is the fail-fast behaviour the code relies on (spec section 7).
    A call to the service may fail: the world holds one transient fault
    ([w_fail]), and [emit] raises [ServiceError] there.  [wf_world] is
    the client's well-formedness invariant.  [fault_sound] is the
    contract of a program under one fault, proved here for every
    primitive, with the lemmas that compose it and that reduce a run on
    a faulty service to a run on a reliable one. *)

From Stdlib Require Import List QArith String Ascii DecimalString DecimalNat.
From stdpp Require Import base list strings.
From S2P Require Import Prelude PyData Optuna.
Import ListNotations.
Local Open Scope string_scope.

(** The arguments of [Experiment.log_optimization]. *)
Record optimization : Type := mkOpt {
  opt_id : string;
  opt_metric_name : string;
  opt_metric_value : option Q;
  opt_parameters : list (string * pyval);
  opt_objective : StudyDirection
}.

(** A call that reaches the tracking service. *)
Inductive call : Type :=
| GetDefaultWorkspace
| NewAPIExperiment (ws : string) (proj : option string) (key : string)
| ResumeAPIExperiment (key : string)
| NewExperiment (ws : string) (proj : option string) (key : string)
| ResumeExperiment (key : string)
| AddTag (key tag : string)
| LogOther (key name : string) (v : pyval)
| LogParameters (key : string) (ps : list (string * pyval))
| LogMetric (key name : string) (v : Q)
| LogOptimization (key : string) (o : optimization)
| EndExperiment (key : string).

(** A Python [comet_ml.Experiment] object. *)
Record ExpObj : Type := mkObj { o_key : string; o_ended : bool }.

Record world : Type := mkWorld {
  w_trace : list call;
  w_next_key : nat;
  w_objs : list ExpObj;
  w_active : option nat;
  w_default_ws : string;
  w_fail : option nat
}.

Abbreviation CM := (M exn world).

(** ** The remote store, read off the trace *)

Definition key_of (n : nat) : string := "exp-" ++ py_str_nat n.

Definition creates (k : string) (c : call) : bool :=
  match c with
  | NewAPIExperiment _ _ k' | NewExperiment _ _ k' => String.eqb k' k
  | _ => false
  end.

Definition known (tr : list call) (k : string) : bool := existsb (creates k) tr.
Arguments known : simpl never.

(** The value the record [k] holds for the "other" [name]: the last one
    logged ([log_other] overwrites). *)
Definition other_of (tr : list call) (k name : string) : option pyval :=
  fold_left (fun acc c =>
               match c with
               | LogOther k' n v => if String.eqb k' k && String.eqb n name then Some v else acc
               | _ => acc
               end) tr None.

(** ** Primitives *)

Definition set_trace (tr : list call) (w : world) : world :=
  mkWorld tr (w_next_key w) (w_objs w) (w_active w) (w_default_ws w) (w_fail w).
Definition set_next_key (n : nat) (w : world) : world :=
  mkWorld (w_trace w) n (w_objs w) (w_active w) (w_default_ws w) (w_fail w).
Definition set_objs (os : list ExpObj) (w : world) : world :=
  mkWorld (w_trace w) (w_next_key w) os (w_active w) (w_default_ws w) (w_fail w).
Definition set_active_ (a : option nat) (w : world) : world :=
  mkWorld (w_trace w) (w_next_key w) (w_objs w) a (w_default_ws w) (w_fail w).

Definition set_fail (f : option nat) (w : world) : world :=
  mkWorld (w_trace w) (w_next_key w) (w_objs w) (w_active w) (w_default_ws w) f.

(** The service fails the call it is sent now: the transient fault is
    set at the position the call would take in the trace. *)
Definition fails_now (w : world) : bool :=
  match w_fail w with
  | Some n => Nat.eqb n (length (w_trace w))
  | None => false
  end.

Arguments fails_now : simpl never.

(** A call is sent to the service.  It reaches it, or the connection
    fails: the client raises, the call is not recorded, and the fault is
    spent. *)
Definition emit (c : call) : CM unit :=
  w <- mget ;;
  if fails_now w then mput (set_fail None w) ;;; raise ServiceError
  else mput (set_trace (w_trace w ++ [c]) w).

Definition fresh_key : CM string :=
  w <- mget ;;
  mput (set_next_key (S (w_next_key w)) w) ;;;
  mret (key_of (w_next_key w)).

(** A new Python [Experiment] object for the record [k]. *)
Definition alloc_obj (k : string) : CM nat :=
  w <- mget ;;
  mput (set_objs (w_objs w ++ [mkObj k false]) w) ;;;
  mret (length (w_objs w)).

Definition obj (h : nat) : CM ExpObj :=
  w <- mget ;;
  match w_objs w !! h with
  | Some o => mret o
  | None => raise ReferenceError
  end.

(** The key a Python value names, when it names a record. *)
Definition resolve_key (kv : pyval) : CM string :=
  w <- mget ;;
  match kv with
  | PyStr k => if known (w_trace w) k then mret k else raise (ExperimentNotFound kv)
  | _ => raise (ExperimentNotFound kv)
  end.

(** [comet_ml.api.API().get_default_workspace()] *)
Definition api_get_default_workspace : CM string :=
  emit GetDefaultWorkspace ;;;
  w <- mget ;;
  mret (w_default_ws w).

(** [comet_ml.APIExperiment(workspace=ws, project_name=proj)] *)
Definition new_api_experiment (ws : string) (proj : option string) : CM string :=
  k <- fresh_key ;;
  emit (NewAPIExperiment ws proj k) ;;;
  mret k.

(** [comet_ml.APIExperiment(previous_experiment=kv)] *)
Definition resume_api_experiment (kv : pyval) : CM string :=
  k <- resolve_key kv ;;
  emit (ResumeAPIExperiment k) ;;;
  mret k.

(** [comet_ml.Experiment(workspace=ws, project_name=proj)] *)
Definition new_experiment (ws : string) (proj : option string) : CM nat :=
  k <- fresh_key ;;
  emit (NewExperiment ws proj k) ;;;
  alloc_obj k.

(** [comet_ml.ExistingExperiment(previous_experiment=kv)] *)
Definition existing_experiment (kv : pyval) : CM nat :=
  k <- resolve_key kv ;;
  emit (ResumeExperiment k) ;;;
  alloc_obj k.

(** Methods of an [APIExperiment] (by key). *)
Definition api_add_tag (k tag : string) : CM unit := emit (AddTag k tag).
Definition api_log_other (k name : string) (v : pyval) : CM unit := emit (LogOther k name v).

(** Methods of an [Experiment] object (by handle). *)
Definition exp_get_key (h : nat) : CM string := o <- obj h ;; mret (o_key o).
Definition exp_ended (h : nat) : CM bool := o <- obj h ;; mret (o_ended o).
Definition exp_add_tag (h : nat) (tag : string) : CM unit :=
  o <- obj h ;; emit (AddTag (o_key o) tag).
Definition exp_log_other (h : nat) (name : string) (v : pyval) : CM unit :=
  o <- obj h ;; emit (LogOther (o_key o) name v).
Definition exp_log_parameters (h : nat) (ps : list (string * pyval)) : CM unit :=
  o <- obj h ;; emit (LogParameters (o_key o) ps).
Definition exp_log_metric (h : nat) (name : string) (v : Q) : CM unit :=
  o <- obj h ;; emit (LogMetric (o_key o) name v).
Definition exp_log_optimization (h : nat) (opt : optimization) : CM unit :=
  o <- obj h ;; emit (LogOptimization (o_key o) opt).

(** [experiment.end()]: the session is closed and [ended] set. *)
Definition exp_end (h : nat) : CM unit :=
  o <- obj h ;;
  emit (EndExperiment (o_key o)) ;;;
  w <- mget ;;
  mput (set_objs (<[h := mkObj (o_key o) true]> (w_objs w)) w).

(** The world after [experiment.end()] on the object [h], which was [o]. *)
Definition end_world (h : nat) (o : ExpObj) (w : world) : world :=
  mkWorld (w_trace w ++ [EndExperiment (o_key o)]) (w_next_key w)
          (<[h := mkObj (o_key o) true]> (w_objs w)) (w_active w) (w_default_ws w) (w_fail w).

(** [comet_ml.active_experiment] (absent: [None]) and [setattr]. *)
Definition get_active : CM (option nat) := w <- mget ;; mret (w_active w).
Definition set_active (h : nat) : CM unit := mmodify (set_active_ (Some h)).

(** ** The invariant of the client *)

(** Every experiment object that is still open is the active one. *)
Definition at_most_one_open (w : world) : Prop :=
  forall h o, w_objs w !! h = Some o -> o_ended o = false -> w_active w = Some h.

(** The key a creation call makes. *)
Definition created_key (c : call) : option string :=
  match c with
  | NewAPIExperiment _ _ k | NewExperiment _ _ k => Some k
  | _ => None
  end.

(** The counter value a key of the form [key_of i] was made from. *)
Definition key_index (k : string) : option nat :=
  match k with
  | String "e" (String "x" (String "p" (String "-" r))) =>
      match read_digits r with
      | (Decimal.Nil, _) => None
      | (u, EmptyString) => Some (Nat.of_uint u)
      | _ => None
      end
  | _ => None
  end.

Record wf_world (w : world) : Prop := {
  wf_objs_known : forall h o, w_objs w !! h = Some o -> known (w_trace w) (o_key o) = true;
  wf_active_valid : forall h, w_active w = Some h -> is_Some (w_objs w !! h);
  wf_one_open : at_most_one_open w;
  wf_fresh : forall c k i, In c (w_trace w) -> created_key c = Some k ->
             key_index k = Some i -> i < w_next_key w;
  wf_reliable : w_fail w = None
}.

(** A checker of [wf_world], for concrete worlds. *)
Definition wf_worldb (w : world) : bool :=
  forallb (fun o => known (w_trace w) (o_key o)) (w_objs w) &&
  match w_active w with Some h => Nat.ltb h (length (w_objs w)) | None => true end &&
  forallb (fun p => o_ended p.2 || bool_decide (w_active w = Some p.1))
          (imap pair (w_objs w)) &&
  forallb (fun c => match created_key c with
                    | Some k => match key_index k with
                                | Some i => Nat.ltb i (w_next_key w)
                                | None => true
                                end
                    | None => true
                    end) (w_trace w) &&
  bool_decide (w_fail w = None).

(** No experiment object of the process is open. *)
Definition all_ended (w : world) : Prop :=
  forall h o, w_objs w !! h = Some o -> o_ended o = true.

(** The number of calls of a kind in a trace. *)
Definition count_calls (f : call -> bool) (tr : list call) : nat := length (List.filter f tr).
Arguments count_calls : simpl never.

Definition is_new_experiment (c : call) : bool :=
  match c with NewExperiment _ _ _ => true | _ => false end.

Definition is_new_api_experiment (c : call) : bool :=
  match c with NewAPIExperiment _ _ _ => true | _ => false end.

(** ** Service faults

    A transient fault makes the call at one position of the trace fail
    ([w_fail]).  The methods of comet.py run over states that hold the
    world (the world itself, or the callback object and the world); the
    class below is that interface.  [fault_sound m] is the contract of a
    program under one fault: on a reliable world it keeps the service
    reliable and only extends the trace; a fault at a position the run
    reaches makes it raise [ServiceError] after exactly the calls before
    that position; a fault at any other position changes nothing. *)
Class WorldState (St : Type) := {
  st_world : St -> world;
  st_with_world : world -> St -> St;
  st_world_with w s : st_world (st_with_world w s) = w;
  st_with_world_twice w w' s : st_with_world w (st_with_world w' s) = st_with_world w s;
  st_with_world_same s : st_with_world (st_world s) s = s
}.

#[export] Instance world_state : WorldState world :=
  { st_world w := w; st_with_world w _ := w;
    st_world_with _ _ := eq_refl; st_with_world_twice _ _ _ := eq_refl;
    st_with_world_same _ := eq_refl }.

Section FaultContract.
Context {St : Type} `{!WorldState St}.

Definition st_trace (s : St) : list call := w_trace (st_world s).

(** The state [s] with a transient fault at the call of index [n]. *)
Definition inject_fault (n : nat) (s : St) : St :=
  st_with_world (set_fail (Some n) (st_world s)) s.

Definition fault_sound {A} (m : M exn St A) : Prop :=
  forall s r s', w_fail (st_world s) = None -> m s = (r, s') ->
  w_fail (st_world s') = None /\ st_trace s `prefix_of` st_trace s' /\
  forall n,
    (length (st_trace s) <= n < length (st_trace s') ->
     exists s'', m (inject_fault n s) = (inl ServiceError, s'') /\
                 st_trace s'' = take n (st_trace s') /\ w_fail (st_world s'') = None) /\
    (~ (length (st_trace s) <= n < length (st_trace s')) ->
     m (inject_fault n s) = (r, inject_fault n s')).

(** A program that sends no call: it runs alike whatever the fault. *)
Definition fault_free {A} (m : M exn St A) : Prop :=
  forall s r s' f, m s = (r, s') ->
  m (st_with_world (set_fail f (st_world s)) s) = (r, st_with_world (set_fail f (st_world s')) s') /\
  st_trace s' = st_trace s /\ w_fail (st_world s') = w_fail (st_world s).
End FaultContract.

(** ** Lemmas *)

Lemma fails_now_false w : w_fail w = None -> fails_now w = false.
Proof. unfold fails_now. by intros ->. Qed.

Lemma fails_now_at w n : w_fail w = Some n -> fails_now w = Nat.eqb n (length (w_trace w)).
Proof. unfold fails_now. by intros ->. Qed.

(** On a reliable world no call fails: discharge the guards of [emit]. *)
Ltac reliable_side :=
  cbn; first [assumption | done | by apply wf_reliable | by eapply wf_reliable; eassumption].
Ltac reliable :=
  repeat match goal with
         | |- context [fails_now ?X] => rewrite (fails_now_false X) by reliable_side
         | H : context [fails_now ?X] |- _ => rewrite (fails_now_false X) in H by reliable_side
         end.

(** On a world with a fault at a known position, decide each guard of
    [emit] by the length of the trace. *)
Ltac faulty :=
  repeat match goal with
         | |- context [fails_now ?X] => rewrite (fails_now_at X _ eq_refl)
         end;
  repeat match goal with
         | |- context [Nat.eqb ?a ?b] =>
             first [ rewrite (proj2 (Nat.eqb_eq a b)) by (cbn; rewrite ?length_app; cbn; lia)
                   | rewrite (proj2 (Nat.eqb_neq a b)) by (cbn; rewrite ?length_app; cbn; lia) ]
         end.

(** Unfold the client's primitives and run the monad. *)
Ltac unfold_client :=
  unfold new_api_experiment, resume_api_experiment, new_experiment, existing_experiment,
    api_get_default_workspace, api_add_tag, api_log_other, exp_get_key, exp_ended,
    exp_add_tag, exp_log_other, exp_log_parameters, exp_log_metric, exp_log_optimization,
    exp_end, get_active, set_active, emit, fresh_key, alloc_obj, obj, resolve_key,
    set_trace, set_next_key, set_objs, set_active_, set_fail in *.
Ltac crun := unfold_client; cm_simp; reliable; cm_simp.

(** On a reliable world a call reaches the service. *)
Lemma emit_run c w :
  w_fail w = None -> emit c w = (inr tt, set_trace (w_trace w ++ [c]) w).
Proof. intros Hr. by crun. Qed.

Lemma lookup_snoc_length {A} (l : list A) x : ((l ++ [x]) !! length l)%list = Some x.
Proof. by rewrite lookup_app_r, Nat.sub_diag by lia. Qed.

(** Run the monad on a world with a fault at a known position. *)
Ltac frun := unfold_client; cm_simp; repeat progress (rewrite ?lookup_snoc_length; faulty; cm_simp).

(** A loop whose bodies agree on the worlds it passes through runs
    alike. *)
Lemma mfor_enum_ext {A} (P : world -> Prop) (body body' : nat -> A -> CM unit) :
  (forall i x w, P w -> body i x w = body' i x w) ->
  (forall i x w u w', P w -> body' i x w = (inr u, w') -> P w') ->
  forall l i w, P w -> mfor_enum i l body w = mfor_enum i l body' w.
Proof.
  intros Heq Hpres l. induction l as [|x l IH]; intros i w Hw; [reflexivity|].
  simpl. unfold mbind. rewrite Heq by done.
  destruct (body' i x w) as [[e|u] w1] eqn:E; [reflexivity|].
  apply IH. eapply Hpres; eauto.
Qed.

Lemma known_app tr tr' k : known (tr ++ tr') k = known tr k || known tr' k.
Proof. apply existsb_app. Qed.

Lemma known_app_l tr tr' k : known tr k = true -> known (tr ++ tr') k = true.
Proof. rewrite known_app. by intros ->. Qed.

Lemma known_creation_call tr ws proj k : known (tr ++ [NewExperiment ws proj k]) k = true.
Proof. rewrite known_app. unfold known at 2. simpl. rewrite String.eqb_refl. apply orb_true_r. Qed.

Lemma known_In tr c k : In c tr -> created_key c = Some k -> known tr k = true.
Proof.
  intros Hin Hc. unfold known. apply existsb_exists. exists c. split; [done|].
  destruct c; simpl in Hc; try discriminate; injection Hc as ->; apply String.eqb_refl.
Qed.

#[export] Hint Resolve known_app_l known_creation_call : cm.

Lemma key_of_inj n m : key_of n = key_of m -> n = m.
Proof. unfold key_of. intros H. apply String.app_inj in H. by apply py_str_nat_inj. Qed.

Lemma key_of_truthy n : py_truthy (PyStr (key_of n)) = true.
Proof. unfold key_of. by rewrite !str_app_cons. Qed.

Lemma count_calls_app f tr tr' : count_calls f (tr ++ tr') = count_calls f tr + count_calls f tr'.
Proof. unfold count_calls. by rewrite List.filter_app, length_app. Qed.

Lemma count_calls_cons f c tr :
  count_calls f (c :: tr) = (if f c then 1 else 0) + count_calls f tr.
Proof. unfold count_calls. cbn. by destruct (f c). Qed.

Lemma count_calls_nil f : count_calls f [] = 0.
Proof. reflexivity. Qed.

#[export] Hint Rewrite count_calls_app count_calls_cons count_calls_nil : cm_rw.

(** A loop whose body only emits one call per element emits them all,
    in order. *)
Lemma mfor_enum_emit {A} (f : nat -> A -> call) (l : list A) i w :
  w_fail w = None ->
  mfor_enum i l (fun j x => emit (f j x)) w
  = (inr tt, set_trace (w_trace w ++ imap (fun j => f (i + j)) l) w).
Proof.
  revert i w. induction l as [|x l IH]; intros i w Hr; cbn [mfor_enum imap].
  - rewrite app_nil_r. by destruct w.
  - unfold mbind at 1. rewrite emit_run by done. rewrite IH by done. simpl. rewrite Nat.add_0_r.
    rewrite <- app_assoc. simpl.
    assert (imap (fun j => f (S (i + j))) l = imap ((fun j => f (i + j)) ∘ S) l) as ->.
    { apply imap_ext. intros j y _. simpl. f_equal. lia. }
    reflexivity.
Qed.

(** The last [log_other] of a name wins. *)
Lemma other_of_app tr tr' k name :
  other_of (tr ++ tr') k name
  = fold_left (fun acc c =>
                 match c with
                 | LogOther k' n v => if String.eqb k' k && String.eqb n name then Some v else acc
                 | _ => acc
                 end) tr' (other_of tr k name).
Proof. unfold other_of. by rewrite fold_left_app. Qed.

Lemma other_of_app_single tr c k name :
  other_of (tr ++ [c]) k name
  = match c with
    | LogOther k' n v => if String.eqb k' k && String.eqb n name then Some v else other_of tr k name
    | _ => other_of tr k name
    end.
Proof. rewrite other_of_app. by destruct c. Qed.

Lemma other_of_last tr k name v :
  other_of (tr ++ [LogOther k name v]) k name = Some v.
Proof. rewrite other_of_app. simpl. by rewrite !String.eqb_refl. Qed.

Lemma other_of_skip tr c k name :
  (forall k' n v, c = LogOther k' n v -> k' <> k \/ n <> name) ->
  other_of (tr ++ [c]) k name = other_of tr k name.
Proof.
  intros H. rewrite other_of_app. simpl. destruct c; try reflexivity.
  destruct (H key name0 v eq_refl) as [Hne|Hne];
    [apply String.eqb_neq in Hne; by rewrite Hne
    |apply String.eqb_neq in Hne; by rewrite Hne, andb_false_r].
Qed.

Lemma key_index_key_of i : key_index (key_of i) = Some i.
Proof.
  unfold key_of, key_index, py_str_nat.
  change ("exp-" ++ ?s) with (String "e" (String "x" (String "p" (String "-" s)))).
  cbv beta iota.
  rewrite <- (str_app_nil_r (NilEmpty.string_of_uint (Nat.to_uint i))) at 1.
  rewrite read_digits_string_of_uint by exact I.
  destruct (Nat.to_uint i) eqn:Hu; try (rewrite <- Hu, Unsigned.of_to; reflexivity).
  by apply to_uint_not_nil in Hu.
Qed.

Lemma known_created tr k :
  known tr k = true -> exists c, In c tr /\ created_key c = Some k.
Proof.
  unfold known. rewrite existsb_exists. intros (c & Hin & Hc). exists c. split; [done|].
  destruct c; simpl in Hc; try discriminate; apply String.eqb_eq in Hc; by subst.
Qed.

(** Keys from the generator at or above its counter are unused. *)
Lemma wf_fresh_known w i : wf_world w -> w_next_key w <= i -> known (w_trace w) (key_of i) = false.
Proof.
  intros Hwf Hi. destruct (known (w_trace w) (key_of i)) eqn:E; [|done].
  apply known_created in E as (c & Hin & Hc).
  pose proof (wf_fresh w Hwf c _ i Hin Hc (key_index_key_of i)). lia.
Qed.

Lemma wf_worldb_sound w : wf_worldb w = true -> wf_world w.
Proof.
  unfold wf_worldb. rewrite !andb_true_iff, !forallb_forall.
  intros [[[[Hk Ha] Ho] Hf] Hr%bool_decide_eq_true]. split; [..|exact Hr].
  - intros h o Hh. apply Hk. apply list_elem_of_In. by eapply list_elem_of_lookup_2.
  - intros h Hh. rewrite Hh in Ha. apply Nat.ltb_lt in Ha. by apply lookup_lt_is_Some_2.
  - intros h o Hh Hend. specialize (Ho (h, o)).
    rewrite <- list_elem_of_In in Ho.
    specialize (Ho (elem_of_lookup_imap_2 pair _ _ _ Hh)).
    simpl in Ho. rewrite Hend in Ho. simpl in Ho. by apply bool_decide_eq_true in Ho.
  - intros c k i Hin Hc Hi. specialize (Hf c Hin). rewrite Hc, Hi in Hf.
    by apply Nat.ltb_lt in Hf.
Qed.

Lemma count_calls_none f tr : (forall c, In c tr -> f c = false) -> count_calls f tr = 0.
Proof.
  unfold count_calls. induction tr as [|c tr IH]; intros H; [done|]. cbn.
  rewrite (H c (or_introl eq_refl)). apply IH. intros c' Hc'. apply H. by right.
Qed.

(** Calls produced by a map over a list are all of the mapped shape. *)
Lemma In_imap_inv {A} (g : nat -> A -> call) l c :
  In c (imap g l) -> exists i x, c = g i x.
Proof.
  rewrite <- list_elem_of_In. intros (i & x & -> & _)%elem_of_lookup_imap_1. eauto.
Qed.

(** *** Preservation of [wf_world] *)

(** Calls that create nothing keep the invariant. *)
Lemma wf_push w tr :
  wf_world w -> (forall c, In c tr -> created_key c = None) ->
  wf_world (set_trace (w_trace w ++ tr) w).
Proof.
  intros Hwf Htr. destruct Hwf as [Hk Ha Ho Hf Hr]. split; simpl; try done.
  - intros h o Hh. by apply known_app_l, (Hk h).
  - intros c k i [Hin|Hin]%in_app_or Hc Hi; [by eapply Hf|].
    rewrite (Htr c Hin) in Hc. discriminate.
Qed.

Lemma wf_end w a o :
  wf_world w -> w_objs w !! a = Some o -> wf_world (end_world a o w).
Proof.
  intros Hwf Ha. destruct Hwf as [Hk Hv Ho Hf Hr]. unfold at_most_one_open in *.
  split; unfold at_most_one_open; simpl; [..|done].
  - intros h o' Hh. apply known_app_l. destruct (decide (h = a)) as [->|Hne].
    + rewrite list_lookup_insert_eq in Hh by (eapply lookup_lt_Some; eauto).
      injection Hh as <-. simpl. by apply (Hk a).
    + rewrite list_lookup_insert_ne in Hh by done. by apply (Hk h).
  - intros h Hh. apply lookup_lt_is_Some. rewrite length_insert.
    apply lookup_lt_is_Some. by apply Hv.
  - intros h o' Hh Hend. destruct (decide (h = a)) as [->|Hne].
    + rewrite list_lookup_insert_eq in Hh by (eapply lookup_lt_Some; eauto).
      injection Hh as <-. discriminate.
    + rewrite list_lookup_insert_ne in Hh by done. by apply (Ho h o').
  - intros c k i [Hin|[<-|[]]]%in_app_or Hc Hi; [by eapply Hf|discriminate].
Qed.

(** The active object of a well-formed world, once ended, leaves no
    open object. *)
Lemma all_ended_after_end w a o :
  wf_world w -> w_active w = Some a -> w_objs w !! a = Some o -> all_ended (end_world a o w).
Proof.
  intros Hwf Hact Ha h o' Hh. simpl in Hh. destruct (decide (h = a)) as [->|Hne].
  - rewrite list_lookup_insert_eq in Hh by (eapply lookup_lt_Some; eauto).
    by injection Hh as <-.
  - rewrite list_lookup_insert_ne in Hh by done.
    destruct (o_ended o') eqn:E; [done|].
    pose proof (wf_one_open w Hwf h o' Hh E). congruence.
Qed.

Lemma all_ended_active_ended w a o :
  wf_world w -> w_active w = Some a -> w_objs w !! a = Some o -> o_ended o = true -> all_ended w.
Proof.
  intros Hwf Hact Ha Hend h o' Hh. destruct (o_ended o') eqn:E; [done|].
  pose proof (wf_one_open w Hwf h o' Hh E). rewrite Hact in H. injection H as ->. congruence.
Qed.

Lemma all_ended_no_active w : wf_world w -> w_active w = None -> all_ended w.
Proof.
  intros Hwf Hact h o Hh. destruct (o_ended o) eqn:E; [done|].
  pose proof (wf_one_open w Hwf h o Hh E). congruence.
Qed.

(** A new object for a known record, made active when nothing else is
    open, keeps the invariant. *)
Lemma wf_alloc_active w tr n k :
  wf_world w -> all_ended w ->
  (forall c, In c tr -> forall k' i, created_key c = Some k' -> key_index k' = Some i -> i < n) ->
  w_next_key w <= n -> known (w_trace w ++ tr) k = true ->
  wf_world (mkWorld (w_trace w ++ tr) n (w_objs w ++ [mkObj k false])
                    (Some (length (w_objs w))) (w_default_ws w) (w_fail w)).
Proof.
  intros Hwf Hall Htr Hn Hkn. destruct Hwf as [Hk Hv Ho Hf Hr]. unfold at_most_one_open in *.
  split; unfold at_most_one_open; simpl; [..|done].
  - intros h o Hh. apply lookup_app_Some in Hh as [Hh|[Hlen Hh]].
    + by apply known_app_l, (Hk h).
    + apply list_lookup_singleton_Some in Hh as [_ <-]. done.
  - intros h [= <-]. rewrite lookup_snoc_length. eauto.
  - intros h o Hh Hend. apply lookup_app_Some in Hh as [Hh|[Hlen Hh]].
    + rewrite (Hall h o Hh) in Hend. discriminate.
    + apply list_lookup_singleton_Some in Hh as [Hi _]. f_equal. lia.
  - intros c k' i [Hin|Hin]%in_app_or Hc Hi.
    + pose proof (Hf c k' i Hin Hc Hi). lia.
    + by apply (Htr c Hin k' i).
Qed.

(** *** Service faults *)

Lemma take_prefix_le {A} (l1 l2 : list A) n :
  l1 `prefix_of` l2 -> n <= length l1 -> take n l1 = take n l2.
Proof. intros [k ->] Hn. by rewrite take_app_le. Qed.

Create HintDb fsound discriminated.

Section FaultLemmas.
Context {St : Type} `{!WorldState St}.

Lemma fault_free_sound {A} (m : M exn St A) : fault_free m -> fault_sound m.
Proof.
  intros Hm s r s' Hr Hrun. destruct (Hm s r s' None Hrun) as (_ & Htr & Hf).
  split_and!; [congruence|by rewrite Htr|]. intros n. split; [rewrite Htr; lia|].
  intros _. unfold inject_fault. by destruct (Hm s r s' (Some n) Hrun) as [-> _].
Qed.

Lemma fs_ret {A} (a : A) : fault_sound (St:=St) (mret a).
Proof. apply fault_free_sound. intros s r s' f [= <- <-]. done. Qed.

Lemma fs_raise {A} e : fault_sound (St:=St) (A:=A) (raise e).
Proof. apply fault_free_sound. intros s r s' f [= <- <-]. done. Qed.

Lemma fs_of_sum {A} (x : exn + A) : fault_sound (St:=St) (of_sum x).
Proof. apply fault_free_sound. intros s r s' f [= <- <-]. done. Qed.

(** The contract composes: a fault before the continuation runs stops
    the program there, one after leaves the first half alone. *)
Lemma fs_bind {A B} (m : M exn St A) (k : A -> M exn St B) :
  fault_sound m -> (forall a, fault_sound (k a)) -> fault_sound (mbind m k).
Proof.
  intros Hm Hk s r s2 Hr Hrun. unfold mbind in Hrun |- *.
  destruct (m s) as [[e|a] s1] eqn:E1;
    destruct (Hm s _ s1 Hr E1) as (Hr1 & Hp1 & Hn1).
  - injection Hrun as <- <-. split_and!; [done|done|]. intros n.
    destruct (Hn1 n) as [Hin Hout]. split.
    + intros Hlt. destruct (Hin Hlt) as (s'' & E & ?). exists s''. by rewrite E.
    + intros Hlt. by rewrite (Hout Hlt).
  - destruct (Hk a s1 r s2 Hr1 Hrun) as (Hr2 & Hp2 & Hn2).
    pose proof (prefix_length _ _ Hp1). pose proof (prefix_length _ _ Hp2).
    split_and!; [done|by etrans|]. intros n.
    destruct (Hn1 n) as [Hin1 Hout1], (Hn2 n) as [Hin2 Hout2].
    destruct (decide (n < length (st_trace s1))).
    + destruct (decide (length (st_trace s) <= n)).
      * split; [|intros; lia]. intros _. destruct (Hin1 ltac:(lia)) as (s'' & E & Ht & Hf).
        exists s''. rewrite E. split_and!; [done| |done]. rewrite Ht.
        apply take_prefix_le; [done|lia].
      * split; [intros; lia|]. intros _. rewrite (Hout1 ltac:(lia)). apply Hout2. lia.
    + rewrite (Hout1 ltac:(lia)). split; intros; [apply Hin2|apply Hout2]; lia.
Qed.

Lemma fs_mfor_enum {A} i (l : list A) (body : nat -> A -> M exn St unit) :
  (forall j x, fault_sound (body j x)) -> fault_sound (mfor_enum i l body).
Proof.
  intros Hb. revert i. induction l as [|x l IH]; intros i; simpl; [apply fs_ret|].
  apply fs_bind; auto.
Qed.

Lemma set_fail_twice f g w : set_fail f (set_fail g w) = set_fail f w.
Proof. by destruct w. Qed.

Lemma set_fail_same w : set_fail (w_fail w) w = w.
Proof. by destruct w. Qed.

(** The state [s] with its fault removed. *)
Lemma fault_reduce {A} (m : M exn St A) s r s' :
  fault_sound m -> m s = (r, s') ->
  r = inl ServiceError \/
  m (st_with_world (set_fail None (st_world s)) s)
  = (r, st_with_world (set_fail None (st_world s')) s').
Proof.
  intros Hm Hrun. set (s0 := st_with_world (set_fail None (st_world s)) s).
  assert (Hr0 : w_fail (st_world s0) = None) by (unfold s0; by rewrite st_world_with).
  destruct (m s0) as [r0 s0'] eqn:E0.
  destruct (Hm s0 r0 s0' Hr0 E0) as (Hr0' & _ & Hn).
  destruct (w_fail (st_world s)) as [n|] eqn:Hf.
  - assert (Hs : inject_fault n s0 = s).
    { unfold inject_fault, s0. rewrite st_world_with, st_with_world_twice, set_fail_twice.
      rewrite <- Hf, set_fail_same. apply st_with_world_same. }
    destruct (Hn n) as [Hin Hout].
    destruct (decide (length (st_trace s0) <= n < length (st_trace s0'))) as [Hlt|Hlt].
    + left. destruct (Hin Hlt) as (s'' & E & _). rewrite Hs in E. congruence.
    + right. rewrite <- Hs in Hrun. rewrite (Hout Hlt) in Hrun. injection Hrun as <- <-.
      unfold inject_fault. rewrite st_world_with, set_fail_twice, st_with_world_twice.
      rewrite <- Hr0', set_fail_same, st_with_world_same. done.
  - right. assert (Hs : s0 = s).
    { unfold s0. rewrite <- Hf, set_fail_same. apply st_with_world_same. }
    rewrite Hs, Hrun in E0. injection E0 as <- <-.
    rewrite <- Hr0', set_fail_same. by rewrite st_with_world_same.
Qed.

(** A run that returns returns alike without the fault. *)
Lemma runs_reduce {A} (m : M exn St A) s a s' :
  fault_sound m -> m s = (inr a, s') ->
  m (st_with_world (set_fail None (st_world s)) s)
  = (inr a, st_with_world (set_fail None (st_world s')) s').
Proof. intros Hm Hrun. by destruct (fault_reduce m s _ s' Hm Hrun) as [[=]|?]. Qed.

(** A property of the outcome that a service failure satisfies, and
    that only reads the world through what the fault does not change,
    holds on every service once it holds on the reliable ones. *)
Lemma fault_transfer {A} (m : M exn St A) (P : exn + A -> St -> Prop) s :
  fault_sound m ->
  (forall s', P (inl ServiceError) s') ->
  (forall r s', P r (st_with_world (set_fail None (st_world s')) s') -> P r s') ->
  (forall s0, w_fail (st_world s0) = None -> match m s0 with (r, s') => P r s' end) ->
  match m s with (r, s') => P r s' end.
Proof.
  intros Hm Hse Hfail Hrel. destruct (m s) as [r s'] eqn:E.
  destruct (fault_reduce m s r s' Hm E) as [->|E0]; [apply Hse|].
  apply Hfail. specialize (Hrel (st_with_world (set_fail None (st_world s)) s)).
  rewrite E0 in Hrel. apply Hrel. by rewrite st_world_with.
Qed.

(** A reliable service stays reliable. *)
Lemma fault_sound_reliable {A} (m : M exn St A) s r s' :
  fault_sound m -> w_fail (st_world s) = None -> m s = (r, s') -> w_fail (st_world s') = None.
Proof. intros Hm Hr Hrun. by destruct (Hm s r s' Hr Hrun). Qed.
End FaultLemmas.

#[export] Hint Resolve fs_ret fs_raise fs_of_sum : fsound.

(** Replace a world of the goal by the same world without its fault,
    known to be reliable. *)
Ltac reliable_world w :=
  let Hr := fresh "Hr" in
  assert (Hr : w_fail (set_fail None w) = None) by reflexivity; revert Hr;
  try change (w_trace w) with (w_trace (set_fail None w));
  generalize (set_fail None w); clear w; intros w Hr.

(** Client primitives that send no call. *)
Ltac ff_world :=
  intros [] ? ? ? Hrun; unfold_client; cm_simp; repeat case_match; simplify_eq;
  split_and!; reflexivity.

(** Prove the contract of a program by its structure. *)
Ltac fsound :=
  repeat match goal with
         | |- forall _, _ => intro
         | |- fault_sound (mbind mget _) => apply fault_free_sound; ff_world
         | |- fault_sound (mbind _ _) => apply fs_bind
         | |- fault_sound (mfor_enum _ _ _) => apply fs_mfor_enum
         | |- fault_sound _ => solve [eauto with fsound]
         | |- fault_sound _ => case_match
         end.

Lemma fs_emit c : fault_sound (emit c).
Proof.
  intros w r w' Hr Hrun. simpl in Hr. rewrite emit_run in Hrun by done.
  injection Hrun as <- <-. unfold st_trace; simpl.
  split_and!; [done|by apply prefix_app_r|]. intros n. rewrite length_app. simpl.
  unfold inject_fault, emit, fails_now. cm_simp.
  destruct (decide (n = length (w_trace w))) as [->|Hne].
  - rewrite Nat.eqb_refl. split; [|intros; lia]. intros _.
    eexists. split_and!; [reflexivity| |reflexivity]. simpl. by rewrite take_app_length.
  - assert (Hb : Nat.eqb n (length (w_trace w)) = false) by (by apply Nat.eqb_neq).
    rewrite Hb. split; [intros; lia|]. by destruct w.
Qed.

Lemma fs_fresh_key : fault_sound fresh_key.
Proof. apply fault_free_sound. ff_world. Qed.
Lemma fs_alloc_obj k : fault_sound (alloc_obj k).
Proof. apply fault_free_sound. ff_world. Qed.
Lemma fs_obj h : fault_sound (obj h).
Proof. apply fault_free_sound. ff_world. Qed.
Lemma fs_resolve_key kv : fault_sound (resolve_key kv).
Proof. apply fault_free_sound. ff_world. Qed.
Lemma fs_get_active : fault_sound get_active.
Proof. apply fault_free_sound. ff_world. Qed.
Lemma fs_set_active h : fault_sound (set_active h).
Proof. apply fault_free_sound. ff_world. Qed.

#[export] Hint Resolve fs_emit fs_fresh_key fs_alloc_obj fs_obj fs_resolve_key
  fs_get_active fs_set_active : fsound.

Lemma fs_api_get_default_workspace : fault_sound (api_get_default_workspace ).
Proof. unfold api_get_default_workspace. fsound. Qed.
Lemma fs_exp_get_key h : fault_sound (exp_get_key h).
Proof. unfold exp_get_key. fsound. Qed.
Lemma fs_exp_ended h : fault_sound (exp_ended h).
Proof. unfold exp_ended. fsound. Qed.
Lemma fs_new_api_experiment ws proj : fault_sound (new_api_experiment ws proj).
Proof. unfold new_api_experiment. fsound. Qed.
Lemma fs_resume_api_experiment kv : fault_sound (resume_api_experiment kv).
Proof. unfold resume_api_experiment. fsound. Qed.
Lemma fs_new_experiment ws proj : fault_sound (new_experiment ws proj).
Proof. unfold new_experiment. fsound. Qed.
Lemma fs_existing_experiment kv : fault_sound (existing_experiment kv).
Proof. unfold existing_experiment. fsound. Qed.
Lemma fs_api_add_tag k tag : fault_sound (api_add_tag k tag).
Proof. unfold api_add_tag. fsound. Qed.
Lemma fs_api_log_other k name v : fault_sound (api_log_other k name v).
Proof. unfold api_log_other. fsound. Qed.
Lemma fs_exp_add_tag h tag : fault_sound (exp_add_tag h tag).
Proof. unfold exp_add_tag. fsound. Qed.
Lemma fs_exp_log_other h name v : fault_sound (exp_log_other h name v).
Proof. unfold exp_log_other. fsound. Qed.
Lemma fs_exp_log_parameters h ps : fault_sound (exp_log_parameters h ps).
Proof. unfold exp_log_parameters. fsound. Qed.
Lemma fs_exp_log_metric h name q : fault_sound (exp_log_metric h name q).
Proof. unfold exp_log_metric. fsound. Qed.
Lemma fs_exp_log_optimization h opt : fault_sound (exp_log_optimization h opt).
Proof. unfold exp_log_optimization. fsound. Qed.
Lemma fs_exp_end h : fault_sound (exp_end h).
Proof. unfold exp_end. fsound. Qed.

#[export] Hint Resolve fs_api_get_default_workspace fs_exp_get_key fs_exp_ended fs_new_api_experiment fs_resume_api_experiment fs_new_experiment fs_existing_experiment fs_api_add_tag fs_api_log_other fs_exp_add_tag fs_exp_log_other fs_exp_log_parameters fs_exp_log_metric fs_exp_log_optimization fs_exp_end : fsound.
