(* ===== verification/CometCallback.v ===== *)
(** * The [CometCallback] object (src/optuna_integration/comet.py)

    The attributes of the object (lines 75-100) as the record
    [CometCallback], and the monad [CCM] its methods run in.  [CCM]
    passes both the object and the client's world, because the methods
    mutate [self] before they may raise.  [liftW] runs a client
    operation; [get_self] and [put_self] read and assign attributes.
    The methods themselves are in the component files
    [StudyExperiment], [TrialExperiment], [TrialLogging] and
    [Decorator].  [import_comet_ml] is the guarded import of lines
    14-15: its result [module_env] says whether [comet_ml] is bound.
    [load_comet_module] loads the whole module, class body included. *)

From Stdlib Require Import List ZArith QArith String.
From stdpp Require Import base list strings.
From S2P Require Import Prelude PyData Optuna CometClient.
Import ListNotations.
Local Open Scope string_scope.

(** The module-level names that [__init__] reads: whether [comet_ml]
    is bound, and the exception the [try_import] guard keeps. *)
Record module_env : Type := mkModuleEnv {
  comet_ml_bound : bool;
  _imports_error : option exn
}.

(** [with try_import() as _imports: import comet_ml] (lines 14-15), run
    when the module loads.  A missing [comet_ml] raises [ImportError]
    inside the block.  The guard stores that exception in [_imports]
    instead of propagating it, and the name [comet_ml] stays unbound. *)
Definition import_comet_ml (installed : bool) : module_env :=
  if installed then mkModuleEnv true None
  else mkModuleEnv false (Some (ImportError "comet_ml")).

(** Loading the module: the guarded import (lines 14-15), then the
    class statement (lines 18-196).  Running the class body defines the
    methods, and without [from __future__ import annotations] Python
    before 3.14 evaluates their return annotations then:
    [-> comet_ml.APIExperiment] (line 139) reads [comet_ml] first, so a
    missing [comet_ml] makes the import of the module raise [NameError].
    With lazy annotations (Python 3.14) nothing reads [comet_ml] there,
    and the module loads with the name unbound. *)
Definition load_comet_module (installed lazy_annotations : bool) : exn + module_env :=
  let env := import_comet_ml installed in
  if comet_ml_bound env || lazy_annotations then inr env else inl (NameError "comet_ml").

(** The attributes of a [CometCallback] object. *)
Record CometCallback (Sd : Type) : Type := mkCallback {
  _project_name : option string;
  _workspace : string;
  _study : Sd;
  _metric_names : list string;
  study_experiment : string;        (** the key of the study's APIExperiment *)
  _trial_experiments : pyval        (** a dict: trial number -> experiment key *)
}.
Arguments mkCallback {Sd}.
Arguments _project_name {Sd}.
Arguments _workspace {Sd}.
Arguments _study {Sd}.
Arguments _metric_names {Sd}.
Arguments study_experiment {Sd}.
Arguments _trial_experiments {Sd}.

(** The default of the [project_name] argument. *)
Definition default_project_name : option string := Some "general".

(** [self._trial_experiments = d] *)
Definition set_trial_experiments {Sd} (d : pyval) (cb : CometCallback Sd) : CometCallback Sd :=
  mkCallback (_project_name cb) (_workspace cb) (_study cb) (_metric_names cb)
             (study_experiment cb) d.

(** ["minimize" if direction == StudyDirection.MINIMIZE else "maximize"] *)
Definition direction_str (d : StudyDirection) : string :=
  if decide (d = MINIMIZE) then "minimize" else "maximize".

(** [metric_names[i] if i < len(metric_names) else i] *)
Definition metric_name_at (names : list string) (i : nat) : name_or_index :=
  match names !! i with
  | Some s => inl s
  | None => inr i
  end.

(** The trial numbers are non-negative Python ints. *)
Definition trial_key (t : FrozenTrial) : Z := Z.of_nat (number t).

(** The methods of [CometCallback] run over the object itself and the
    world: [self] is mutable. *)
Abbreviation CCM Sd := (M exn (CometCallback Sd * world)).

(** A client operation, run on the world. *)
Definition liftW {Sd A} (m : CM A) : CCM Sd A :=
  fun s => match m (snd s) with (r, w') => (r, (fst s, w')) end.

(** [self] *)
Definition get_self {Sd} : CCM Sd (CometCallback Sd) := fun s => (inr (fst s), s).

(** Attribute assignments on [self]. *)
Definition put_self {Sd} (cb : CometCallback Sd) : CCM Sd unit := fun s => (inr tt, (cb, snd s)).

(** The methods' state holds the world beside [self]. *)
#[export] Instance callback_state {Sd} : WorldState (CometCallback Sd * world) :=
  { st_world s := snd s; st_with_world w s := (fst s, w);
    st_world_with _ _ := eq_refl; st_with_world_twice _ _ _ := eq_refl;
    st_with_world_same s := match s with (_, _) => eq_refl end }.

(** Unfold the plumbing of [self] and the client, and run the monad. *)
Ltac ccrun := unfold liftW, get_self, put_self in *; crun.

(** ** The fault contract of the plumbing *)

Lemma fs_liftW {Sd A} (m : CM A) : fault_sound m -> fault_sound (St:=CometCallback Sd * world) (liftW m).
Proof.
  intros Hm [cb w] r [cb' w'] Hr Hrun. unfold liftW in *. simpl in *.
  destruct (m w) as [r0 w0] eqn:E. injection Hrun as Er Ecb Ew; subst.
  destruct (Hm w r w' Hr E) as (Hr' & Hp & Hn). split_and!; [done|done|].
  intros n. destruct (Hn n) as [Hin Hout]. unfold inject_fault, st_trace in *. simpl in *. split.
  - intros Hlt. destruct (Hin Hlt) as (w'' & E' & ?). exists (cb', w''). by rewrite E'.
  - intros Hlt. by rewrite (Hout Hlt).
Qed.

Lemma fs_get_self {Sd} : fault_sound (@get_self Sd).
Proof. apply fault_free_sound. intros [] ? ? ? [= <- <-]. done. Qed.

Lemma fs_put_self {Sd} (cb : CometCallback Sd) : fault_sound (put_self cb).
Proof. apply fault_free_sound. intros [] ? ? ? [= <- <-]. done. Qed.

#[export] Hint Resolve fs_liftW fs_get_self fs_put_self : fsound.
