(* ===== verification/Fixtures.v ===== *)
(** * Concrete studies, worlds, trials and callbacks

    The inputs the witnesses run the theorems on.  They follow the
    examples of the class docstring and of the spec: a study named "s"
    on the in-memory storage, a single-objective trial with value 0.42,
    a multi-objective trial with values 0.1 and 0.9 logged as "loss"
    and "acc", and a failed trial. *)

From Stdlib Require Import List ZArith QArith String.
From stdpp Require Import base gmap list strings.
From S2P Require Import Prelude PyData Optuna CometClient CometCallback.
Import ListNotations.
Local Open Scope string_scope.

(** A new single-objective study. *)
Definition ex_study : study_rec := mkStudy "s" [MINIMIZE] ∅ "InMemoryStorage" [0].

(** A new study with two objectives. *)
Definition ex_study2 : study_rec := mkStudy "s" [MINIMIZE; MAXIMIZE] ∅ "InMemoryStorage" [1].

(** A study whose record "exp-0" was created by an earlier callback. *)
Definition ex_study_stored : study_rec :=
  mkStudy "s" [MINIMIZE] {[ "comet_study_experiment_key" := PyStr "exp-0" ]}
          "InMemoryStorage" [0].

(** A process with no record and no experiment object. *)
Definition ex_world : world := mkWorld [] 0 [] None "ws" None.

(** The world after [__init__] created the study record "exp-0". *)
Definition ex_world_init : world :=
  mkWorld [NewAPIExperiment "ws" (Some "general") "exp-0"] 1 [] None "ws" None.

(** The world in which trial 0's experiment "exp-1" is open and active. *)
Definition ex_world_active : world :=
  mkWorld [NewAPIExperiment "ws" (Some "general") "exp-0";
           NewExperiment "ws" (Some "general") "exp-1"] 2 [mkObj "exp-1" false] (Some 0) "ws" None.

(** The world in which "exp-1" is ended and "exp-2" is open and active. *)
Definition ex_world_two : world :=
  mkWorld [NewAPIExperiment "ws" (Some "general") "exp-0";
           NewExperiment "ws" (Some "general") "exp-1";
           EndExperiment "exp-1";
           NewExperiment "ws" (Some "general") "exp-2"] 3
          [mkObj "exp-1" true; mkObj "exp-2" false] (Some 1) "ws" None.

Definition ex_trial : FrozenTrial := mkTrial 0 [("x", PyFloat (1 # 2))] (Some [42 # 100]).
Definition ex_trial_multi : FrozenTrial := mkTrial 1 [("x", PyFloat (1 # 4))] (Some [1 # 10; 9 # 10]).
Definition ex_trial_failed : FrozenTrial := mkTrial 1 [("x", PyFloat (1 # 4))] None.

(** The callback [__init__] builds on [ex_study] in [ex_world]. *)
Definition ex_cb : CometCallback study_rec :=
  mkCallback (Some "general") "ws" ex_study [] "exp-0" (PyDict []).

(** The same callback with metric names. *)
Definition ex_cb_named : CometCallback study_rec :=
  mkCallback (Some "general") "ws" ex_study2 ["loss"; "acc"] "exp-0" (PyDict []).

(** The callback after it created "exp-1" for trial 0. *)
Definition ex_cb_active : CometCallback study_rec :=
  mkCallback (Some "general") "ws" ex_study [] "exp-0" (PyDict [(PyInt 0, PyStr "exp-1")]).

(** An objective that logs one annotation, as in the class docstring. *)
Definition ex_objective (h : nat) (_ : FrozenTrial) : CM unit := exp_log_other h "foo" (PyStr "bar").
