(* ===== verification/StudyExperiment.v ===== *)
(** * The study experiment: [__init__] and [_init_optuna_study_experiment]

    The constructor and the resolution of the study's APIExperiment,
    with the calls they make as reference lists.  Run lemmas give the
    exact world after each branch, on a reliable service.  The claims:
    one study record per study, resumed from the stored key; the
    directions logged under their names; the dict of trial keys read
    but never written back; a stored key naming no record fails fast.
    What a failure of the service leaves behind in the shared study
    store is shown in [Workers]. *)

From Stdlib Require Import List ZArith QArith String.
From stdpp Require Import base list strings.
From S2P Require Import Prelude PyData Optuna CometClient CometCallback Fixtures.
Import ListNotations.
Local Open Scope string_scope.
Local Open Scope list_scope.

(** ** Definitions *)

Section StudyExperimentDefs.
Context {Sd : Type} `{!StudyHandle Sd}.

(** [_init_optuna_study_experiment(self, study)]: [ws] and [proj] are
    [self._workspace] and [self._project_name]. *)
Definition _init_optuna_study_experiment (ws : string) (proj : option string) (study : Sd)
  : CM (string * Sd) :=
  let experiment_key := default PyNone (user_attr study "comet_study_experiment_key") in
  if py_truthy experiment_key then
    k <- resume_api_experiment experiment_key ;;
    mret (k, study)
  else
    k <- new_api_experiment ws proj ;;
    api_add_tag k "optuna_study" ;;;
    api_log_other k "optuna_study_name" (PyStr (study_name study)) ;;;
    api_log_other k "optuna_storage" (PyStr (storage_name study)) ;;;
    mret (k, set_user_attr "comet_study_experiment_key" (PyStr k) study).

(** The loop of [__init__] that logs one direction per objective. *)
Definition log_directions (k : string) (names : list string) (ds : list StudyDirection)
  : CM unit :=
  mfor_enum 0 ds (fun i d =>
    api_log_other k ("direction_of_objective_" ++ fmt_name (metric_name_at names i))
                  (PyStr (direction_str d))).

(** [self._trial_experiments = study.user_attrs.get('trial_experiments')],
    replaced by [{}] when it is [None].  Optuna's [user_attrs] is a
    copy: the dict is not shared with the store. *)
Definition load_trial_experiments (study : Sd) : pyval :=
  match default PyNone (user_attr study "trial_experiments") with
  | PyNone => PyDict []
  | te => te
  end.

(** [CometCallback.__init__(study, workspace, project_name, metric_names)]:
    returns the object and the study, whose attributes it writes. *)
Definition CometCallback_init (study : Sd) (workspace : option string)
           (project_name : option string) (metric_names : option (list string))
  : CM (CometCallback Sd * Sd) :=
  let names := default [] metric_names in
  ws <- match workspace with
        | Some w => mret w
        | None => api_get_default_workspace
        end ;;
  p <- _init_optuna_study_experiment ws project_name study ;;
  let '(se, study') := p in
  log_directions se names (directions study') ;;;
  mret (mkCallback project_name ws study' names se (load_trial_experiments study'), study').

(** [CometCallback(...)] in a module that loaded as [env]
    ([load_comet_module]).  [comet_ml] can be unbound there only with
    lazy annotations (Python 3.14); before 3.14 the module does not
    load at all.  [__init__] never calls [_imports.check()].  Its first
    read of the name [comet_ml] is line 85, or line 145 or 147 when a
    workspace is given, and the statements before it change neither the
    study nor the service.  So an unbound [comet_ml] raises [NameError]
    there, with nothing done. *)
Definition CometCallback_init_in (env : module_env) (study : Sd) (workspace : option string)
           (project_name : option string) (metric_names : option (list string))
  : CM (CometCallback Sd * Sd) :=
  if comet_ml_bound env then CometCallback_init study workspace project_name metric_names
  else raise (NameError "comet_ml").

End StudyExperimentDefs.

(** The calls of the direction loop of [__init__], one per objective. *)
Definition direction_calls (k : string) (names : list string) (ds : list StudyDirection)
  : list call :=
  imap (fun i d => LogOther k ("direction_of_objective_" ++ fmt_name (metric_name_at names i))%string
                            (PyStr (direction_str d))) ds.

(** The calls that create and annotate the study's record. *)
Definition study_creation_calls (ws : string) (proj : option string) (k name storage : string)
  : list call :=
  [NewAPIExperiment ws proj k; AddTag k "optuna_study";
   LogOther k "optuna_study_name" (PyStr name); LogOther k "optuna_storage" (PyStr storage)].

(** The world [__init__] is in after it resolved the workspace. *)
Definition after_workspace (ws : option string) (w : world) : world :=
  match ws with
  | Some _ => w
  | None => set_trace (w_trace w ++ [GetDefaultWorkspace]) w
  end.

(** ** Lemmas *)

Lemma log_directions_run k names ds w :
  w_fail w = None ->
  log_directions k names ds w = (inr tt, set_trace (w_trace w ++ direction_calls k names ds) w).
Proof.
  intros Hr. unfold log_directions, api_log_other.
  exact (mfor_enum_emit (fun i d => LogOther k ("direction_of_objective_"
           ++ fmt_name (metric_name_at names i))%string (PyStr (direction_str d))) ds 0 w Hr).
Qed.

Lemma workspace_run (ws : option string) w :
  w_fail w = None ->
  match ws with Some w' => mret w' | None => api_get_default_workspace end w
  = (inr (default (w_default_ws w) ws), after_workspace ws w).
Proof. intros Hr. destruct ws; crun; reflexivity. Qed.

Lemma after_workspace_fail ws w : w_fail (after_workspace ws w) = w_fail w.
Proof. by destruct ws. Qed.

Lemma direction_calls_lookup k names ds i d :
  ds !! i = Some d ->
  direction_calls k names ds !! i
  = Some (LogOther k ("direction_of_objective_" ++
                      match names !! i with Some s => s | None => py_str_nat i end)%string
                   (PyStr (if decide (d = MINIMIZE) then "minimize" else "maximize"))).
Proof.
  intros Hd. unfold direction_calls. rewrite list_lookup_imap, Hd. simpl.
  unfold metric_name_at. by destruct (names !! i).
Qed.

Lemma known_study_creation tr ws proj k n s :
  known (tr ++ study_creation_calls ws proj k n s) k = true.
Proof.
  rewrite known_app. unfold known at 2. simpl. rewrite String.eqb_refl. apply orb_true_r.
Qed.

Lemma count_direction_calls f k names ds :
  (forall k' n v, f (LogOther k' n v) = false) -> count_calls f (direction_calls k names ds) = 0.
Proof.
  intros Hf. apply count_calls_none. intros c (i & d & ->)%In_imap_inv. apply Hf.
Qed.

Lemma count_new_api_after_workspace ws w :
  count_calls is_new_api_experiment (w_trace (after_workspace ws w))
  = count_calls is_new_api_experiment (w_trace w).
Proof.
  destruct ws; [done|]. simpl. rewrite count_calls_app.
  change (count_calls is_new_api_experiment [GetDefaultWorkspace]) with 0. lia.
Qed.

(** Creating the study's record keeps the client's invariant. *)
Lemma wf_study_creation w ws proj n st :
  wf_world w ->
  wf_world (mkWorld (w_trace w ++ study_creation_calls ws proj (key_of (w_next_key w)) n st)
                    (S (w_next_key w)) (w_objs w) (w_active w) (w_default_ws w) (w_fail w)).
Proof.
  intros [Hk Hv Ho Hf Hr]. split; unfold at_most_one_open in *; simpl; try done.
  - intros h o Hh. by apply known_app_l, (Hk h).
  - intros c k i [Hin|Hin]%in_app_or Hc Hi; [pose proof (Hf c k i Hin Hc Hi); lia|].
    destruct Hin as [<-|[<-|[<-|[<-|[]]]]]; try discriminate.
    injection Hc as <-. rewrite key_index_key_of in Hi. injection Hi as <-. lia.
Qed.

Lemma direction_calls_no_creation k names ds c :
  In c (direction_calls k names ds) -> created_key c = None.
Proof. by intros (i & d & ->)%In_imap_inv. Qed.

Lemma wf_after_workspace ws w : wf_world w -> wf_world (after_workspace ws w).
Proof. destruct ws; [done|]. intros Hwf. apply wf_push; [done|]. by intros c [<-|[]]. Qed.

Section StudyExperiment.
Context {Sd : Type} `{!StudyHandle Sd} `{!StudyLaws Sd}.

(** *** The fault contract *)

Lemma fs_init_study ws proj (study : Sd) :
  fault_sound (_init_optuna_study_experiment ws proj study).
Proof. unfold _init_optuna_study_experiment. fsound. Qed.

Lemma fs_log_directions k names ds : fault_sound (log_directions k names ds).
Proof. unfold log_directions. fsound. Qed.

#[local] Hint Resolve fs_init_study fs_log_directions : fsound.

Lemma fs_CometCallback_init (study : Sd) ws proj names :
  fault_sound (CometCallback_init study ws proj names).
Proof. unfold CometCallback_init. fsound. Qed.

(** *** Run lemmas *)

Lemma init_study_run_create ws proj (study : Sd) w :
  py_truthy (default PyNone (user_attr study "comet_study_experiment_key")) = false ->
  w_fail w = None ->
  _init_optuna_study_experiment ws proj study w =
  (inr (key_of (w_next_key w),
        set_user_attr "comet_study_experiment_key" (PyStr (key_of (w_next_key w))) study),
       mkWorld (w_trace w ++ study_creation_calls ws proj (key_of (w_next_key w))
                               (study_name study) (storage_name study))
               (S (w_next_key w)) (w_objs w) (w_active w) (w_default_ws w) (w_fail w)).
Proof.
  intros Hk Hr. unfold _init_optuna_study_experiment. rewrite Hk. crun.
  by rewrite <- !app_assoc.
Qed.

Lemma init_study_run_resume ws proj (study : Sd) w k :
  user_attr study "comet_study_experiment_key" = Some (PyStr k) -> k <> "" ->
  known (w_trace w) k = true -> w_fail w = None ->
  _init_optuna_study_experiment ws proj study w =
  (inr (k, study), set_trace (w_trace w ++ [ResumeAPIExperiment k]) w).
Proof.
  intros Hk Hne Hkn Hr. unfold _init_optuna_study_experiment. rewrite Hk. simpl.
  apply String.eqb_neq in Hne. rewrite Hne. simpl. crun. rewrite Hkn. by crun.
Qed.

Lemma init_run (study : Sd) ws proj names w :
  w_fail w = None ->
  CometCallback_init study ws proj names w =
  match _init_optuna_study_experiment (default (w_default_ws w) ws) proj study
          (after_workspace ws w) with
  | (inl e, w1) => (inl e, w1)
  | (inr (se, st'), w1) =>
      (inr (mkCallback proj (default (w_default_ws w) ws) st' (default [] names) se
                       (load_trial_experiments st'), st'),
           set_trace (w_trace w1 ++ direction_calls se (default [] names) (directions st')) w1)
  end.
Proof.
  intros Hr. unfold CometCallback_init. unfold mbind at 1. rewrite workspace_run by done.
  unfold mbind. destruct (_init_optuna_study_experiment _ _ _ _) as [[e|[se st']] w1] eqn:E;
    [reflexivity|].
  rewrite log_directions_run; [done|].
  apply (fault_sound_reliable (St:=world) _ _ _ _ (fs_init_study _ _ _)) in E; [done|].
  simpl. by rewrite after_workspace_fail.
Qed.

Lemma init_run_resume (study : Sd) ws proj names w k :
  user_attr study "comet_study_experiment_key" = Some (PyStr k) -> k <> "" ->
  known (w_trace w) k = true -> w_fail w = None ->
  CometCallback_init study ws proj names w =
  (inr (mkCallback proj (default (w_default_ws w) ws) study (default [] names) k
                   (load_trial_experiments study), study),
       set_trace (w_trace (after_workspace ws w) ++
                  ResumeAPIExperiment k :: direction_calls k (default [] names) (directions study))
                 (after_workspace ws w)).
Proof.
  intros Hk Hne Hkn Hr. rewrite init_run by done.
  rewrite (init_study_run_resume _ _ _ _ k Hk Hne)
    by (destruct ws; simpl; first [done | by apply known_app_l]).
  simpl. by rewrite <- app_assoc.
Qed.

(** *** The study experiment *)

(** C13: a study with no stored experiment key gets one new record.  Its
    key is fresh.  The record is tagged "optuna_study" and annotated
    with the study name and storage class.  The key is written to the
    study's attribute "comet_study_experiment_key"; no other attribute
    changes. *)
Theorem init_study_experiment_creates ws proj (study : Sd) w :
  py_truthy (default PyNone (user_attr study "comet_study_experiment_key")) = false ->
  wf_world w ->
  exists k study' w',
    runs (_init_optuna_study_experiment ws proj study) w (k, study') w' /\
    known (w_trace w) k = false /\
    w_trace w' = w_trace w ++ study_creation_calls ws proj k (study_name study)
                                 (storage_name study) /\
    user_attr study' "comet_study_experiment_key" = Some (PyStr k) /\
    (forall a, a <> "comet_study_experiment_key" -> user_attr study' a = user_attr study a).
Proof.
  intros Hk Hwf. do 3 eexists. split; [apply init_study_run_create; [exact Hk|apply Hwf]|]. simpl.
  split; [by apply wf_fresh_known|]. split; [done|].
  split; [apply user_attr_set_eq|]. intros a Ha. by apply user_attr_set_ne.
Qed.

(** C19: with a stored key that names an existing record, [__init__]
    resumes that record.  It creates no record and adds no tag: the
    only calls are the workspace lookup, one [ResumeAPIExperiment] and
    the direction annotations.  The study comes back unchanged. *)
Theorem CometCallback_init_resumes (study : Sd) ws proj names w k :
  user_attr study "comet_study_experiment_key" = Some (PyStr k) -> k <> "" ->
  known (w_trace w) k = true -> w_fail w = None ->
  exists cb w',
    runs (CometCallback_init study ws proj names) w (cb, study) w' /\
    study_experiment cb = k /\
    w_trace w' = w_trace (after_workspace ws w) ++
                 ResumeAPIExperiment k :: direction_calls k (default [] names) (directions study).
Proof.
  intros Hk Hne Hkn Hr. unfold runs. rewrite (init_run_resume _ _ _ _ _ k Hk Hne Hkn Hr).
  by do 2 eexists.
Qed.

(** C8: constructing a second callback on the study that the first
    construction returned succeeds.  It reuses the study experiment
    and creates no record: in a study's life there is one study
    experiment. *)
Theorem CometCallback_init_twice_one_study_record (study : Sd) ws proj names ws' proj' names'
      w cb1 st1 w1 :
  py_truthy (default PyNone (user_attr study "comet_study_experiment_key")) = false ->
  w_fail w = None ->
  runs (CometCallback_init study ws proj names) w (cb1, st1) w1 ->
  exists cb2 w2,
    runs (CometCallback_init st1 ws' proj' names') w1 (cb2, st1) w2 /\
    study_experiment cb2 = study_experiment cb1 /\
    count_calls is_new_api_experiment (w_trace w1)
      = S (count_calls is_new_api_experiment (w_trace w)) /\
    count_calls is_new_api_experiment (w_trace w2)
      = count_calls is_new_api_experiment (w_trace w1).
Proof.
  intros Hk Hr Hrun. unfold runs in Hrun.
  rewrite init_run, init_study_run_create in Hrun by (rewrite ?after_workspace_fail; done).
  injection Hrun as <- <- <-. simpl.
  set (k := key_of (w_next_key (after_workspace ws w))).
  unfold runs. rewrite (init_run_resume _ _ _ _ _ k); [|..|simpl; by rewrite after_workspace_fail].
  - do 2 eexists. split; [reflexivity|]. simpl. split; [done|].
    unfold study_creation_calls.
    repeat (autorewrite with cm_rw; rewrite ?count_new_api_after_workspace,
               ?count_direction_calls by done; simpl w_trace).
    simpl. lia.
  - apply user_attr_set_eq.
  - unfold k, key_of. discriminate.
  - apply (known_In _ (NewAPIExperiment (default (w_default_ws w) ws) proj k)); [|done].
    destruct ws'; simpl; rewrite !in_app_iff; simpl; tauto.
Qed.

Lemma init_study_cases_reliable ws proj (study : Sd) w :
  w_fail w = None ->
  match _init_optuna_study_experiment ws proj study w with
  | (inl e, _) => exists kv, e = ExperimentNotFound kv
  | (inr (k, st'), w') =>
      directions st' = directions study /\ user_attr st' "trial_experiments" = user_attr study "trial_experiments"
  end.
Proof.
  intros Hr.
  destruct (py_truthy (default PyNone (user_attr study "comet_study_experiment_key"))) eqn:Hk.
  - unfold _init_optuna_study_experiment. rewrite Hk. crun.
    destruct (default PyNone _) as [| | | |s| |]; simpl; eauto.
    destruct (known _ s); crun; eauto.
  - rewrite (init_study_run_create _ _ _ _ Hk Hr). simpl.
    split; [apply directions_set|]. by apply user_attr_set_ne.
Qed.

(** On any service: a raise is [ExperimentNotFound] or a service
    failure. *)
Lemma init_study_cases ws proj (study : Sd) w :
  match _init_optuna_study_experiment ws proj study w with
  | (inl e, _) => (exists kv, e = ExperimentNotFound kv) \/ e = ServiceError
  | (inr (k, st'), w') =>
      directions st' = directions study /\ user_attr st' "trial_experiments" = user_attr study "trial_experiments"
  end.
Proof.
  destruct (_init_optuna_study_experiment ws proj study w) as [r w'] eqn:E.
  destruct (fault_reduce (St:=world) _ _ _ _ (fs_init_study ws proj study) E) as [->|E0];
    [by right|].
  pose proof (init_study_cases_reliable ws proj study (set_fail None w) eq_refl) as H.
  simpl in E0. rewrite E0 in H. destruct r as [e|[k st']]; [by left|exact H].
Qed.

(** A run of [__init__] on a faulty service returns what it returns
    on a reliable one, with the same calls. *)
Lemma init_runs_reliable (study : Sd) ws proj names w r w' :
  runs (CometCallback_init study ws proj names) w r w' ->
  runs (CometCallback_init study ws proj names) (set_fail None w) r (set_fail None w').
Proof. exact (runs_reduce (St:=world) _ w r w' (fs_CometCallback_init study ws proj names)). Qed.

Lemma init_directions_suffix (study : Sd) ws proj names w cb st' w' :
  runs (CometCallback_init study ws proj names) w (cb, st') w' ->
  exists pre, w_trace w' = pre ++ direction_calls (study_experiment cb) (default [] names)
                                                (directions study).
Proof.
  intros Hrun%init_runs_reliable. revert Hrun. reliable_world w'. reliable_world w.
  unfold runs. rewrite init_run by done.
  pose proof (init_study_cases (default (w_default_ws w) ws) proj study (after_workspace ws w)) as Hc.
  destruct (_init_optuna_study_experiment _ _ _ _) as [[e|[se st1]] w1]; [done|].
  destruct Hc as [Hd _]. intros H. injection H as <- <- <-. simpl. rewrite Hd. by eexists.
Qed.

Lemma init_logs_directions_reliable (study : Sd) ws proj names w :
  w_fail w = None ->
  match CometCallback_init study ws proj names w with
  | (inl e, _) => exists kv, e = ExperimentNotFound kv
  | (inr (cb, st'), w') =>
      exists pre,
        w_trace w' = pre ++ direction_calls (study_experiment cb) (default [] names)
                                            (directions study) /\
        length (direction_calls (study_experiment cb) (default [] names) (directions study))
          = length (directions study) /\
        forall i d, directions study !! i = Some d ->
          direction_calls (study_experiment cb) (default [] names) (directions study) !! i
          = Some (LogOther (study_experiment cb)
                    ("direction_of_objective_" ++
                     match default [] names !! i with Some s => s | None => py_str_nat i end)%string
                    (PyStr (if decide (d = MINIMIZE) then "minimize" else "maximize")))
  end.
Proof.
  intros Hr. rewrite init_run by done.
  pose proof (init_study_cases_reliable (default (w_default_ws w) ws) proj study (after_workspace ws w)
                ltac:(by rewrite after_workspace_fail)) as Hc.
  destruct (_init_optuna_study_experiment _ _ _ _) as [[e|[se st']] w1]; [done|].
  destruct Hc as [Hd _]. simpl. rewrite Hd. eexists. split; [reflexivity|].
  split; [apply length_imap|]. intros i d Hi. by apply direction_calls_lookup.
Qed.

(** C20: [__init__] either raises [ExperimentNotFound] (a stored study
    key that names no record), or raises [ServiceError] (a call to the
    service failed), or returns.  When it returns, its last
    calls are one direction annotation per objective, on the study
    record.  The i-th is named by the i-th metric name when there is
    one and by the index i otherwise.  It carries "minimize" for a
    minimised objective and "maximize" otherwise. *)
Theorem CometCallback_init_logs_directions (study : Sd) ws proj names w :
  match CometCallback_init study ws proj names w with
  | (inl e, _) => (exists kv, e = ExperimentNotFound kv) \/ e = ServiceError
  | (inr (cb, st'), w') =>
      exists pre,
        w_trace w' = pre ++ direction_calls (study_experiment cb) (default [] names)
                                            (directions study) /\
        length (direction_calls (study_experiment cb) (default [] names) (directions study))
          = length (directions study) /\
        forall i d, directions study !! i = Some d ->
          direction_calls (study_experiment cb) (default [] names) (directions study) !! i
          = Some (LogOther (study_experiment cb)
                    ("direction_of_objective_" ++
                     match default [] names !! i with Some s => s | None => py_str_nat i end)%string
                    (PyStr (if decide (d = MINIMIZE) then "minimize" else "maximize")))
  end.
Proof.
  apply (fault_transfer (St:=world)); [apply fs_CometCallback_init|by right|done|].
  intros w0 Hr0. pose proof (init_logs_directions_reliable study ws proj names w0 Hr0).
  destruct (CometCallback_init _ _ _ _ w0) as [[e|[cb st']] w']; [by left|done].
Qed.

(** C26: a stored study key that is truthy but names no record makes
    [_init_optuna_study_experiment] raise [ExperimentNotFound]; it
    creates nothing (fail-fast, spec section 7). *)
Theorem init_study_experiment_unknown_key ws proj (study : Sd) w kv :
  user_attr study "comet_study_experiment_key" = Some kv -> py_truthy kv = true ->
  (forall s, kv = PyStr s -> known (w_trace w) s = false) ->
  _init_optuna_study_experiment ws proj study w = (inl (ExperimentNotFound kv), w).
Proof.
  intros Hk Ht Hs. unfold _init_optuna_study_experiment. rewrite Hk. simpl. rewrite Ht.
  crun. destruct kv; try reflexivity. by rewrite Hs.
Qed.

(** C25: metric names and index fallbacks can collide.  With
    [metric_names=["1"]] and two objectives (minimise, maximise), both
    direction annotations are logged under "direction_of_objective_1".
    The record keeps "maximize" there, and the constructor records the
    first objective's direction under no name. *)
Theorem direction_names_collide (study : Sd) ws proj w cb st' w' :
  directions study = [MINIMIZE; MAXIMIZE] ->
  runs (CometCallback_init study ws proj (Some ["1"])) w (cb, st') w' ->
  exists pre,
    w_trace w' = pre ++ [LogOther (study_experiment cb) "direction_of_objective_1" (PyStr "minimize");
                         LogOther (study_experiment cb) "direction_of_objective_1" (PyStr "maximize")] /\
    other_of (w_trace w') (study_experiment cb) "direction_of_objective_1" = Some (PyStr "maximize") /\
    forall name, other_of (w_trace w') (study_experiment cb) name = Some (PyStr "minimize") ->
                 other_of pre (study_experiment cb) name = Some (PyStr "minimize").
Proof.
  intros Hd Hrun. destruct (init_directions_suffix _ _ _ _ _ _ _ _ Hrun) as [pre Htr].
  rewrite Hd in Htr. exists pre.
  assert (direction_calls (study_experiment cb) ["1"] [MINIMIZE; MAXIMIZE]
          = [LogOther (study_experiment cb) "direction_of_objective_1" (PyStr "minimize");
             LogOther (study_experiment cb) "direction_of_objective_1" (PyStr "maximize")])
    as Hcalls by reflexivity.
  simpl default in Htr. rewrite Hcalls in Htr. split; [exact Htr|].
  rewrite Htr. split; [rewrite app_cons_assoc; apply other_of_last|].
  intros name. rewrite app_cons_assoc, !other_of_app_single.
  rewrite !String.eqb_refl, !andb_true_l.
  destruct (String.eqb "direction_of_objective_1" name); [congruence|intros H; exact H].
Qed.
Lemma init_trial_attr (study : Sd) ws proj names w cb st w' :
  runs (CometCallback_init study ws proj names) w (cb, st) w' ->
  user_attr st "trial_experiments" = user_attr study "trial_experiments" /\
  _trial_experiments cb = load_trial_experiments st.
Proof.
  intros Hrun%init_runs_reliable. revert Hrun. reliable_world w'. reliable_world w.
  unfold runs. rewrite init_run by done.
  pose proof (init_study_cases (default (w_default_ws w) ws) proj study (after_workspace ws w)) as Hc.
  destruct (_init_optuna_study_experiment _ _ _ _) as [[e|[se st1]] w1]; [done|].
  destruct Hc as [_ Hattr]. by intros [= <- <- <-].
Qed.

(** C22: the dict of trial keys is not persisted.  A second callback
    built on the study that the first [__init__] returned starts from
    the dict the study held before the first [__init__].  This holds
    whatever the first callback did in between, in any world.  The
    study's "trial_experiments" attribute is never written:
    [__init__] only evaluates [study.user_attrs], and [__call__]
    writes the study nowhere.  The spec (section 3) says the mapping is
    persisted for cross-worker reuse. *)
Theorem second_callback_trial_experiments_not_persisted (study : Sd) ws proj names
        ws' proj' names' w cb1 st1 w1 w2 cb2 st2 w2' :
  runs (CometCallback_init study ws proj names) w (cb1, st1) w1 ->
  runs (CometCallback_init st1 ws' proj' names') w2 (cb2, st2) w2' ->
  user_attr st2 "trial_experiments" = user_attr study "trial_experiments" /\
  _trial_experiments cb2 = load_trial_experiments study.
Proof.
  intros H1 H2. destruct (init_trial_attr _ _ _ _ _ _ _ _ H1) as [Ha1 _].
  destruct (init_trial_attr _ _ _ _ _ _ _ _ H2) as [Ha2 ->].
  split; [congruence|]. unfold load_trial_experiments. by rewrite Ha2, Ha1.
Qed.

End StudyExperiment.

(** ** A scenario: a failure orphans the study record *)

(** ** Witnesses *)

Lemma init_study_experiment_creates_witness :
  exists k study' w',
    runs (_init_optuna_study_experiment "ws" (Some "general") ex_study) ex_world (k, study') w' /\
    known (w_trace ex_world) k = false /\
    w_trace w' = w_trace ex_world ++ study_creation_calls "ws" (Some "general") k (study_name ex_study) (storage_name ex_study) /\
    user_attr study' "comet_study_experiment_key" = Some (PyStr k) /\
    (forall a, a <> "comet_study_experiment_key" -> user_attr study' a = user_attr ex_study a).
Proof.
  apply init_study_experiment_creates; [reflexivity|apply wf_worldb_sound; vm_compute; reflexivity].
Defined.

Lemma CometCallback_init_resumes_witness :
  exists cb w',
    runs (CometCallback_init ex_study_stored (Some "ws") (Some "general") None) ex_world_init
         (cb, ex_study_stored) w' /\
    study_experiment cb = "exp-0" /\
    w_trace w' = w_trace (after_workspace (Some "ws") ex_world_init) ++
                 ResumeAPIExperiment "exp-0" :: direction_calls "exp-0" (default [] None) (directions ex_study_stored).
Proof. apply CometCallback_init_resumes; vm_compute; [reflexivity|discriminate|reflexivity|reflexivity]. Defined.

Lemma CometCallback_init_twice_one_study_record_witness :
  exists cb1 st1 w1,
    runs (CometCallback_init ex_study None (Some "general") None) ex_world (cb1, st1) w1 /\
    exists cb2 w2,
      runs (CometCallback_init st1 (Some "ws") None (Some ["loss"])) w1 (cb2, st1) w2 /\
      study_experiment cb2 = study_experiment cb1 /\
      count_calls is_new_api_experiment (w_trace w1)
        = S (count_calls is_new_api_experiment (w_trace ex_world)) /\
      count_calls is_new_api_experiment (w_trace w2)
        = count_calls is_new_api_experiment (w_trace w1).
Proof.
  do 3 eexists. split; [vm_compute; reflexivity|].
  eapply (CometCallback_init_twice_one_study_record ex_study None (Some "general") None);
    vm_compute; reflexivity.
Defined.

Lemma CometCallback_init_logs_directions_witness :
  exists cb st' w' pre,
    CometCallback_init ex_study2 (Some "ws") (Some "general") (Some ["loss"]) ex_world
      = (inr (cb, st'), w') /\
    w_trace w' = pre ++ direction_calls (study_experiment cb) (default [] (Some ["loss"]))
                                        (directions ex_study2) /\
    direction_calls (study_experiment cb) (default [] (Some ["loss"])) (directions ex_study2) !! 1
      = Some (LogOther (study_experiment cb) "direction_of_objective_1" (PyStr "maximize")).
Proof.
  pose proof (CometCallback_init_logs_directions ex_study2 (Some "ws") (Some "general") (Some ["loss"])
                ex_world) as H.
  destruct (CometCallback_init _ _ _ _ _) as [[e|[cb st']] w'] eqn:E; [vm_compute in E; discriminate|].
  destruct H as (pre & Htr & _ & Hi). exists cb, st', w', pre. split_ands; [reflexivity|exact Htr|].
  rewrite (Hi 1 MAXIMIZE eq_refl). reflexivity.
Defined.

Lemma init_study_experiment_unknown_key_witness :
  _init_optuna_study_experiment "ws" (Some "general") ex_study_stored ex_world
  = (inl (ExperimentNotFound (PyStr "exp-0")), ex_world).
Proof.
  apply init_study_experiment_unknown_key; [reflexivity|reflexivity|].
  intros s [= <-]. vm_compute. reflexivity.
Defined.

Lemma direction_names_collide_witness :
  exists cb st' w',
    runs (CometCallback_init ex_study2 (Some "ws") (Some "general") (Some ["1"])) ex_world (cb, st') w' /\
    exists pre,
      w_trace w' = pre ++ [LogOther (study_experiment cb) "direction_of_objective_1" (PyStr "minimize");
                           LogOther (study_experiment cb) "direction_of_objective_1" (PyStr "maximize")] /\
      other_of (w_trace w') (study_experiment cb) "direction_of_objective_1" = Some (PyStr "maximize") /\
      forall name, other_of (w_trace w') (study_experiment cb) name = Some (PyStr "minimize") ->
                   other_of pre (study_experiment cb) name = Some (PyStr "minimize").
Proof.
  do 3 eexists. split; [vm_compute; reflexivity|].
  eapply (direction_names_collide ex_study2 (Some "ws") (Some "general") ex_world);
    [reflexivity|vm_compute; reflexivity].
Defined.

Lemma second_callback_trial_experiments_not_persisted_witness :
  exists cb1 st1 w1 cb2 st2 w2',
    runs (CometCallback_init ex_study (Some "ws") (Some "general") None) ex_world (cb1, st1) w1 /\
    runs (CometCallback_init st1 None None (Some ["loss"])) ex_world_two (cb2, st2) w2' /\
    user_attr st2 "trial_experiments" = user_attr ex_study "trial_experiments" /\
    _trial_experiments cb2 = load_trial_experiments ex_study.
Proof.
  do 6 eexists.
  lazymatch goal with
  | |- ?A /\ ?B /\ _ =>
      assert (H1 : A) by (vm_compute; reflexivity);
      assert (H2 : B) by (vm_compute; reflexivity);
      exact (conj H1 (conj H2 (second_callback_trial_experiments_not_persisted
                                 _ _ _ _ _ _ _ _ _ _ _ _ _ _ _ H1 H2)))
  end.
Defined.

