(* ===== verification/TrialExperiment.v ===== *)
(** * The trial experiment: [_init_optuna_trial_experiment]

    The resolution of a trial's Experiment: the check of
    [comet_ml.active_experiment], the [end()] of the previous one, the
    resume or the creation, and the update of [self._trial_experiments].
    [wf_cb] is the callback's invariant against the world.  Run lemmas
    for each branch, the preservation of [wf_world] and [wf_cb], the
    fault contract of the resolution, and the claims. *)

From Stdlib Require Import List ZArith QArith String.
From stdpp Require Import base list strings.
From S2P Require Import Prelude PyData Optuna CometClient CometCallback Fixtures StudyExperiment.
Import ListNotations.
Local Open Scope string_scope.
Local Open Scope list_scope.

(** ** Definitions *)

Section TrialExperimentDefs.
Context {Sd : Type} `{!StudyHandle Sd}.

(** The part of [_init_optuna_trial_experiment] after the check of the
    active experiment: resume the stored key, or create a record and
    store its key in [self._trial_experiments]. *)
Definition load_or_create_trial_experiment (study : Sd) (trial : FrozenTrial)
           (experiment_key : pyval) : CCM Sd nat :=
  if py_truthy experiment_key then
    h <- liftW (existing_experiment experiment_key) ;;
    liftW (set_active h) ;;;
    mret h
  else
    cb <- get_self ;;
    h <- liftW (new_experiment (_workspace cb) (_project_name cb)) ;;
    liftW (exp_add_tag h "optuna_trial") ;;;
    liftW (exp_log_other h "optuna_study_name" (PyStr (study_name study))) ;;;
    k <- liftW (exp_get_key h) ;;
    d <- of_sum (py_dict_setitem (_trial_experiments cb) (trial_key trial) (PyStr k)) ;;
    put_self (set_trial_experiments d cb) ;;;
    liftW (set_active h) ;;;
    mret h.

(** [_init_optuna_trial_experiment(self, study, trial)]: the handle of
    the trial's experiment. *)
Definition _init_optuna_trial_experiment (study : Sd) (trial : FrozenTrial) : CCM Sd nat :=
  cb <- get_self ;;
  experiment_key <- of_sum (py_dict_get (_trial_experiments cb) (trial_key trial)) ;;
  act <- liftW get_active ;;
  match act with
  | Some a =>
      ak <- liftW (exp_get_key a) ;;
      if py_eq_str experiment_key ak then mret a
      else
        ended <- liftW (exp_ended a) ;;
        (if ended then mret tt else liftW (exp_end a)) ;;;
        load_or_create_trial_experiment study trial experiment_key
  | None => load_or_create_trial_experiment study trial experiment_key
  end.

End TrialExperimentDefs.

(** The calls that create and annotate a trial's record. *)
Definition trial_creation_calls (ws : string) (proj : option string) (k name : string)
  : list call :=
  [NewExperiment ws proj k; AddTag k "optuna_trial"; LogOther k "optuna_study_name" (PyStr name)].

(** The callback's state agrees with the world: its study record exists,
    and its dict of trial keys is a dict whose truthy values are keys of
    existing records. *)
Definition wf_cb {Sd} (cb : CometCallback Sd) (w : world) : Prop :=
  known (w_trace w) (study_experiment cb) = true /\
  exists es, _trial_experiments cb = PyDict es /\
    forall k v, In (k, v) es -> py_truthy v = true ->
      exists s, v = PyStr s /\ known (w_trace w) s = true.

(** A checker of [wf_cb], for concrete states. *)
Definition wf_cbb {Sd} (cb : CometCallback Sd) (w : world) : bool :=
  known (w_trace w) (study_experiment cb) &&
  match _trial_experiments cb with
  | PyDict es =>
      forallb (fun p => negb (py_truthy p.2) ||
                        match p.2 with PyStr s => known (w_trace w) s | _ => false end) es
  | _ => false
  end.

(** ** Lemmas *)

Lemma wf_cbb_sound {Sd} (cb : CometCallback Sd) w : wf_cbb cb w = true -> wf_cb cb w.
Proof.
  unfold wf_cbb, wf_cb. intros [Hse Hes]%andb_true_iff. split; [done|].
  destruct (_trial_experiments cb) as [| | | | | |es]; try discriminate.
  exists es. split; [done|]. intros k v Hin Ht. rewrite forallb_forall in Hes.
  specialize (Hes (k, v) Hin). simpl in Hes. rewrite Ht in Hes. simpl in Hes.
  destruct v; try discriminate. eauto.
Qed.

Section TrialExperiment.
Context {Sd : Type} `{!StudyHandle Sd}.

(** *** The fault contract *)

Lemma fs_load_or_create (study : Sd) t key :
  fault_sound (load_or_create_trial_experiment study t key).
Proof. unfold load_or_create_trial_experiment. fsound. Qed.

#[local] Hint Resolve fs_load_or_create : fsound.

Lemma fs_init_trial (study : Sd) t : fault_sound (_init_optuna_trial_experiment study t).
Proof. unfold _init_optuna_trial_experiment. fsound. Qed.

(** A resolution that returns on a faulty service returns alike on a
    reliable one. *)
Lemma init_trial_runs_reliable (study : Sd) t cb w h cb' w' :
  runs (_init_optuna_trial_experiment study t) (cb, w) h (cb', w') ->
  runs (_init_optuna_trial_experiment study t) (cb, set_fail None w) h (cb', set_fail None w').
Proof. exact (runs_reduce _ (cb, w) h (cb', w') (fs_init_trial study t)). Qed.

(** *** Run lemmas *)

Lemma load_or_create_run_new (cb : CometCallback Sd) study t key es w :
  py_truthy key = false -> _trial_experiments cb = PyDict es -> w_fail w = None ->
  load_or_create_trial_experiment study t key (cb, w) =
  (inr (length (w_objs w)),
   (set_trial_experiments
      (PyDict (dict_assign es (trial_key t) (PyStr (key_of (w_next_key w))))) cb,
    mkWorld (w_trace w ++ trial_creation_calls (_workspace cb) (_project_name cb)
                            (key_of (w_next_key w)) (study_name study))
            (S (w_next_key w)) (w_objs w ++ [mkObj (key_of (w_next_key w)) false])
            (Some (length (w_objs w))) (w_default_ws w) (w_fail w))).
Proof.
  intros Hk Hes Hr. unfold load_or_create_trial_experiment. rewrite Hk. ccrun.
  repeat progress (rewrite ?lookup_snoc_length; reliable; simpl).
  rewrite Hes. simpl. by rewrite <- ?app_assoc.
Qed.

Lemma load_or_create_run_resume (cb : CometCallback Sd) study t s w :
  s <> "" -> known (w_trace w) s = true -> w_fail w = None ->
  load_or_create_trial_experiment study t (PyStr s) (cb, w) =
  (inr (length (w_objs w)),
   (cb, mkWorld (w_trace w ++ [ResumeExperiment s]) (w_next_key w)
                (w_objs w ++ [mkObj s false]) (Some (length (w_objs w))) (w_default_ws w) (w_fail w))).
Proof.
  intros Hne Hkn Hr. unfold load_or_create_trial_experiment. simpl.
  apply String.eqb_neq in Hne. rewrite Hne. simpl. ccrun. rewrite Hkn. by ccrun.
Qed.

Lemma load_or_create_truthy_inv (cb : CometCallback Sd) study t key w cb' h w' :
  py_truthy key = true -> w_fail w = None ->
  runs (load_or_create_trial_experiment study t key) (cb, w) h (cb', w') ->
  exists s, key = PyStr s /\ cb' = cb /\ h = length (w_objs w) /\
    w' = mkWorld (w_trace w ++ [ResumeExperiment s]) (w_next_key w)
                 (w_objs w ++ [mkObj s false]) (Some (length (w_objs w))) (w_default_ws w) (w_fail w).
Proof.
  intros Ht Hr. unfold runs, load_or_create_trial_experiment. rewrite Ht. ccrun.
  destruct key as [| | | |s| |]; try discriminate. destruct (known (w_trace w) s); [|discriminate].
  ccrun. intros [= <- <- <-]. eauto.
Qed.

Lemma init_trial_run (cb : CometCallback Sd) study t w :
  w_fail w = None ->
  _init_optuna_trial_experiment study t (cb, w) =
  match py_dict_get (_trial_experiments cb) (trial_key t) with
  | inl e => (inl e, (cb, w))
  | inr key =>
      match w_active w with
      | None => load_or_create_trial_experiment study t key (cb, w)
      | Some a =>
          match w_objs w !! a with
          | None => (inl ReferenceError, (cb, w))
          | Some o =>
              if py_eq_str key (o_key o) then (inr a, (cb, w))
              else load_or_create_trial_experiment study t key
                     (cb, if o_ended o then w else end_world a o w)
          end
      end
  end.
Proof.
  intros Hr. unfold _init_optuna_trial_experiment. ccrun.
  destruct (py_dict_get _ _) as [e|key]; [done|]. cbn.
  destruct (w_active w) as [a|]; [|done]. cbn.
  destruct (w_objs w !! a) as [o|] eqn:Ha; [|done]. cbn.
  destruct (py_eq_str key (o_key o)); [done|]. cbn. rewrite Ha. cbn.
  destruct (o_ended o); [done|]. cbn. rewrite Ha. by ccrun.
Qed.

(** The trial's stored key is the key of the active object: the
    object is returned, with no call, whatever the service. *)
Lemma init_trial_reuse_run (cb : CometCallback Sd) study t w key a o :
  py_dict_get (_trial_experiments cb) (trial_key t) = inr key ->
  w_active w = Some a -> w_objs w !! a = Some o -> py_eq_str key (o_key o) = true ->
  _init_optuna_trial_experiment study t (cb, w) = (inr a, (cb, w)).
Proof.
  intros Hget Hact Ha Heq. unfold _init_optuna_trial_experiment. ccrun.
  rewrite Hget, Hact. simpl. rewrite Ha. simpl. by rewrite Heq.
Qed.

(** *** The callback's invariant *)

Lemma wf_cb_extend (cb : CometCallback Sd) w w' :
  wf_cb cb w -> (forall k, known (w_trace w) k = true -> known (w_trace w') k = true) ->
  wf_cb cb w'.
Proof.
  intros [Hse (es & Hes & Hv)] Hk. split; [by apply Hk|].
  exists es. split; [done|]. intros k v Hin Ht.
  destruct (Hv k v Hin Ht) as (s & -> & Hs). eauto.
Qed.

Lemma wf_cb_dict_value (cb : CometCallback Sd) w t key :
  wf_cb cb w -> py_dict_get (_trial_experiments cb) (trial_key t) = inr key ->
  py_truthy key = true -> exists s, key = PyStr s /\ s <> "" /\ known (w_trace w) s = true.
Proof.
  intros [_ (es & Hes & Hv)] Hget Ht. rewrite Hes in Hget. injection Hget as <-.
  destruct (dict_find es (trial_key t)) as [v|] eqn:Hf; [|discriminate]. simpl in *.
  destruct (dict_find_In _ _ _ Hf) as [k Hin].
  destruct (Hv k v Hin Ht) as (s & -> & Hs). exists s. repeat split; [|done].
  intros ->. discriminate.
Qed.

(** The creation branch keeps both invariants and adds one open,
    active object. *)
Lemma load_or_create_wf (cb : CometCallback Sd) study t key w :
  wf_world w -> all_ended w -> wf_cb cb w ->
  py_dict_get (_trial_experiments cb) (trial_key t) = inr key ->
  exists cb' k w',
    runs (load_or_create_trial_experiment study t key) (cb, w) (length (w_objs w)) (cb', w') /\
    wf_world w' /\ wf_cb cb' w' /\ w_active w' = Some (length (w_objs w)) /\
    w_objs w' = w_objs w ++ [mkObj k false] /\
    (exists d, w_trace w' = w_trace w ++ d).
Proof.
  intros Hwf Hall Hcb Hget. pose proof (wf_reliable w Hwf) as Hr.
  destruct (py_truthy key) eqn:Ht.
  - destruct (wf_cb_dict_value cb w t key Hcb Hget Ht) as (s & -> & Hne & Hkn).
    do 3 eexists. split; [unfold runs; by apply load_or_create_run_resume|].
    split; [|split; [|split; [done|split; [done|eauto]]]].
    + apply wf_alloc_active; try done; [|by apply known_app_l].
      intros c [<-|[]] k' i Hc. discriminate.
    + eapply wf_cb_extend; [done|]. intros k. apply known_app_l.
  - destruct Hcb as [Hse (es & Hes & Hv)].
    do 3 eexists. split; [unfold runs; by apply load_or_create_run_new|].
    split; [|split; [|split; [done|split; [done|eauto]]]].
    + apply wf_alloc_active; try done; [| |].
      * intros c Hin k' i Hc Hi. unfold trial_creation_calls in Hin.
        destruct Hin as [<-|[<-|[<-|[]]]]; try discriminate.
        injection Hc as <-. rewrite key_index_key_of in Hi. injection Hi as <-. lia.
      * lia.
      * apply (known_In _ (NewExperiment (_workspace cb) (_project_name cb) (key_of (w_next_key w))));
          [|done]. apply in_or_app. right. by left.
    + split; simpl; [by apply known_app_l|].
      eexists. split; [reflexivity|]. intros k v Hin' Htv.
      destruct (In_dict_assign _ _ _ _ _ Hin') as [Hin|Hvk]; [|subst v].
      * destruct (Hv k v Hin Htv) as (s & -> & Hs). exists s. split; [done|].
        by apply known_app_l.
      * eexists. split; [reflexivity|].
        apply (known_In _ (NewExperiment (_workspace cb) (_project_name cb) (key_of (w_next_key w))));
          [|done]. apply in_or_app. right. by left.
Qed.

(** [_init_optuna_trial_experiment] returns from a well-formed state,
    keeps both invariants, and leaves the returned object active. *)
Lemma init_trial_wf (cb : CometCallback Sd) study t w :
  wf_world w -> wf_cb cb w ->
  exists cb' h w',
    runs (_init_optuna_trial_experiment study t) (cb, w) h (cb', w') /\
    wf_world w' /\ wf_cb cb' w' /\ w_active w' = Some h /\ is_Some (w_objs w' !! h) /\
    (exists d, w_trace w' = w_trace w ++ d).
Proof.
  intros Hwf Hcb. unfold runs. rewrite init_trial_run by reliable_side.
  pose proof Hcb as [_ (es & Hes & _)]. rewrite Hes. simpl.
  set (key := default PyNone (dict_find es (trial_key t))).
  assert (Hget : py_dict_get (_trial_experiments cb) (trial_key t) = inr key) by (by rewrite Hes).
  destruct (w_active w) as [a|] eqn:Hact.
  - destruct (wf_active_valid w Hwf a Hact) as [o Ha]. rewrite Ha.
    destruct (py_eq_str key (o_key o)).
    + do 3 eexists. split; [reflexivity|]. split_ands; eauto.
      exists []. by rewrite app_nil_r.
    + destruct (o_ended o) eqn:Hend.
      * destruct (load_or_create_wf cb study t key w Hwf
                    (all_ended_active_ended w a o Hwf Hact Ha Hend) Hcb Hget)
          as (cb' & k & w' & Hrun & Hwf' & Hcb' & Hact' & Hobjs & Htr).
        do 3 eexists. split; [exact Hrun|]. split_ands; try done.
        rewrite Hobjs, lookup_snoc_length. eauto.
      * assert (Hcb1 : wf_cb cb (end_world a o w))
          by (eapply wf_cb_extend; [done|]; intros k; apply known_app_l).
        destruct (load_or_create_wf cb study t key (end_world a o w) (wf_end w a o Hwf Ha)
                    (all_ended_after_end w a o Hwf Hact Ha) Hcb1 Hget)
          as (cb' & k & w' & Hrun & Hwf' & Hcb' & Hact' & Hobjs & (d & Htr)).
        do 3 eexists. split; [exact Hrun|]. split_ands; try done.
        -- rewrite Hobjs, lookup_snoc_length. eauto.
        -- exists (EndExperiment (o_key o) :: d). rewrite Htr. simpl.
           by rewrite <- app_assoc.
  - destruct (load_or_create_wf cb study t key w Hwf (all_ended_no_active w Hwf Hact) Hcb Hget)
      as (cb' & k & w' & Hrun & Hwf' & Hcb' & Hact' & Hobjs & Htr).
    do 3 eexists. split; [exact Hrun|]. split_ands; try done.
    rewrite Hobjs, lookup_snoc_length. eauto.
Qed.

(** The check of the active experiment, when it does not return early:
    at most one [end()] on the previous object, after which nothing is
    open. *)
Lemma init_trial_mid (cb : CometCallback Sd) study t w key :
  wf_world w -> py_dict_get (_trial_experiments cb) (trial_key t) = inr key ->
  (forall a o, w_active w = Some a -> w_objs w !! a = Some o -> py_eq_str key (o_key o) = false) ->
  exists w_mid close,
    _init_optuna_trial_experiment study t (cb, w)
      = load_or_create_trial_experiment study t key (cb, w_mid) /\
    (close = [] \/ exists ka, close = [EndExperiment ka]) /\
    w_trace w_mid = w_trace w ++ close /\ w_next_key w_mid = w_next_key w /\
    length (w_objs w_mid) = length (w_objs w) /\ wf_world w_mid /\ all_ended w_mid /\
    (forall a o, w_active w = Some a -> w_objs w !! a = Some o -> o_ended o = false ->
       close = [EndExperiment (o_key o)] /\ w_objs w_mid !! a = Some (mkObj (o_key o) true)).
Proof.
  intros Hwf Hget Hne. rewrite init_trial_run, Hget by reliable_side.
  destruct (w_active w) as [a|] eqn:Hact.
  - destruct (wf_active_valid w Hwf a Hact) as [o Ha]. rewrite Ha, (Hne a o eq_refl Ha).
    destruct (o_ended o) eqn:Hend.
    + exists w, []. split_ands; eauto using app_nil_r, all_ended_active_ended.
      intros a' o' [= <-] Ha'. congruence.
    + exists (end_world a o w), [EndExperiment (o_key o)].
      split_ands; eauto using wf_end, all_ended_after_end.
      * simpl. apply length_insert.
      * intros a' o' [= <-] Ha' _. rewrite Ha in Ha'. injection Ha' as <-.
        split; [done|]. simpl. apply list_lookup_insert_eq. by eapply lookup_lt_Some.
  - exists w, []. split_ands; eauto using app_nil_r, all_ended_no_active. done.
Qed.

(** After a successful resolution, the dict maps the trial to the key
    of the returned object, which is active. *)
Lemma load_or_create_post (cb : CometCallback Sd) study t key es w cb' h w1 :
  _trial_experiments cb = PyDict es -> py_dict_get (_trial_experiments cb) (trial_key t) = inr key ->
  w_fail w = None ->
  runs (load_or_create_trial_experiment study t key) (cb, w) h (cb', w1) ->
  (cb' = cb \/ exists d, cb' = set_trial_experiments d cb) /\
  exists o, w_objs w1 !! h = Some o /\ w_active w1 = Some h /\
    py_dict_get (_trial_experiments cb') (trial_key t) = inr (PyStr (o_key o)).
Proof.
  intros Hes Hget Hr Hrun. destruct (py_truthy key) eqn:Ht.
  - destruct (load_or_create_truthy_inv cb study t key w cb' h w1 Ht Hr Hrun)
      as (s & -> & -> & -> & ->).
    split; [by left|]. exists (mkObj s false). simpl. split_ands; [|done|done].
    apply lookup_snoc_length.
  - unfold runs in Hrun. rewrite (load_or_create_run_new cb study t key es w Ht Hes Hr) in Hrun.
    injection Hrun as <- <- <-. split; [right; eauto|].
    eexists. simpl. split_ands; [apply lookup_snoc_length|done|].
    by rewrite dict_find_assign_eq.
Qed.

Lemma init_trial_post_reliable (cb : CometCallback Sd) study t w cb' h w1 :
  w_fail w = None ->
  runs (_init_optuna_trial_experiment study t) (cb, w) h (cb', w1) ->
  (cb' = cb \/ exists d, cb' = set_trial_experiments d cb) /\
  exists o, w_objs w1 !! h = Some o /\ w_active w1 = Some h /\
    py_dict_get (_trial_experiments cb') (trial_key t) = inr (PyStr (o_key o)).
Proof.
  intros Hr. unfold runs. rewrite init_trial_run by done.
  destruct (_trial_experiments cb) as [| | | | | |es] eqn:Hes; try discriminate.
  rewrite <- Hes. intros Hrun.
  set (key := default PyNone (dict_find es (trial_key t))) in *.
  assert (Hget : py_dict_get (_trial_experiments cb) (trial_key t) = inr key)
    by (by rewrite Hes).
  rewrite Hget in Hrun.
  destruct (w_active w) as [a|] eqn:Hact; [|by eapply load_or_create_post].
  destruct (w_objs w !! a) as [o|] eqn:Ha; [|discriminate].
  destruct (py_eq_str key (o_key o)) eqn:Heq;
    [|destruct (o_ended o); (eapply load_or_create_post; [done|done|idtac|exact Hrun]); by cbn].
  injection Hrun as <- <- <-. split; [by left|]. exists o. split_ands; try done.
  rewrite Hget. by rewrite (py_eq_str_true _ _ Heq).
Qed.

Lemma init_trial_post (cb : CometCallback Sd) study t w cb' h w1 :
  runs (_init_optuna_trial_experiment study t) (cb, w) h (cb', w1) ->
  (cb' = cb \/ exists d, cb' = set_trial_experiments d cb) /\
  exists o, w_objs w1 !! h = Some o /\ w_active w1 = Some h /\
    py_dict_get (_trial_experiments cb') (trial_key t) = inr (PyStr (o_key o)).
Proof. intros Hrun%init_trial_runs_reliable. by apply init_trial_post_reliable in Hrun. Qed.

(** The first resolution of a trial, from a well-formed world. *)
Lemma init_trial_run_first (cb : CometCallback Sd) study t w es :
  wf_world w -> _trial_experiments cb = PyDict es -> dict_find es (trial_key t) = None ->
  exists w_mid,
    runs (_init_optuna_trial_experiment study t) (cb, w) (length (w_objs w_mid))
      (set_trial_experiments
         (PyDict (dict_assign es (trial_key t) (PyStr (key_of (w_next_key w))))) cb,
       mkWorld (w_trace w_mid ++ trial_creation_calls (_workspace cb) (_project_name cb)
                                    (key_of (w_next_key w)) (study_name study))
               (S (w_next_key w)) (w_objs w_mid ++ [mkObj (key_of (w_next_key w)) false])
               (Some (length (w_objs w_mid))) (w_default_ws w_mid) (w_fail w_mid)) /\
    (exists close, (close = [] \/ exists ka, close = [EndExperiment ka]) /\
                   w_trace w_mid = w_trace w ++ close) /\
    w_next_key w_mid = w_next_key w /\ wf_world w_mid /\ all_ended w_mid.
Proof.
  intros Hwf Hes Hf.
  assert (Hget : py_dict_get (_trial_experiments cb) (trial_key t) = inr PyNone)
    by (by rewrite Hes, py_dict_get_dict, Hf).
  destruct (init_trial_mid cb study t w PyNone Hwf Hget)
    as (w_mid & close & Hinit & Hclose & Htr & Hnext & _ & Hwfm & Hall & _); [done|].
  exists w_mid. unfold runs.
  rewrite Hinit, (load_or_create_run_new cb study t PyNone es w_mid eq_refl Hes (wf_reliable _ Hwfm)).
  rewrite Hnext. split_ands; eauto.
Qed.

(** *** Claims *)

(** C7: the first resolution of a trial in a callback, when its number
    is not in the dict, closes at most the previous experiment.  It
    then creates one record with a fresh key, tagged "optuna_trial"
    and annotated with the study name, and makes it the active
    experiment.  It stores the key in [self._trial_experiments] under
    the trial number: a later [get] of that number returns it, and the
    other numbers are unchanged. *)
Theorem init_trial_experiment_creates (cb : CometCallback Sd) study t w es :
  wf_world w -> _trial_experiments cb = PyDict es -> dict_find es (trial_key t) = None ->
  exists cb' h w' close,
    runs (_init_optuna_trial_experiment study t) (cb, w) h (cb', w') /\
    (close = [] \/ exists ka, close = [EndExperiment ka]) /\
    w_trace w' = w_trace w ++ close ++
                 trial_creation_calls (_workspace cb) (_project_name cb)
                                      (key_of (w_next_key w)) (study_name study) /\
    known (w_trace w) (key_of (w_next_key w)) = false /\
    w_active w' = Some h /\ w_objs w' !! h = Some (mkObj (key_of (w_next_key w)) false) /\
    py_dict_get (_trial_experiments cb') (trial_key t) = inr (PyStr (key_of (w_next_key w))) /\
    (forall n, n <> trial_key t ->
       py_dict_get (_trial_experiments cb') n = py_dict_get (_trial_experiments cb) n).
Proof.
  intros Hwf Hes Hf.
  destruct (init_trial_run_first cb study t w es Hwf Hes Hf)
    as (w_mid & Hinit & (close & Hclose & Htr) & Hnext & _ & _).
  do 4 eexists. split; [exact Hinit|]. simpl. rewrite Htr, <- app_assoc.
  split_ands; eauto using wf_fresh_known.
  - apply lookup_snoc_length.
  - by rewrite dict_find_assign_eq.
  - intros n Hn. rewrite Hes, py_dict_get_dict. by rewrite dict_find_assign_ne.
Qed.

(** C14: when the trial's stored key is the key of the active
    experiment, resolution returns the active object itself.  It makes
    no call and changes nothing. *)
Theorem init_trial_experiment_reuses_active (cb : CometCallback Sd) study t w es k a o :
  _trial_experiments cb = PyDict es -> dict_find es (trial_key t) = Some (PyStr k) ->
  w_active w = Some a -> w_objs w !! a = Some o -> o_key o = k ->
  _init_optuna_trial_experiment study t (cb, w) = (inr a, (cb, w)).
Proof.
  intros Hes Hf Hact Ha Hk. apply (init_trial_reuse_run _ _ _ _ (PyStr k) a o); [|done|done|].
  - by rewrite Hes, py_dict_get_dict, Hf.
  - simpl. by rewrite Hk, String.eqb_refl.
Qed.

(** C15: when the trial's stored key names an existing record that is
    not the active one, resolution resumes that record with
    [ExistingExperiment].  It creates no record and leaves [self]
    unchanged. *)
Theorem init_trial_experiment_resumes (cb : CometCallback Sd) study t w es k :
  wf_world w -> _trial_experiments cb = PyDict es ->
  dict_find es (trial_key t) = Some (PyStr k) -> k <> "" -> known (w_trace w) k = true ->
  (forall a o, w_active w = Some a -> w_objs w !! a = Some o -> o_key o <> k) ->
  exists h w' close,
    runs (_init_optuna_trial_experiment study t) (cb, w) h (cb, w') /\
    (close = [] \/ exists ka, close = [EndExperiment ka]) /\
    w_trace w' = w_trace w ++ close ++ [ResumeExperiment k] /\
    w_active w' = Some h /\ w_objs w' !! h = Some (mkObj k false).
Proof.
  intros Hwf Hes Hf Hne Hkn Hact.
  assert (Hget : py_dict_get (_trial_experiments cb) (trial_key t) = inr (PyStr k))
    by (by rewrite Hes, py_dict_get_dict, Hf).
  destruct (init_trial_mid cb study t w (PyStr k) Hwf Hget)
    as (w_mid & close & Hinit & Hclose & Htr & Hnext & Hlen & Hwfm & _ & _).
  { intros a o Ha Ho. simpl. apply String.eqb_neq. intros ->. by apply (Hact a o). }
  unfold runs. rewrite Hinit, load_or_create_run_resume; [|done| |by apply wf_reliable].
  - do 3 eexists. split; [reflexivity|]. simpl. rewrite Htr, <- app_assoc.
    split_ands; eauto. apply lookup_snoc_length.
  - rewrite Htr. by apply known_app_l.
Qed.

(** C6: switching experiments closes the previous one first.  When
    the active experiment is open and resolution does not return it,
    the first call is [EndExperiment] on it.  The next call creates or
    resumes the record of the returned object, which becomes active,
    and the previous object is marked ended. *)
Theorem init_trial_experiment_closes_previous (cb : CometCallback Sd) study t w a o cb' h w' :
  wf_world w -> wf_cb cb w -> w_active w = Some a -> w_objs w !! a = Some o -> o_ended o = false ->
  runs (_init_optuna_trial_experiment study t) (cb, w) h (cb', w') ->
  (h = a /\ w' = w) \/
  exists c rest o',
    w_trace w' = w_trace w ++ EndExperiment (o_key o) :: c :: rest /\
    (c = ResumeExperiment (o_key o') \/ exists ws proj, c = NewExperiment ws proj (o_key o')) /\
    w_objs w' !! h = Some o' /\ w_objs w' !! a = Some (mkObj (o_key o) true) /\
    w_active w' = Some h.
Proof.
  intros Hwf Hcb Hact Ha Hopen Hrun.
  pose proof Hcb as [_ (es & Hes & _)].
  set (key := default PyNone (dict_find es (trial_key t))).
  assert (Hget : py_dict_get (_trial_experiments cb) (trial_key t) = inr key)
    by (by rewrite Hes).
  destruct (py_eq_str key (o_key o)) eqn:Heq.
  - left. unfold runs in Hrun. rewrite init_trial_run, Hget, Hact, Ha, Heq in Hrun
      by reliable_side.
    by injection Hrun as <- <- <-.
  - right. destruct (init_trial_mid cb study t w key Hwf Hget)
      as (w_mid & close & Hinit & _ & Htr & Hnext & Hlen & Hwfm & Hall & Hend).
    { intros a' o' Ha' Ho'. rewrite Hact in Ha'. injection Ha' as <-. congruence. }
    destruct (Hend a o Hact Ha Hopen) as [-> Ha_mid].
    unfold runs in Hrun. rewrite Hinit in Hrun.
    destruct (py_truthy key) eqn:Ht.
    + destruct (load_or_create_truthy_inv cb study t key w_mid cb' h w' Ht (wf_reliable _ Hwfm) Hrun)
        as (s & -> & -> & -> & ->).
      exists (ResumeExperiment s), [], (mkObj s false). simpl. rewrite Htr, <- app_assoc.
      split_ands; eauto using lookup_snoc_length, lookup_app_l_Some.
    + rewrite (load_or_create_run_new cb study t key es w_mid Ht Hes (wf_reliable _ Hwfm)) in Hrun.
      injection Hrun as <- <- <-. simpl.
      eexists _, _, (mkObj (key_of (w_next_key w_mid)) false).
      rewrite Htr, <- app_assoc. split_ands; eauto using lookup_snoc_length, lookup_app_l_Some.
Qed.
(** C23: a dict keyed by strs never matches a trial.  [.get] is called
    with the trial number, an int, and no str equals an int.  So when
    the dict's keys are strs, as they come back from a JSON round trip
    of the attribute store, resolution creates a fresh record, even
    for a trial the dict holds under its decimal string. *)
Theorem init_trial_experiment_str_keys_miss (cb : CometCallback Sd) study t w es :
  wf_world w -> _trial_experiments cb = PyDict es ->
  Forall (fun p => exists s, p.1 = PyStr s) es ->
  exists cb' h w' close,
    runs (_init_optuna_trial_experiment study t) (cb, w) h (cb', w') /\
    (close = [] \/ exists ka, close = [EndExperiment ka]) /\
    w_trace w' = w_trace w ++ close ++
                 trial_creation_calls (_workspace cb) (_project_name cb)
                                      (key_of (w_next_key w)) (study_name study) /\
    known (w_trace w) (key_of (w_next_key w)) = false.
Proof.
  intros Hwf Hes Hstr.
  destruct (init_trial_run_first cb study t w es Hwf Hes (dict_find_str_keys es _ Hstr))
    as (w_mid & Hinit & (close & Hclose & Htr) & _ & _ & _).
  do 4 eexists. split; [exact Hinit|]. simpl. rewrite Htr, <- app_assoc.
  split_ands; eauto using wf_fresh_known.
Qed.

(** *** Records created against entries of the dict *)

Lemma load_or_create_count (cb : CometCallback Sd) study t w cb' h w' es :
  _trial_experiments cb = PyDict es -> int_keyed es -> w_fail w = None ->
  runs (load_or_create_trial_experiment study t (default PyNone (dict_find es (trial_key t))))
       (cb, w) h (cb', w') ->
  exists es', _trial_experiments cb' = PyDict es' /\ int_keyed es' /\
    count_calls is_new_experiment (w_trace w') + dict_truthy_count es
    = count_calls is_new_experiment (w_trace w) + dict_truthy_count es'.
Proof.
  intros Hes Hik Hr Hrun. destruct (py_truthy (default PyNone (dict_find es (trial_key t)))) eqn:Ht.
  - destruct (load_or_create_truthy_inv cb study t _ w cb' h w' Ht Hr Hrun) as (s & _ & -> & _ & ->).
    exists es. simpl. rewrite count_calls_app. unfold count_calls at 2. simpl. split_ands; [done|done|lia].
  - unfold runs in Hrun. rewrite (load_or_create_run_new cb study t _ es w Ht Hes Hr) in Hrun.
    injection Hrun as _ <- <-. eexists. split_ands; [reflexivity|by apply int_keyed_assign|].
    simpl. rewrite dict_truthy_count_assign by (done || apply key_of_truthy).
    rewrite count_calls_app. unfold count_calls at 2. simpl. lia.
Qed.

Lemma init_trial_count (cb : CometCallback Sd) study t w cb' h w' es :
  _trial_experiments cb = PyDict es -> int_keyed es -> w_fail w = None ->
  runs (_init_optuna_trial_experiment study t) (cb, w) h (cb', w') ->
  exists es', _trial_experiments cb' = PyDict es' /\ int_keyed es' /\
    count_calls is_new_experiment (w_trace w') + dict_truthy_count es
    = count_calls is_new_experiment (w_trace w) + dict_truthy_count es'.
Proof.
  intros Hes Hik Hr. unfold runs. rewrite init_trial_run, Hes, py_dict_get_dict by done.
  destruct (w_active w) as [a|]; [|apply load_or_create_count; done].
  destruct (w_objs w !! a) as [o|]; [|discriminate].
  destruct (py_eq_str _ (o_key o)); [intros [= <- <- <-]; exists es; split_ands; done|].
  destruct (o_ended o); [apply load_or_create_count; done|].
  intros Hrun. destruct (load_or_create_count cb study t _ cb' h w' es Hes Hik (Hr : w_fail (end_world a o w) = None) Hrun)
    as (es' & ? & ? & Hc). exists es'. split_ands; [done|done|].
  rewrite Hc. cbn [end_world w_trace]. rewrite count_calls_app. unfold count_calls at 2. simpl. lia.
Qed.

End TrialExperiment.

(** ** Witnesses *)

Lemma init_trial_experiment_creates_witness :
  exists cb' h w' close,
    runs (_init_optuna_trial_experiment ex_study ex_trial) (ex_cb, ex_world_init) h (cb', w') /\
    (close = [] \/ exists ka, close = [EndExperiment ka]) /\
    w_trace w' = w_trace ex_world_init ++ close ++
                 trial_creation_calls (_workspace ex_cb) (_project_name ex_cb)
                                      (key_of (w_next_key ex_world_init)) (study_name ex_study) /\
    known (w_trace ex_world_init) (key_of (w_next_key ex_world_init)) = false /\
    w_active w' = Some h /\ w_objs w' !! h = Some (mkObj (key_of (w_next_key ex_world_init)) false) /\
    py_dict_get (_trial_experiments cb') (trial_key ex_trial)
      = inr (PyStr (key_of (w_next_key ex_world_init))) /\
    (forall n, n <> trial_key ex_trial ->
       py_dict_get (_trial_experiments cb') n = py_dict_get (_trial_experiments ex_cb) n).
Proof.
  apply (init_trial_experiment_creates ex_cb ex_study ex_trial ex_world_init []);
    [apply wf_worldb_sound; vm_compute|..]; reflexivity.
Defined.

Lemma init_trial_experiment_reuses_active_witness :
  _init_optuna_trial_experiment ex_study ex_trial (ex_cb_active, ex_world_active)
  = (inr 0, (ex_cb_active, ex_world_active)).
Proof.
  apply (init_trial_experiment_reuses_active _ _ _ _ [(PyInt 0, PyStr "exp-1")] "exp-1" 0
           (mkObj "exp-1" false)); reflexivity.
Defined.

Lemma init_trial_experiment_resumes_witness :
  exists h w' close,
    runs (_init_optuna_trial_experiment ex_study ex_trial) (ex_cb_active, ex_world_two) h
         (ex_cb_active, w') /\
    (close = [] \/ exists ka, close = [EndExperiment ka]) /\
    w_trace w' = w_trace ex_world_two ++ close ++ [ResumeExperiment "exp-1"] /\
    w_active w' = Some h /\ w_objs w' !! h = Some (mkObj "exp-1" false).
Proof.
  apply (init_trial_experiment_resumes _ _ _ _ [(PyInt 0, PyStr "exp-1")]);
    [apply wf_worldb_sound; vm_compute; reflexivity|reflexivity|reflexivity|discriminate
    |vm_compute; reflexivity|].
  intros a o [= <-] Ho. injection Ho as <-. discriminate.
Defined.

Lemma init_trial_experiment_closes_previous_witness :
  exists cb' h w',
    runs (_init_optuna_trial_experiment ex_study ex_trial_multi) (ex_cb_active, ex_world_active) h
         (cb', w') /\
    ((h = 0 /\ w' = ex_world_active) \/
     exists c rest o',
       w_trace w' = w_trace ex_world_active ++ EndExperiment (o_key (mkObj "exp-1" false)) :: c :: rest /\
       (c = ResumeExperiment (o_key o') \/ exists ws proj, c = NewExperiment ws proj (o_key o')) /\
       w_objs w' !! h = Some o' /\ w_objs w' !! 0 = Some (mkObj (o_key (mkObj "exp-1" false)) true) /\
       w_active w' = Some h).
Proof.
  do 3 eexists. split; [vm_compute; reflexivity|].
  eapply (init_trial_experiment_closes_previous ex_cb_active ex_study ex_trial_multi ex_world_active);
    [apply wf_worldb_sound; vm_compute; reflexivity|apply wf_cbb_sound; vm_compute; reflexivity
    |reflexivity|reflexivity|reflexivity|vm_compute; reflexivity].
Defined.

Lemma init_trial_experiment_str_keys_miss_witness :
  exists cb' h w' close,
    runs (_init_optuna_trial_experiment ex_study ex_trial)
         (set_trial_experiments (PyDict [(PyStr "0", PyStr "exp-1")]) ex_cb_active, ex_world_active)
         h (cb', w') /\
    (close = [] \/ exists ka, close = [EndExperiment ka]) /\
    w_trace w' = w_trace ex_world_active ++ close ++
                 trial_creation_calls
                   (_workspace (set_trial_experiments (PyDict [(PyStr "0", PyStr "exp-1")]) ex_cb_active))
                   (_project_name (set_trial_experiments (PyDict [(PyStr "0", PyStr "exp-1")]) ex_cb_active))
                   (key_of (w_next_key ex_world_active)) (study_name ex_study) /\
    known (w_trace ex_world_active) (key_of (w_next_key ex_world_active)) = false.
Proof.
  apply (init_trial_experiment_str_keys_miss _ _ _ _ [(PyStr "0", PyStr "exp-1")]);
    [apply wf_worldb_sound; vm_compute; reflexivity|reflexivity|].
  repeat constructor. eexists. reflexivity.
Defined.
