(* ===== verification/TrialLogging.v ===== *)
(** * Logging a trial: [CometCallback.__call__]

    [__call__] resolves the trial's experiment, annotates it, logs the
    objective values on one of two branches, overwrites "best_trials"
    on the study record and ends the experiment.  The run lemma
    [call_run] gives the whole trace for each outcome of the objective
    branch on a reliable service; the claims follow from it.  For every
    callback, trial and world, a failure of the [add_tag] that follows
    [comet_ml.Experiment()] leaves an experiment open that nothing
    refers to. *)

From Stdlib Require Import List ZArith QArith String.
From stdpp Require Import base list strings.
From S2P Require Import Prelude PyData Optuna CometClient CometCallback Fixtures StudyExperiment TrialExperiment.
Import ListNotations.
Local Open Scope string_scope.
Local Open Scope list_scope.

(** ** Definitions *)

(** [trial.values and len(trial.values) > 1]: the values when there
    are several of them. *)
Definition multi_objective_values (t : FrozenTrial) : option (list Q) :=
  match values t with
  | Some vs => if Nat.ltb 1 (length vs) then Some vs else None
  | None => None
  end.

Section TrialLoggingDefs.
Context {Sd : Type} `{!StudyHandle Sd}.

(** The branch on the number of objective values in [__call__]. *)
Definition log_objectives (names : list string) (study : Sd) (trial : FrozenTrial)
           (h : nat) : CM unit :=
  match multi_objective_values trial with
  | Some vs =>
      mfor_enum 0 vs (fun i v =>
        exp_log_metric h (fmt_name (metric_name_at names i)) v)
  | None =>
      let metric_name := match names with n :: _ => n | [] => "objective_value" end in
      v <- of_sum (trial_value trial) ;;
      d <- of_sum (study_direction study) ;;
      exp_log_optimization h (mkOpt (study_name study) metric_name v (params trial) d)
  end.

(** [json.dumps([trial.number for trial in study.best_trials])] *)
Definition best_trials_json (study : Sd) : string :=
  json_dumps_ints (best_trial_numbers study).

(** [CometCallback.__call__(self, study, trial)] *)
Definition CometCallback_call (study : Sd) (trial : FrozenTrial) : CCM Sd unit :=
  h <- _init_optuna_trial_experiment study trial ;;
  cb <- get_self ;;
  liftW (exp_log_parameters h (params trial)) ;;;
  liftW (exp_log_other h "trial_number" (PyInt (trial_key trial))) ;;;
  liftW (exp_add_tag h ("trial_number_" ++ py_str_nat (number trial))) ;;;
  liftW (log_objectives (_metric_names cb) study trial h) ;;;
  liftW (api_log_other (study_experiment cb) "best_trials" (PyStr (best_trials_json study))) ;;;
  liftW (exp_end h).

End TrialLoggingDefs.

(** The calls [__call__] makes for the objective values on the record
    [k], or the exception it raises there. *)
Definition objective_calls {Sd} `{!StudyHandle Sd} (names : list string) (study : Sd)
           (t : FrozenTrial) (k : string) : exn + list call :=
  match multi_objective_values t with
  | Some vs =>
      inr (imap (fun i v => LogMetric k (fmt_name (metric_name_at names i)) v) vs)
  | None =>
      match trial_value t with
      | inl e => inl e
      | inr v =>
          match study_direction study with
          | inl e => inl e
          | inr d =>
              inr [LogOptimization k (mkOpt (study_name study)
                     (match names with n :: _ => n | [] => "objective_value" end)
                     v (params t) d)]
          end
      end
  end.

(** The calls of [__call__] on the trial's record before the objective
    values. *)
Definition trial_annotation_calls (t : FrozenTrial) (k : string) : list call :=
  [LogParameters k (params t); LogOther k "trial_number" (PyInt (trial_key t));
   AddTag k ("trial_number_" ++ py_str_nat (number t))%string].

(** ** Lemmas *)

Section Call.
Context {Sd : Type} `{!StudyHandle Sd}.

(** *** The fault contract *)

Lemma fs_log_objectives (names : list string) (study : Sd) t h :
  fault_sound (log_objectives names study t h).
Proof. unfold log_objectives. fsound. Qed.

#[local] Hint Resolve fs_log_objectives fs_init_trial : fsound.

Lemma fs_call (study : Sd) t : fault_sound (CometCallback_call study t).
Proof. unfold CometCallback_call. fsound. Qed.

(** A [__call__] that returns on a faulty service returns alike on a
    reliable one. *)
Lemma call_runs_reliable (study : Sd) t cb w cb' w' :
  runs (CometCallback_call study t) (cb, w) tt (cb', w') ->
  runs (CometCallback_call study t) (cb, set_fail None w) tt (cb', set_fail None w').
Proof. exact (runs_reduce _ (cb, w) tt (cb', w') (fs_call study t)). Qed.

(** *** Run lemmas *)

Lemma log_objectives_run (names : list string) (study : Sd) t h o w :
  w_fail w = None -> w_objs w !! h = Some o ->
  log_objectives names study t h w =
  match objective_calls names study t (o_key o) with
  | inl e => (inl e, w)
  | inr d => (inr tt, set_trace (w_trace w ++ d) w)
  end.
Proof.
  intros Hr Hh. unfold log_objectives, objective_calls.
  destruct (multi_objective_values t) as [vs|].
  - rewrite (mfor_enum_ext (fun w => w_objs w !! h = Some o) _
               (fun i v => emit (LogMetric (o_key o) (fmt_name (metric_name_at names i)) v)));
      [by apply mfor_enum_emit| | |done].
    + intros i x w' Hw'. crun. by rewrite Hw'.
    + intros i x w' u w'' Hw' Hrun. unfold emit in Hrun. cm_simp.
      destruct (fails_now w'); [discriminate|]. by injection Hrun as _ <-.
  - crun. destruct (trial_value t) as [e|v]; [done|]. simpl.
    destruct (study_direction study) as [e|d]; [done|]. simpl. rewrite Hh. by crun.
Qed.

Lemma call_run (cb : CometCallback Sd) study t w cb' h w1 o :
  w_fail w = None ->
  runs (_init_optuna_trial_experiment study t) (cb, w) h (cb', w1) ->
  w_objs w1 !! h = Some o ->
  CometCallback_call study t (cb, w) =
  match objective_calls (_metric_names cb') study t (o_key o) with
  | inl e => (inl e, (cb', set_trace (w_trace w1 ++ trial_annotation_calls t (o_key o)) w1))
  | inr d =>
      (inr tt, (cb', end_world h o
                  (set_trace (w_trace w1 ++ trial_annotation_calls t (o_key o) ++ d ++
                              [LogOther (study_experiment cb') "best_trials"
                                        (PyStr (best_trials_json study))]) w1)))
  end.
Proof.
  intros Hr Hinit Hh.
  pose proof (fault_sound_reliable _ (cb, w) _ (cb', w1) (fs_init_trial study t) Hr Hinit) as Hr1.
  simpl in Hr1. unfold CometCallback_call. rewrite (mbind_inr _ _ _ _ _ Hinit).
  unfold exp_log_parameters, exp_log_other, exp_add_tag, api_log_other, exp_end.
  repeat progress (ccrun; rewrite ?Hh).
  rewrite (log_objectives_run (_metric_names cb') study t h o) by (simpl; assumption).
  destruct (objective_calls (_metric_names cb') study t (o_key o)) as [e|d].
  { unfold trial_annotation_calls. simpl. by rewrite <- !app_assoc. }
  repeat progress (ccrun; rewrite ?Hh).
  unfold end_world, trial_annotation_calls. simpl. app_norm. reflexivity.
Qed.

Lemma init_trial_fields (cb : CometCallback Sd) study t w cb' h w1 :
  runs (_init_optuna_trial_experiment study t) (cb, w) h (cb', w1) ->
  study_experiment cb' = study_experiment cb /\ _metric_names cb' = _metric_names cb.
Proof. intros (Hcb & _)%init_trial_post. by destruct Hcb as [->|[d ->]]. Qed.

Lemma call_runs_inv (cb : CometCallback Sd) study t w cb2 w2 :
  w_fail w = None ->
  runs (CometCallback_call study t) (cb, w) tt (cb2, w2) ->
  exists h w1 o d,
    runs (_init_optuna_trial_experiment study t) (cb, w) h (cb2, w1) /\
    w_objs w1 !! h = Some o /\ w_active w1 = Some h /\
    objective_calls (_metric_names cb2) study t (o_key o) = inr d /\
    w2 = end_world h o
           (set_trace (w_trace w1 ++ trial_annotation_calls t (o_key o) ++ d ++
                       [LogOther (study_experiment cb2) "best_trials"
                                 (PyStr (best_trials_json study))]) w1).
Proof.
  intros Hr Hrun.
  destruct (_init_optuna_trial_experiment study t (cb, w)) as [[e|h] [cb' w1]] eqn:E.
  - unfold runs, CometCallback_call in Hrun. by rewrite (mbind_inl _ _ _ _ _ E) in Hrun.
  - destruct (init_trial_post cb study t w cb' h w1 E) as (_ & o & Ho & Hact & _).
    unfold runs in Hrun. rewrite (call_run cb study t w cb' h w1 o Hr E Ho) in Hrun.
    destruct (objective_calls (_metric_names cb') study t (o_key o)) as [e|d] eqn:Ed;
      [discriminate|].
    injection Hrun as <- <-. exists h, w1, o, d. by split_ands.
Qed.

Lemma objective_calls_no_creation (names : list string) (study : Sd) t k d :
  objective_calls names study t k = inr d -> forall c, In c d -> created_key c = None.
Proof.
  unfold objective_calls. destruct (multi_objective_values t).
  - intros [= <-] c (i & v & ->)%In_imap_inv. done.
  - destruct (trial_value t); [discriminate|]. destruct (study_direction study); [discriminate|].
    intros [= <-] c [<-|[]]. done.
Qed.

Lemma annotation_no_creation t k c : In c (trial_annotation_calls t k) -> created_key c = None.
Proof. unfold trial_annotation_calls. by intros [<-|[<-|[<-|[]]]]. Qed.

(** The world after [__call__] logged everything on a resolved trial
    experiment, before [end()]: well-formed. *)
Lemma wf_call_logged w1 (o : ExpObj) t d se bt (names : list string) (study : Sd) :
  wf_world w1 -> objective_calls names study t (o_key o) = inr d ->
  wf_world (set_trace (w_trace w1 ++ trial_annotation_calls t (o_key o) ++ d ++
                       [LogOther se "best_trials" (PyStr bt)]) w1).
Proof.
  intros Hwf Hd. apply wf_push; [done|]. intros c Hc. rewrite !in_app_iff in Hc.
  destruct Hc as [Hc|[Hc|[<-|[]]]];
    [by eapply annotation_no_creation|by eapply objective_calls_no_creation|done].
Qed.
End Call.

Section CallClaims.
Context {Sd : Type} `{!StudyHandle Sd}.

(** C10: a single-objective trial is logged as one optimisation result.
    For a trial with one value [v] in a study with one direction [d],
    [__call__] returns.  On the trial's record it logs the parameters,
    the trial number (as an "other" and as a tag) and one
    [log_optimization].  That call carries the study name, the first
    metric name or "objective_value", [v], the parameters and [d].
    It then overwrites "best_trials" on the study record and ends the
    trial's experiment. *)
Theorem CometCallback_call_single_objective (cb : CometCallback Sd) study t w v d :
  wf_world w -> wf_cb cb w -> values t = Some [v] -> directions study = [d] ->
  exists cb' w' k pre,
    runs (CometCallback_call study t) (cb, w) tt (cb', w') /\
    w_trace w' = pre ++ trial_annotation_calls t k ++
      [LogOptimization k (mkOpt (study_name study)
                            (match _metric_names cb with n :: _ => n | [] => "objective_value" end)
                            (Some v) (params t) d);
       LogOther (study_experiment cb) "best_trials" (PyStr (best_trials_json study));
       EndExperiment k].
Proof.
  intros Hwf Hcb Hv Hd.
  destruct (init_trial_wf cb study t w Hwf Hcb) as (cb' & h & w1 & Hinit & _ & _ & _ & [o Ho] & _).
  destruct (init_trial_fields cb study t w cb' h w1 Hinit) as [Hse Hnames].
  exists cb'. eexists. exists (o_key o), (w_trace w1). unfold runs.
  rewrite (call_run cb study t w cb' h w1 o (wf_reliable _ Hwf) Hinit Ho).
  unfold objective_calls, multi_objective_values, trial_value. rewrite Hv. simpl.
  rewrite (study_direction_single _ d Hd), Hnames, Hse. simpl.
  split; [reflexivity|]. simpl. by rewrite <- app_assoc.
Qed.

(** C11: a multi-objective trial is logged as one metric per value.
    [__call__] logs metric i under the i-th metric name, or under the
    index i when there is none, with the i-th value, in order.  It makes
    no [log_optimization] call. *)
Theorem CometCallback_call_multi_objective (cb : CometCallback Sd) study t w vs :
  wf_world w -> wf_cb cb w -> values t = Some vs -> 1 < length vs ->
  exists cb' w' k pre,
    runs (CometCallback_call study t) (cb, w) tt (cb', w') /\
    w_trace w' = pre ++ trial_annotation_calls t k ++
      imap (fun i v => LogMetric k (match _metric_names cb !! i with
                                    | Some s => s
                                    | None => py_str_nat i
                                    end) v) vs ++
      [LogOther (study_experiment cb) "best_trials" (PyStr (best_trials_json study));
       EndExperiment k].
Proof.
  intros Hwf Hcb Hv Hlen.
  destruct (init_trial_wf cb study t w Hwf Hcb) as (cb' & h & w1 & Hinit & _ & _ & _ & [o Ho] & _).
  destruct (init_trial_fields cb study t w cb' h w1 Hinit) as [Hse Hnames].
  exists cb'. eexists. exists (o_key o), (w_trace w1). unfold runs.
  rewrite (call_run cb study t w cb' h w1 o (wf_reliable _ Hwf) Hinit Ho).
  unfold objective_calls, multi_objective_values. rewrite Hv.
  apply Nat.ltb_lt in Hlen. rewrite Hlen, Hnames, Hse.
  split; [reflexivity|]. simpl.
  assert (imap (fun i v => LogMetric (o_key o) (fmt_name (metric_name_at (_metric_names cb) i)) v) vs
          = imap (fun i v => LogMetric (o_key o) (match _metric_names cb !! i with
                                                 | Some s => s
                                                 | None => py_str_nat i
                                                 end) v) vs) as ->.
  { apply imap_ext. intros i x _. unfold metric_name_at. by destruct (_metric_names cb !! i). }
  app_norm. reflexivity.
Qed.

(** C16: after [__call__] returns, the study record's "best_trials"
    holds the JSON list of the study's current best trial numbers,
    whatever it held before: the value is overwritten, not appended.
    The JSON string decodes back to that list. *)
Theorem CometCallback_call_best_trials (cb : CometCallback Sd) study t w cb' w' :
  runs (CometCallback_call study t) (cb, w) tt (cb', w') ->
  other_of (w_trace w') (study_experiment cb) "best_trials"
    = Some (PyStr (best_trials_json study)) /\
  json_loads_ints (best_trials_json study) = Some (best_trial_numbers study).
Proof.
  intros Hrun%call_runs_reliable. revert Hrun. reliable_world w'. reliable_world w. intros Hrun.
  destruct (call_runs_inv cb study t w cb' w' ltac:(assumption) Hrun)
    as (h & w1 & o & d & Hinit & Ho & _ & _ & ->).
  destruct (init_trial_fields cb study t w cb' h w1 Hinit) as [Hse _].
  split; [|apply json_loads_dumps_ints].
  cbn [w_trace end_world set_trace]. rewrite other_of_skip by congruence.
  rewrite !app_assoc, Hse. apply other_of_last.
Qed.

(** [__call__] returns and closes the trial's experiment when the
    objective values can be logged. *)
Lemma call_closes_run (cb : CometCallback Sd) study t w :
  wf_world w -> wf_cb cb w ->
  (multi_objective_values t <> None \/
   ((exists v, trial_value t = inr v) /\ (exists d, study_direction study = inr d))) ->
  exists cb' w', runs (CometCallback_call study t) (cb, w) tt (cb', w') /\
    wf_world w' /\ wf_cb cb' w' /\ all_ended w'.
Proof.
  intros Hwf Hcb Hobj.
  destruct (init_trial_wf cb study t w Hwf Hcb)
    as (cb' & h & w1 & Hinit & Hwf1 & Hcb1 & Hact1 & [o Ho] & _).
  destruct (objective_calls (_metric_names cb') study t (o_key o)) as [e|d] eqn:Ed.
  { exfalso. unfold objective_calls in Ed.
    destruct Hobj as [Hm|[[v Hv] [dd Hdd]]].
    - destruct (multi_objective_values t); [discriminate|done].
    - destruct (multi_objective_values t); [discriminate|]. by rewrite Hv, Hdd in Ed. }
  pose proof (wf_call_logged w1 o t d (study_experiment cb') (best_trials_json study) _ study
                Hwf1 Ed) as Hwf2.
  eexists cb', _. unfold runs.
  rewrite (call_run cb study t w cb' h w1 o (wf_reliable _ Hwf) Hinit Ho), Ed.
  split_ands; [done|by apply wf_end| |by apply all_ended_after_end].
  eapply wf_cb_extend; [done|]. intros k Hk. simpl. by do 2 apply known_app_l.
Qed.

(** C9: [__call__] ends the trial's experiment.  From a well-formed
    state, when the objective values can be logged (several values, or
    a [value] and a [direction] Optuna returns without raising),
    [__call__] returns.  Afterwards no experiment object of the process
    is open, and both invariants hold. *)
Theorem CometCallback_call_closes_experiment (cb : CometCallback Sd) study t w :
  wf_world w -> wf_cb cb w ->
  (multi_objective_values t <> None \/
   ((exists v, trial_value t = inr v) /\ (exists d, study_direction study = inr d))) ->
  exists cb' w', runs (CometCallback_call study t) (cb, w) tt (cb', w') /\
    wf_world w' /\ wf_cb cb' w' /\ all_ended w'.
Proof. apply call_closes_run. Qed.

(** C21: a failed or pruned trial of a multi-objective study makes
    [__call__] raise.  Its values are [None], so the code takes the
    single-objective branch and reads [study.direction], which Optuna
    refuses on a study with several directions.  The raise comes after
    the trial's experiment was created, stored in
    [self._trial_experiments] and annotated.  For a trial seen for the
    first time, that experiment is left open and active, with no
    [EndExperiment] after its annotations. *)
Theorem CometCallback_call_failed_trial_multi_objective (cb : CometCallback Sd) study t w es :
  wf_world w -> _trial_experiments cb = PyDict es -> dict_find es (trial_key t) = None ->
  values t = None -> 1 < length (directions study) ->
  exists msg cb' w' h o pre,
    raises (CometCallback_call study t) (cb, w) (RuntimeError msg) (cb', w') /\
    w_active w' = Some h /\ w_objs w' !! h = Some o /\ o_ended o = false /\
    w_trace w' = pre ++ trial_annotation_calls t (o_key o) /\
    py_dict_get (_trial_experiments cb') (trial_key t) = inr (PyStr (o_key o)).
Proof.
  intros Hwf Hes Hf Hv Hd.
  destruct (init_trial_run_first cb study t w es Hwf Hes Hf) as (w_mid & Hinit & _ & _ & _ & _).
  destruct (study_direction_multi study Hd) as [msg Hmsg].
  exists msg. do 5 eexists. unfold raises.
  rewrite (call_run cb study t w _ _ _ _ (wf_reliable _ Hwf) Hinit (lookup_snoc_length _ _)).
  unfold objective_calls, multi_objective_values, trial_value. rewrite Hv, Hmsg.
  split_ands; [reflexivity|done|apply lookup_snoc_length|done|done|].
  simpl. by rewrite dict_find_assign_eq.
Qed.

(** C24: resolving a trial again after [__call__] returned for it (the
    callback registered twice, or called again for the same trial)
    returns the same experiment object, which [__call__] has ended.
    Resolution makes no call and does not reopen it, so every later
    log of that call goes to an ended experiment. *)
Theorem CometCallback_call_again_reuses_ended (cb : CometCallback Sd) study t w cb1 w1 :
  runs (CometCallback_call study t) (cb, w) tt (cb1, w1) ->
  exists h o, w_active w1 = Some h /\ w_objs w1 !! h = Some o /\ o_ended o = true /\
    _init_optuna_trial_experiment study t (cb1, w1) = (inr h, (cb1, w1)).
Proof.
  intros Hrun%call_runs_reliable.
  destruct (call_runs_inv cb study t (set_fail None w) cb1 (set_fail None w1) eq_refl Hrun)
    as (h & w0 & o & d & Hinit & Ho & Hact & _ & Hw1).
  destruct (init_trial_post cb study t _ cb1 h w0 Hinit) as (_ & o' & Ho' & _ & Hget).
  rewrite Ho in Ho'. injection Ho' as <-.
  assert (Hh : h < length (w_objs w0)) by (by eapply lookup_lt_Some).
  assert (Hl : w_objs w1 !! h = Some (mkObj (o_key o) true)).
  { change (w_objs w1) with (w_objs (set_fail None w1)). rewrite Hw1. simpl.
    by apply list_lookup_insert_eq. }
  assert (Hact1 : w_active w1 = Some h).
  { change (w_active w1) with (w_active (set_fail None w1)). by rewrite Hw1. }
  exists h, (mkObj (o_key o) true). split_ands; [done|done|done|].
  apply (init_trial_reuse_run _ _ _ _ _ _ _ Hget Hact1 Hl). simpl. by rewrite String.eqb_refl.
Qed.
End CallClaims.

(** ** A failure leaks an open experiment *)

(** C27: a failing call leaves a trial's experiment open, with nothing
    that refers to it.  Take any callback and a trial with no entry in
    its dict, on a working service whose active experiment, if any, is
    ended (as [__call__] leaves it).  Let the service fail the call that
    follows [comet_ml.Experiment()] (line 178, the [add_tag]).  Then
    [__call__] raises [ServiceError] after exactly the creation call.
    The new [Experiment] object is open, [comet_ml.active_experiment] is
    unchanged (line 183 was not reached), and [self] is unchanged (line
    181 was not reached), so the object is neither active nor recorded:
    [at_most_one_open] is broken. *)
Theorem call_failure_leaks_open_experiment {Sd} `{!StudyHandle Sd}
        (cb : CometCallback Sd) (study : Sd) t w :
  py_dict_get (_trial_experiments cb) (trial_key t) = inr PyNone -> w_fail w = None ->
  (forall a, w_active w = Some a -> exists o, w_objs w !! a = Some o /\ o_ended o = true) ->
  CometCallback_call study t (cb, set_fail (Some (S (length (w_trace w)))) w) =
  (inl ServiceError,
   (cb, mkWorld (w_trace w ++ [NewExperiment (_workspace cb) (_project_name cb) (key_of (w_next_key w))])
                (S (w_next_key w)) (w_objs w ++ [mkObj (key_of (w_next_key w)) false])
                (w_active w) (w_default_ws w) None)) /\
  ~ at_most_one_open (mkWorld (w_trace w ++ [NewExperiment (_workspace cb) (_project_name cb)
                                                          (key_of (w_next_key w))])
                              (S (w_next_key w)) (w_objs w ++ [mkObj (key_of (w_next_key w)) false])
                              (w_active w) (w_default_ws w) None).
Proof.
  intros Hget Hr Hact. split.
  - unfold CometCallback_call, _init_optuna_trial_experiment. ccrun. rewrite Hget. simpl.
    destruct (w_active w) as [a|] eqn:Ha.
    + destruct (Hact a eq_refl) as (o & Ho & He). ccrun. rewrite Ho. ccrun. rewrite Ho. simpl.
      rewrite He. simpl.
      unfold load_or_create_trial_experiment. simpl. ccrun. frun. by rewrite ?Ha.
    + unfold load_or_create_trial_experiment. simpl. ccrun. frun. by rewrite ?Ha.
  - intros Hone. specialize (Hone (length (w_objs w)) _ (lookup_snoc_length _ _) eq_refl).
    simpl in Hone. destruct (Hact _ Hone) as (o & Ho & _).
    apply lookup_lt_Some in Ho. lia.
Qed.

(** ** Witnesses *)

Lemma CometCallback_call_single_objective_witness :
  exists cb' w' k pre,
    runs (CometCallback_call ex_study ex_trial) (ex_cb, ex_world_init) tt (cb', w') /\
    w_trace w' = pre ++ trial_annotation_calls ex_trial k ++
      [LogOptimization k (mkOpt (study_name ex_study)
                            (match _metric_names ex_cb with n :: _ => n | [] => "objective_value" end)
                            (Some (42 # 100)) (params ex_trial) MINIMIZE);
       LogOther (study_experiment ex_cb) "best_trials" (PyStr (best_trials_json ex_study));
       EndExperiment k].
Proof.
  apply CometCallback_call_single_objective;
    [apply wf_worldb_sound; vm_compute; reflexivity|apply wf_cbb_sound; vm_compute; reflexivity
    |reflexivity|reflexivity].
Defined.

Lemma CometCallback_call_multi_objective_witness :
  exists cb' w' k pre,
    runs (CometCallback_call ex_study2 ex_trial_multi) (ex_cb_named, ex_world_init) tt (cb', w') /\
    w_trace w' = pre ++ trial_annotation_calls ex_trial_multi k ++
      imap (fun i v => LogMetric k (match _metric_names ex_cb_named !! i with
                                    | Some s => s
                                    | None => py_str_nat i
                                    end) v) [1 # 10; 9 # 10] ++
      [LogOther (study_experiment ex_cb_named) "best_trials" (PyStr (best_trials_json ex_study2));
       EndExperiment k].
Proof.
  apply CometCallback_call_multi_objective;
    [apply wf_worldb_sound; vm_compute; reflexivity|apply wf_cbb_sound; vm_compute; reflexivity
    |reflexivity|simpl; lia].
Defined.

Lemma CometCallback_call_best_trials_witness :
  exists cb' w',
    runs (CometCallback_call ex_study ex_trial) (ex_cb_active, ex_world_active) tt (cb', w') /\
    other_of (w_trace w') (study_experiment ex_cb_active) "best_trials"
      = Some (PyStr (best_trials_json ex_study)) /\
    json_loads_ints (best_trials_json ex_study) = Some (best_trial_numbers ex_study).
Proof.
  do 2 eexists. split; [vm_compute; reflexivity|].
  eapply (CometCallback_call_best_trials ex_cb_active ex_study ex_trial ex_world_active).
  vm_compute. reflexivity.
Defined.

Lemma CometCallback_call_closes_experiment_witness :
  exists cb' w', runs (CometCallback_call ex_study ex_trial) (ex_cb_active, ex_world_two) tt (cb', w') /\
    wf_world w' /\ wf_cb cb' w' /\ all_ended w'.
Proof.
  apply CometCallback_call_closes_experiment;
    [apply wf_worldb_sound; vm_compute; reflexivity|apply wf_cbb_sound; vm_compute; reflexivity|].
  right. split; eexists; reflexivity.
Defined.

Lemma CometCallback_call_failed_trial_multi_objective_witness :
  exists msg cb' w' h o pre,
    raises (CometCallback_call ex_study2 ex_trial_failed) (ex_cb, ex_world_init) (RuntimeError msg) (cb', w') /\
    w_active w' = Some h /\ w_objs w' !! h = Some o /\ o_ended o = false /\
    w_trace w' = pre ++ trial_annotation_calls ex_trial_failed (o_key o) /\
    py_dict_get (_trial_experiments cb') (trial_key ex_trial_failed) = inr (PyStr (o_key o)).
Proof.
  apply (CometCallback_call_failed_trial_multi_objective _ _ _ _ []);
    [apply wf_worldb_sound; vm_compute; reflexivity|reflexivity|reflexivity|reflexivity|simpl; lia].
Defined.

Lemma CometCallback_call_again_reuses_ended_witness :
  exists cb1 w1,
    runs (CometCallback_call ex_study ex_trial) (ex_cb, ex_world_init) tt (cb1, w1) /\
    exists h o, w_active w1 = Some h /\ w_objs w1 !! h = Some o /\ o_ended o = true /\
      _init_optuna_trial_experiment ex_study ex_trial (cb1, w1) = (inr h, (cb1, w1)).
Proof.
  do 2 eexists. split; [vm_compute; reflexivity|].
  eapply (CometCallback_call_again_reuses_ended ex_cb ex_study ex_trial ex_world_init).
  vm_compute. reflexivity.
Defined.

Lemma call_failure_leaks_open_experiment_witness :
  py_dict_get (_trial_experiments ex_cb) (trial_key ex_trial) = inr PyNone /\
  w_fail ex_world_init = None /\
  (forall a, w_active ex_world_init = Some a ->
             exists o, w_objs ex_world_init !! a = Some o /\ o_ended o = true) /\
  CometCallback_call ex_study ex_trial (ex_cb, set_fail (Some (S (length (w_trace ex_world_init)))) ex_world_init) =
  (inl ServiceError,
   (ex_cb, mkWorld (w_trace ex_world_init ++ [NewExperiment (_workspace ex_cb) (_project_name ex_cb)
                                                          (key_of (w_next_key ex_world_init))])
                   (S (w_next_key ex_world_init))
                   (w_objs ex_world_init ++ [mkObj (key_of (w_next_key ex_world_init)) false])
                   (w_active ex_world_init) (w_default_ws ex_world_init) None)) /\
  ~ at_most_one_open (mkWorld (w_trace ex_world_init ++ [NewExperiment (_workspace ex_cb) (_project_name ex_cb)
                                                                     (key_of (w_next_key ex_world_init))])
                              (S (w_next_key ex_world_init))
                              (w_objs ex_world_init ++ [mkObj (key_of (w_next_key ex_world_init)) false])
                              (w_active ex_world_init) (w_default_ws ex_world_init) None).
Proof.
  assert (H1 : py_dict_get (_trial_experiments ex_cb) (trial_key ex_trial) = inr PyNone) by reflexivity.
  assert (H2 : w_fail ex_world_init = None) by reflexivity.
  assert (H3 : forall a, w_active ex_world_init = Some a ->
                         exists o, w_objs ex_world_init !! a = Some o /\ o_ended o = true)
    by (intros a Ha; simpl in Ha; discriminate).
  exact (conj H1 (conj H2 (conj H3
    (call_failure_leaks_open_experiment ex_cb ex_study ex_trial ex_world_init H1 H2 H3)))).
Defined.

