(* ===== verification/Decorator.v ===== *)
(** * The objective decorator: [track_in_comet]

    The wrapper the decorator builds resolves the trial's experiment on
    [self._study] and hands it to the objective, which is any client
    computation ([trial.experiment] is its argument).  The claims: the
    objective sees the trial's active record; the decorator and
    [__call__] of one instance share it; a second instance does not. *)

From Stdlib Require Import List ZArith QArith String.
From stdpp Require Import base list strings.
From S2P Require Import Prelude PyData Optuna CometClient CometCallback Fixtures StudyExperiment TrialExperiment TrialLogging.
Import ListNotations.
Local Open Scope string_scope.
Local Open Scope list_scope.

(** ** Definitions *)

Section DecoratorDefs.
Context {Sd : Type} `{!StudyHandle Sd}.

(** [track_in_comet()(func)]: the wrapper, applied to a trial.  [func]
    receives the handle that the wrapper stores in [trial.experiment];
    its result is returned unchanged. *)
Definition track_in_comet {R : Type} (func : nat -> FrozenTrial -> CM R) (trial : FrozenTrial)
  : CCM Sd R :=
  cb <- get_self ;;
  h <- _init_optuna_trial_experiment (_study cb) trial ;;
  liftW (func h trial).

End DecoratorDefs.

(** An objective function that only logs to the experiment it is given:
    when its handle names an object, it returns and appends calls that
    create no record, and it leaves the objects and the active pointer
    alone.  The objective of the class docstring,
    [trial.experiment.log_other("foo", "bar")], is one. *)
Definition logs_only {R} (func : nat -> FrozenTrial -> CM R) : Prop :=
  forall h t w o, w_fail w = None -> w_objs w !! h = Some o ->
    exists r l, func h t w = (inr r, set_trace (w_trace w ++ l) w) /\
                Forall (fun c => created_key c = None) l.

(** ** Lemmas *)

Section Decorator.
Context {Sd : Type} `{!StudyHandle Sd}.

Lemma track_run {R} (func : nat -> FrozenTrial -> CM R) (cb : CometCallback Sd) t w :
  track_in_comet func t (cb, w) =
  match _init_optuna_trial_experiment (_study cb) t (cb, w) with
  | (inl e, s) => (inl e, s)
  | (inr h, (cb1, w1)) => (fst (func h t w1), (cb1, snd (func h t w1)))
  end.
Proof.
  unfold track_in_comet. ccrun.
  destruct (_init_optuna_trial_experiment _ _ _) as [[e|h] [cb1 w1]]; [done|]. cbn.
  by destruct (func h t w1).
Qed.

Lemma init_trial_study (cb : CometCallback Sd) study t w cb' h w1 :
  runs (_init_optuna_trial_experiment study t) (cb, w) h (cb', w1) -> _study cb' = _study cb.
Proof. intros (Hcb & _)%init_trial_post. by destruct Hcb as [->|[d ->]]. Qed.

Lemma logs_only_log_other name v : logs_only (fun h (_ : FrozenTrial) => exp_log_other h name v).
Proof.
  intros h t w o Hr Ho. unfold exp_log_other. crun. rewrite Ho. crun.
  do 2 eexists. split; [reflexivity|]. by repeat constructor.
Qed.

Lemma count_new_experiment_none l :
  Forall (fun c => created_key c = None) l -> count_calls is_new_experiment l = 0.
Proof.
  intros Hl. apply count_calls_none. intros c Hc.
  rewrite List.Forall_forall in Hl. specialize (Hl c Hc). by destruct c.
Qed.

Lemma count_new_experiment_close close :
  (close = [] \/ exists ka, close = [EndExperiment ka]) ->
  count_calls is_new_experiment close = 0.
Proof. by intros [->|[ka ->]]. Qed.

(** The calls of [__call__] after a resolution that returned [h]
    create no record, whether it returns or raises: a count of calls
    that only counts creations does not change. *)
Lemma call_count (f : call -> bool) (cb : CometCallback Sd) study t w cb' h w1 o :
  (forall c, created_key c = None -> f c = false) -> w_fail w = None ->
  runs (_init_optuna_trial_experiment study t) (cb, w) h (cb', w1) ->
  w_objs w1 !! h = Some o ->
  count_calls f (w_trace (snd (snd (CometCallback_call study t (cb, w)))))
    = count_calls f (w_trace w1).
Proof.
  intros Hf Hr Hinit Ho. rewrite (call_run cb study t w cb' h w1 o Hr Hinit Ho).
  assert (Ha : count_calls f (trial_annotation_calls t (o_key o)) = 0)
    by (apply count_calls_none; intros c Hc; by apply Hf, (annotation_no_creation t (o_key o))).
  destruct (objective_calls _ _ _ _) as [e|d] eqn:Ed;
    cbn [snd w_trace set_trace end_world]; rewrite !count_calls_app, Ha; [lia|].
  rewrite (count_calls_none f d), !count_calls_cons, count_calls_nil, !Hf by
    (done || intros c Hc; by apply Hf, (objective_calls_no_creation _ _ _ _ _ Ed)).
  lia.
Qed.

Lemma call_count_new (cb : CometCallback Sd) study t w cb' h w1 o :
  w_fail w = None ->
  runs (_init_optuna_trial_experiment study t) (cb, w) h (cb', w1) ->
  w_objs w1 !! h = Some o ->
  fst (snd (CometCallback_call study t (cb, w))) = cb' /\
  count_calls is_new_experiment (w_trace (snd (snd (CometCallback_call study t (cb, w)))))
    = count_calls is_new_experiment (w_trace w1).
Proof.
  intros Hr Hinit Ho.
  split; [|apply (call_count _ cb study t w cb' h w1 o); [by intros []|done|done|done]].
  rewrite (call_run cb study t w cb' h w1 o Hr Hinit Ho). by destruct (objective_calls _ _ _ _).
Qed.

(** *** Claims *)

(** C18: the wrapper of [track_in_comet] resolves the trial's
    experiment against the callback's own study, as
    [_init_optuna_trial_experiment(self._study, trial)] does.  It
    passes the handle of the resulting active object to [func] and
    returns [func]'s result and world unchanged.  That object is the
    one the callback's dict now maps the trial to. *)
Theorem track_in_comet_passes_experiment {R} (func : nat -> FrozenTrial -> CM R)
        (cb : CometCallback Sd) t w :
  wf_world w -> wf_cb cb w ->
  exists cb1 h w1 o,
    _init_optuna_trial_experiment (_study cb) t (cb, w) = (inr h, (cb1, w1)) /\
    w_active w1 = Some h /\ w_objs w1 !! h = Some o /\
    py_dict_get (_trial_experiments cb1) (trial_key t) = inr (PyStr (o_key o)) /\
    _study cb1 = _study cb /\
    track_in_comet func t (cb, w) = (fst (func h t w1), (cb1, snd (func h t w1))).
Proof.
  intros Hwf Hcb.
  destruct (init_trial_wf cb (_study cb) t w Hwf Hcb) as (cb1 & h & w1 & Hinit & _).
  destruct (init_trial_post cb _ t w cb1 h w1 Hinit) as (_ & o & Ho & Hact & Hget).
  exists cb1, h, w1, o. split_ands; try done; [by eapply init_trial_study|].
  by rewrite track_run, Hinit.
Qed.

(** C17: the decorator and the callback of one instance share the
    trial's record.  On a trial the dict does not hold, with an
    objective that only logs, the wrapper creates one record.  The
    [__call__] that follows on the same trial resolves to the same
    object, with no call, and creates no other record, whether it
    returns or raises. *)
Theorem track_then_call_one_trial_record {R} (func : nat -> FrozenTrial -> CM R)
        (cb : CometCallback Sd) t w es :
  wf_world w -> _trial_experiments cb = PyDict es -> dict_find es (trial_key t) = None ->
  logs_only func ->
  exists r cb1 w1 h,
    runs (track_in_comet func t) (cb, w) r (cb1, w1) /\
    count_calls is_new_experiment (w_trace w1) = S (count_calls is_new_experiment (w_trace w)) /\
    forall study,
      _init_optuna_trial_experiment study t (cb1, w1) = (inr h, (cb1, w1)) /\
      fst (snd (CometCallback_call study t (cb1, w1))) = cb1 /\
      count_calls is_new_experiment (w_trace (snd (snd (CometCallback_call study t (cb1, w1)))))
        = S (count_calls is_new_experiment (w_trace w)).
Proof.
  intros Hwf Hes Hf Hfunc.
  destruct (init_trial_run_first cb (_study cb) t w es Hwf Hes Hf)
    as (w_mid & Hinit & (close & Hclose & Htr) & _ & Hwfm & _).
  set (w1 := mkWorld _ _ _ _ _ _) in Hinit.
  assert (Ho : w_objs w1 !! length (w_objs w_mid) = Some (mkObj (key_of (w_next_key w)) false))
    by apply lookup_snoc_length.
  destruct (Hfunc _ t w1 _ (wf_reliable _ Hwfm : w_fail w1 = None) Ho) as (r & l & Hrun & Hl).
  assert (Hreuse : forall study,
    _init_optuna_trial_experiment study t
      (set_trial_experiments (PyDict (dict_assign es (trial_key t)
                                        (PyStr (key_of (w_next_key w))))) cb,
       set_trace (w_trace w1 ++ l) w1)
    = (inr (length (w_objs w_mid)),
       (set_trial_experiments (PyDict (dict_assign es (trial_key t)
                                        (PyStr (key_of (w_next_key w))))) cb,
        set_trace (w_trace w1 ++ l) w1))).
  { intros study. rewrite init_trial_run by reliable_side. simpl. rewrite dict_find_assign_eq. simpl.
    rewrite lookup_snoc_length. simpl. by rewrite String.eqb_refl. }
  assert (Hcount : count_calls is_new_experiment (w_trace w1 ++ l)
                   = S (count_calls is_new_experiment (w_trace w))).
  { simpl. rewrite Htr, !count_calls_app, (count_new_experiment_close close), (count_new_experiment_none l)
      by done. unfold count_calls; simpl; lia. }
  do 4 eexists. split; [unfold runs; rewrite track_run, Hinit, Hrun; reflexivity|].
  split; [exact Hcount|]. intros study. split; [apply Hreuse|].
  destruct (call_count_new _ study t _ _ _ _ (mkObj (key_of (w_next_key w)) false)
              (wf_reliable _ Hwfm : w_fail (set_trace (w_trace w1 ++ l) w1) = None) (Hreuse study))
    as [Hcb' Hc']; [simpl; apply lookup_snoc_length|].
  split; [exact Hcb'|]. etransitivity; [exact Hc'|exact Hcount].
Qed.
End Decorator.

(** ** A scenario: a second instance duplicates a trial's record *)

(** ** Witnesses *)

Lemma track_in_comet_passes_experiment_witness :
  exists cb1 h w1 o,
    _init_optuna_trial_experiment (_study ex_cb_active) ex_trial (ex_cb_active, ex_world_active)
      = (inr h, (cb1, w1)) /\
    w_active w1 = Some h /\ w_objs w1 !! h = Some o /\
    py_dict_get (_trial_experiments cb1) (trial_key ex_trial) = inr (PyStr (o_key o)) /\
    _study cb1 = _study ex_cb_active /\
    track_in_comet ex_objective ex_trial (ex_cb_active, ex_world_active)
      = (fst (ex_objective h ex_trial w1), (cb1, snd (ex_objective h ex_trial w1))).
Proof.
  apply track_in_comet_passes_experiment;
    [apply wf_worldb_sound; vm_compute; reflexivity|apply wf_cbb_sound; vm_compute; reflexivity].
Defined.

Lemma track_then_call_one_trial_record_witness :
  exists r cb1 w1 h,
    runs (track_in_comet ex_objective ex_trial) (ex_cb, ex_world_init) r (cb1, w1) /\
    count_calls is_new_experiment (w_trace w1)
      = S (count_calls is_new_experiment (w_trace ex_world_init)) /\
    forall study : study_rec,
      _init_optuna_trial_experiment study ex_trial (cb1, w1) = (inr h, (cb1, w1)) /\
      fst (snd (CometCallback_call study ex_trial (cb1, w1))) = cb1 /\
      count_calls is_new_experiment (w_trace (snd (snd (CometCallback_call study ex_trial (cb1, w1)))))
        = S (count_calls is_new_experiment (w_trace ex_world_init)).
Proof.
  apply (track_then_call_one_trial_record _ _ _ _ []);
    [apply wf_worldb_sound; vm_compute; reflexivity|reflexivity|reflexivity|apply logs_only_log_other].
Defined.
