(* ===== verification/Process.v ===== *)
(** * A process: the callback over a sequence of trials

    [proc_step] is one method of the callback on the object and the
    world, and [proc_reach] the states a process reaches from
    [__init__].  By induction on the steps, the invariants [wf_world]
    and [wf_cb] hold in every reachable state.  A run of one instance
    makes one trial record per trial. *)

From Stdlib Require Import List ZArith QArith String.
From stdpp Require Import base list strings relations.
From S2P Require Import Prelude PyData Optuna CometClient CometCallback Fixtures StudyExperiment TrialExperiment TrialLogging Decorator.
Import ListNotations.
Local Open Scope string_scope.
Local Open Scope list_scope.

(** ** Definitions *)

(** ** The process

    One Python process that builds a callback and then, trial after
    trial, runs the decorated objective and [__call__].  A step is one
    of these methods on the object and the world, whether it returns or
    raises: Optuna reports a raise from a callback, and a later trial
    runs on the state the raise left. *)
Inductive proc_step {Sd} `{!StudyHandle Sd} : CometCallback Sd * world -> CometCallback Sd * world -> Prop :=
| step_call study t s r s' :
    CometCallback_call study t s = (r, s') -> proc_step s s'
| step_track (R : Type) (func : nat -> FrozenTrial -> CM R) t s r s' :
    logs_only func -> track_in_comet func t s = (r, s') -> proc_step s s'.

(** The states of a process that built its callback with [__init__] on a
    study whose "trial_experiments" attribute is unset (the code never
    sets it), from a well-formed world. *)
Inductive proc_reach {Sd} `{!StudyHandle Sd} : CometCallback Sd * world -> Prop :=
| reach_init (study : Sd) ws proj names w0 cb st w :
    wf_world w0 -> user_attr study "trial_experiments" = None ->
    runs (CometCallback_init study ws proj names) w0 (cb, st) w -> proc_reach (cb, w)
| reach_step s s' : proc_reach s -> proc_step s s' -> proc_reach s'.

(** ** Lemmas *)

Section Process.
Context {Sd : Type} `{!StudyHandle Sd} `{!StudyLaws Sd}.

Lemma init_study_wf ws proj (study : Sd) w se st w' :
  wf_world w -> runs (_init_optuna_study_experiment ws proj study) w (se, st) w' ->
  wf_world w' /\ known (w_trace w') se = true.
Proof.
  intros Hwf. destruct (py_truthy (default PyNone (user_attr study "comet_study_experiment_key")))
    eqn:Hk.
  - unfold runs, _init_optuna_study_experiment. rewrite Hk. crun.
    destruct (default PyNone _) as [| | | |k| |]; try discriminate.
    destruct (known (w_trace w) k) eqn:Hkn; [|discriminate]. crun.
    intros [= <- _ <-]. split; [apply wf_push; [done|by intros c [<-|[]]]|].
    simpl. by apply known_app_l.
  - unfold runs. rewrite init_study_run_create by reliable_side. intros [= <- _ <-].
    split; [by apply wf_study_creation|apply known_study_creation].
Qed.

Lemma init_wf (study : Sd) ws proj names w cb st w' :
  wf_world w -> user_attr study "trial_experiments" = None ->
  runs (CometCallback_init study ws proj names) w (cb, st) w' -> wf_world w' /\ wf_cb cb w'.
Proof.
  intros Hwf Hte. unfold runs. rewrite init_run by reliable_side.
  pose proof (init_study_cases (default (w_default_ws w) ws) proj study (after_workspace ws w)) as Hc.
  destruct (_init_optuna_study_experiment _ _ _ _) as [[e|[se st1]] w1] eqn:E; [done|].
  destruct Hc as [_ Hattr]. intros [= <- <- <-].
  destruct (init_study_wf _ _ _ _ _ _ _ (wf_after_workspace ws w Hwf) E) as [Hwf1 Hse].
  split; [apply wf_push; [done|apply direction_calls_no_creation]|].
  split; [by apply known_app_l|]. exists []. simpl.
  unfold load_trial_experiments. rewrite Hattr, Hte. simpl. split; [done|by intros ? ? []].
Qed.

Lemma call_wf study t (cb : CometCallback Sd) w r cb' w' :
  wf_world w -> wf_cb cb w -> CometCallback_call study t (cb, w) = (r, (cb', w')) ->
  wf_world w' /\ wf_cb cb' w'.
Proof.
  intros Hwf Hcb.
  destruct (init_trial_wf cb study t w Hwf Hcb)
    as (cb1 & h & w1 & Hinit & Hwf1 & Hcb1 & _ & [o Ho] & _).
  rewrite (call_run cb study t w cb1 h w1 o (wf_reliable _ Hwf) Hinit Ho).
  destruct (objective_calls _ _ _ _) as [e|d] eqn:Ed; intros [= <- <- <-].
  - split; [apply wf_push; [done|apply annotation_no_creation]|].
    eapply wf_cb_extend; [done|]. intros k. apply known_app_l.
  - split; [apply wf_end; [by eapply wf_call_logged|done]|].
    eapply wf_cb_extend; [done|]. intros k Hk. simpl. by do 2 apply known_app_l.
Qed.

Lemma track_wf {R} (func : nat -> FrozenTrial -> CM R) t (cb : CometCallback Sd) w r cb' w' :
  wf_world w -> wf_cb cb w -> logs_only func ->
  track_in_comet func t (cb, w) = (r, (cb', w')) -> wf_world w' /\ wf_cb cb' w'.
Proof.
  intros Hwf Hcb Hfunc.
  destruct (init_trial_wf cb (_study cb) t w Hwf Hcb)
    as (cb1 & h & w1 & Hinit & Hwf1 & Hcb1 & _ & [o Ho] & _).
  rewrite track_run, Hinit. destruct (Hfunc h t w1 o (wf_reliable _ Hwf1) Ho) as (r1 & l & -> & Hl).
  intros [= <- <- <-]. rewrite List.Forall_forall in Hl.
  split; [by apply wf_push|]. eapply wf_cb_extend; [done|]. intros k. apply known_app_l.
Qed.

(** One step keeps both invariants. *)
Lemma step_wf (s s' : CometCallback Sd * world) :
  wf_world (snd s) -> wf_cb (fst s) (snd s) -> proc_step s s' ->
  wf_world (snd s') /\ wf_cb (fst s') (snd s').
Proof.
  intros Hwf Hcb Hstep.
  destruct Hstep as [study t [cb w] r [cb' w'] E|R func t [cb w] r [cb' w'] Hfunc E];
    [by eapply call_wf|by eapply track_wf].
Qed.

(** Every reachable state satisfies both invariants. *)
Lemma reach_wf (s : CometCallback Sd * world) :
  proc_reach s -> wf_world (snd s) /\ wf_cb (fst s) (snd s).
Proof.
  induction 1 as [study ws proj names w0 cb st w Hwf0 Hte Hrun|s s' _ [Hwf Hcb] Hstep].
  - simpl. by eapply init_wf.
  - by apply (step_wf s s').
Qed.

Lemma init_study_count ws proj (study : Sd) w se st w' :
  w_fail w = None ->
  runs (_init_optuna_study_experiment ws proj study) w (se, st) w' ->
  count_calls is_new_experiment (w_trace w') = count_calls is_new_experiment (w_trace w).
Proof.
  intros Hr.
  destruct (py_truthy (default PyNone (user_attr study "comet_study_experiment_key"))) eqn:Hk.
  - unfold runs, _init_optuna_study_experiment. rewrite Hk. crun.
    destruct (default PyNone _) as [| | | |k| |]; try discriminate.
    destruct (known (w_trace w) k); [|discriminate]. crun.
    intros [= <- _ <-]. simpl. rewrite count_calls_app. unfold count_calls at 2. simpl. lia.
  - unfold runs. rewrite init_study_run_create by done. intros [= <- _ <-].
    simpl. rewrite count_calls_app. unfold count_calls at 2. simpl. lia.
Qed.

(** [__init__] creates no trial record and starts from an empty dict
    when the study has no "trial_experiments" attribute. *)
Lemma init_count (study : Sd) ws proj names w cb st w' :
  user_attr study "trial_experiments" = None -> w_fail w = None ->
  runs (CometCallback_init study ws proj names) w (cb, st) w' ->
  _trial_experiments cb = PyDict [] /\
  count_calls is_new_experiment (w_trace w') = count_calls is_new_experiment (w_trace w).
Proof.
  intros Hte Hr Hrun. destruct (init_trial_attr _ _ _ _ _ _ _ _ Hrun) as [Ha Hcb].
  split; [by rewrite Hcb; unfold load_trial_experiments; rewrite Ha, Hte|].
  revert Hrun. unfold runs. rewrite init_run by done.
  destruct (_init_optuna_study_experiment _ _ _ _) as [[e|[se st1]] w1] eqn:E; [done|].
  intros [= <- <- <-]. simpl. rewrite count_calls_app, count_direction_calls by done.
  rewrite (init_study_count _ _ _ _ _ _ _ ltac:(by rewrite after_workspace_fail) E).
  destruct ws; simpl; [lia|].
  simpl. rewrite count_calls_app. unfold count_calls at 2. simpl. lia.
Qed.

(** One step: the records it creates are the entries it adds to the
    dict. *)
Lemma step_count (s s' : CometCallback Sd * world) es :
  wf_world (snd s) -> wf_cb (fst s) (snd s) -> _trial_experiments (fst s) = PyDict es ->
  int_keyed es -> proc_step s s' ->
  exists es', _trial_experiments (fst s') = PyDict es' /\ int_keyed es' /\
    count_calls is_new_experiment (w_trace (snd s')) + dict_truthy_count es
    = count_calls is_new_experiment (w_trace (snd s)) + dict_truthy_count es'.
Proof.
  intros Hwf Hcb Hes Hik Hstep.
  destruct Hstep as [study t [cb w] r [cb' w'] E|R func t [cb w] r [cb' w'] Hfunc E]; simpl in *;
    pose proof (wf_reliable _ Hwf) as Hr.
  - destruct (init_trial_wf cb study t w Hwf Hcb) as (cb1 & h & w1 & Hinit & _ & _ & _ & [o Ho] & _).
    destruct (call_count_new cb study t w cb1 h w1 o Hr Hinit Ho) as [Hc1 Hc2].
    rewrite E in Hc1, Hc2. simpl in Hc1, Hc2. subst cb1. rewrite Hc2.
    by apply (init_trial_count cb study t w cb' h w1 es).
  - destruct (init_trial_wf cb (_study cb) t w Hwf Hcb) as (cb1 & h & w1 & Hinit & Hwf1 & _ & _ & [o Ho] & _).
    revert E. rewrite track_run, Hinit.
    destruct (Hfunc h t w1 o (wf_reliable _ Hwf1) Ho) as (r1 & l & -> & Hl).
    intros [= <- <- <-]. simpl. rewrite count_calls_app, (count_new_experiment_none l Hl).
    rewrite Nat.add_0_r. by apply (init_trial_count cb (_study cb) t w cb1 h w1 es).
Qed.

(** C1: the invariants hold in every state of the process.  Every
    state reachable from [__init__] by [__call__] steps (returning or
    raising) and decorated objectives that only log satisfies
    [wf_world]: at most one experiment object is open, and it is the
    active one.  It also satisfies [wf_cb]: the study record exists,
    and the dict names existing records.  From each such state, the
    resolution of any trial returns. *)
Theorem reachable_states_well_formed (s : CometCallback Sd * world) :
  proc_reach s ->
  wf_world (snd s) /\ wf_cb (fst s) (snd s) /\
  forall study t, exists h s', runs (_init_optuna_trial_experiment study t) s h s'.
Proof.
  intros Hr. destruct s as [cb w], (reach_wf _ Hr) as [Hwf Hcb]. split_ands; [done|done|].
  intros study t. destruct (init_trial_wf cb study t w Hwf Hcb) as (cb' & h & w' & Hinit & _).
  eauto.
Qed.

(** C2: one callback instance makes one trial record per trial.  Take
    a process that built its callback with [__init__] on a study
    without a "trial_experiments" attribute.  In every state it reaches
    by [__call__] steps (returning or raising) and decorated objectives
    that only log, the dict's keys are distinct trial numbers.  The
    trial records created since [__init__] are exactly as many as the
    dict's entries that hold a key: each creation stores its key under
    a trial the dict did not map, and nothing else creates a record. *)
Theorem one_trial_record_per_dict_entry (study : Sd) ws proj names w0 cb0 st w1 s :
  wf_world w0 -> user_attr study "trial_experiments" = None ->
  runs (CometCallback_init study ws proj names) w0 (cb0, st) w1 ->
  rtc proc_step (cb0, w1) s ->
  exists es, _trial_experiments (fst s) = PyDict es /\ int_keyed es /\
    count_calls is_new_experiment (w_trace (snd s))
    = count_calls is_new_experiment (w_trace w0) + dict_truthy_count es.
Proof.
  intros Hwf0 Hte Hinit Hsteps.
  destruct (init_wf _ _ _ _ _ _ _ _ Hwf0 Hte Hinit) as [Hwf1 Hcb1].
  destruct (init_count _ _ _ _ _ _ _ _ Hte (wf_reliable _ Hwf0) Hinit) as [Hd Hc].
  assert (Hinv : forall x y, rtc proc_step x y ->
    wf_world (snd x) /\ wf_cb (fst x) (snd x) ->
    forall es, _trial_experiments (fst x) = PyDict es -> int_keyed es ->
    exists es', _trial_experiments (fst y) = PyDict es' /\ int_keyed es' /\
      count_calls is_new_experiment (w_trace (snd y)) + dict_truthy_count es
      = count_calls is_new_experiment (w_trace (snd x)) + dict_truthy_count es').
  { intros x y Hxy. induction Hxy as [x|x y z Hstep _ IH]; intros [Hwf Hcb] es Hes Hik.
    - exists es. split_ands; [done|done|lia].
    - destruct (step_count x y es Hwf Hcb Hes Hik Hstep) as (es1 & Hes1 & Hik1 & Hc1).
      destruct (step_wf x y Hwf Hcb Hstep) as [Hwfy Hcby].
      destruct (IH (conj Hwfy Hcby) es1 Hes1 Hik1) as (es2 & Hes2 & Hik2 & Hc2).
      exists es2. split_ands; [done|done|simpl in *; lia]. }
  destruct (Hinv _ _ Hsteps (conj Hwf1 Hcb1) [] Hd) as (es & Hes & Hik & Hcount);
    [split; [constructor|constructor]|].
  exists es. split_ands; [done|done|]. simpl in Hcount. unfold dict_truthy_count in Hcount at 1.
  simpl in Hcount. lia.
Qed.
End Process.

(** ** Witnesses *)

Lemma reachable_states_well_formed_witness :
  exists s : CometCallback study_rec * world,
    proc_reach s /\
    wf_world (snd s) /\ wf_cb (fst s) (snd s) /\
    forall study t, exists h s', runs (_init_optuna_trial_experiment study t) s h s'.
Proof.
  assert (Hr : exists s : CometCallback study_rec * world, proc_reach s).
  { eexists. eapply reach_step; [eapply reach_step|].
    - eapply (reach_init ex_study (Some "ws") (Some "general") None ex_world);
        [apply wf_worldb_sound; vm_compute; reflexivity|reflexivity|vm_compute; reflexivity].
    - eapply (step_call ex_study ex_trial). vm_compute. reflexivity.
    - eapply (step_track _ ex_objective ex_trial_multi); [apply logs_only_log_other|].
      vm_compute. reflexivity. }
  destruct Hr as [s Hr]. exists s. split; [exact Hr|]. apply reachable_states_well_formed, Hr.
Defined.

Lemma one_trial_record_per_dict_entry_witness :
  exists (cb0 : CometCallback study_rec) st w1 s,
    runs (CometCallback_init ex_study (Some "ws") (Some "general") None) ex_world (cb0, st) w1 /\
    rtc proc_step (cb0, w1) s /\
    exists es, _trial_experiments (fst s) = PyDict es /\ int_keyed es /\
      count_calls is_new_experiment (w_trace (snd s))
      = count_calls is_new_experiment (w_trace ex_world) + dict_truthy_count es.
Proof.
  do 4 eexists.
  lazymatch goal with
  | |- ?A /\ ?B /\ _ =>
      assert (H1 : A) by (vm_compute; reflexivity);
      assert (H2 : B)
        by (eapply rtc_l; [eapply (step_call ex_study ex_trial); vm_compute; reflexivity|];
            eapply rtc_l; [eapply (step_track _ ex_objective ex_trial_multi);
                           [apply logs_only_log_other|vm_compute; reflexivity]|];
            apply rtc_refl);
      exact (conj H1 (conj H2 (one_trial_record_per_dict_entry
                                 ex_study (Some "ws") (Some "general") None ex_world _ _ _ _
                                 (wf_worldb_sound ex_world eq_refl) eq_refl H1 H2)))
  end.
Defined.

