(* ===== verification/Registry.v ===== *)
(** * The trial registry: what [_trial_experiments] promises

    The spec (section 3) describes the dict of trial keys as a lookup
    table from trial numbers to experiment keys.  The first resolution
    of a trial stores a fresh record, and later ones return the stored
    record.  [RegistrySpec] states that contract on a [gmap nat string]:
    [resolve] returns the stored key or stores the fresh one, and [step]
    is one resolution with a key no trial holds yet.  [refines_registry]
    relates an abstract registry to the entries of the concrete dict.

    The refinement theorem: [_init_optuna_trial_experiment], from a
    well-formed state, returns the object of the record that
    [RegistrySpec.resolve] returns, with [key_of (w_next_key w)] as the
    fresh key.  The updated dict refines the updated registry, and a
    whole run of the process is simulated by registry steps.  The
    spec-level fact that a stored record never changes then transfers
    to the code. *)

From Stdlib Require Import List ZArith QArith String.
From stdpp Require Import base list gmap strings relations.
From S2P Require Import Prelude PyData Optuna CometClient CometCallback Fixtures StudyExperiment TrialExperiment TrialLogging Decorator Process.
Import ListNotations.
Local Open Scope string_scope.
Local Open Scope list_scope.

(** ** Definitions *)

Module RegistrySpec.

(** Resolve trial [n], with [fresh] the key of a record made for it when
    it has none. *)
Definition resolve (r : gmap nat string) (n : nat) (fresh : string) : string * gmap nat string :=
  match r !! n with
  | Some k => (k, r)
  | None => (fresh, <[n := fresh]> r)
  end.

(** No trial holds [k]. *)
Definition fresh_for (r : gmap nat string) (k : string) : Prop :=
  forall m, r !! m <> Some k.

(** One resolution, with a key no trial holds. *)
Inductive step : gmap nat string -> gmap nat string -> Prop :=
| step_resolve r n fresh : fresh_for r fresh -> step r (resolve r n fresh).2.

End RegistrySpec.

(** The record the dict holds for trial [n]: a non-empty str stored
    under the int [n] (the lookup [.get(trial.number)] of line 162,
    followed by the truth test of line 173). *)
Definition dict_key (es : list (pyval * pyval)) (n : nat) : option string :=
  match dict_find es (Z.of_nat n) with
  | Some (PyStr s) => if String.eqb s "" then None else Some s
  | _ => None
  end.

(** The entries the code writes: a non-negative int key (a trial
    number) and a non-empty str (an experiment key). *)
Definition dict_typed (es : list (pyval * pyval)) : Prop :=
  Forall (fun p => exists z s, p = (PyInt z, PyStr s) /\ (0 <= z)%Z /\ s <> "") es.

(** The dict [es] implements the registry [r]. *)
Definition refines_registry (r : gmap nat string) (es : list (pyval * pyval)) : Prop :=
  dict_typed es /\ forall n, r !! n = dict_key es n.

(** The attributes other than [_trial_experiments] are the same. *)
Definition same_fields {Sd} (cb cb' : CometCallback Sd) : Prop :=
  _project_name cb' = _project_name cb /\ _workspace cb' = _workspace cb /\ _study cb' = _study cb /\
  _metric_names cb' = _metric_names cb /\ study_experiment cb' = study_experiment cb.

(** ** Lemmas of the specification *)

Section Spec.

Lemma resolve_subseteq r n fresh : r ⊆ (RegistrySpec.resolve r n fresh).2.
Proof.
  unfold RegistrySpec.resolve. destruct (r !! n) eqn:Hn; [done|].
  by apply insert_subseteq.
Qed.

Lemma rtc_step_subseteq r r' : rtc RegistrySpec.step r r' -> r ⊆ r'.
Proof.
  induction 1 as [|r1 r2 r3 [r n fresh _] _ IH]; [done|].
  etransitivity; [apply resolve_subseteq|exact IH].
Qed.

End Spec.

(** ** The dict as a registry *)

Lemma dict_typed_assign es z s :
  dict_typed es -> (0 <= z)%Z -> s <> "" -> dict_typed (dict_assign es z (PyStr s)).
Proof.
  intros Hes Hz Hs. induction Hes as [|[k v] es (z' & s' & [= -> ->] & Hz' & Hs') Htl IH]; simpl.
  - constructor; [|constructor]. eexists _, _. by split_ands.
  - destruct (z' =? z)%Z; (constructor; [eexists _, _; by split_ands|done]).
Qed.

Lemma dict_key_assign es n m k :
  k <> "" ->
  dict_key (dict_assign es (Z.of_nat n) (PyStr k)) m = if decide (n = m) then Some k else dict_key es m.
Proof.
  intros Hk. unfold dict_key. destruct (decide (n = m)) as [<-|Hnm].
  - rewrite dict_find_assign_eq. apply String.eqb_neq in Hk. by rewrite Hk.
  - rewrite dict_find_assign_ne; [done|lia].
Qed.

Lemma refines_assign r es n k :
  refines_registry r es -> k <> "" ->
  refines_registry (<[n := k]> r) (dict_assign es (Z.of_nat n) (PyStr k)).
Proof.
  intros [Hty Hr] Hk. split; [apply dict_typed_assign; [done|lia|done]|].
  intros m. rewrite dict_key_assign, lookup_insert by done. by destruct (decide (n = m)).
Qed.

Lemma dict_typed_find es z v : dict_typed es -> dict_find es z = Some v -> exists s, v = PyStr s /\ s <> "".
Proof.
  intros Hty (k & Hin)%dict_find_In. unfold dict_typed in Hty. rewrite List.Forall_forall in Hty.
  destruct (Hty _ Hin) as (z' & s & [= -> ->] & _ & Hs). eauto.
Qed.

Lemma dict_key_None es n : dict_typed es -> dict_key es n = None -> dict_find es (Z.of_nat n) = None.
Proof.
  unfold dict_key. intros Hty. destruct (dict_find es (Z.of_nat n)) as [v|] eqn:Hf; [|done].
  destruct (dict_typed_find es _ v Hty Hf) as (s & -> & Hs). apply String.eqb_neq in Hs.
  by rewrite Hs.
Qed.

Lemma dict_key_Some es n k :
  dict_key es n = Some k -> dict_find es (Z.of_nat n) = Some (PyStr k) /\ k <> "".
Proof.
  unfold dict_key. destruct (dict_find es (Z.of_nat n)) as [[| | | |s| |]|]; try discriminate.
  destruct (String.eqb_spec s ""); [discriminate|]. by intros [= <-].
Qed.

Lemma refines_empty : refines_registry ∅ [].
Proof. split; [constructor|]. intros n. by rewrite lookup_empty. Qed.

Section Resolution.
Context {Sd : Type} `{!StudyHandle Sd}.

(** The key of a new record is held by no trial of a dict that names
    existing records only. *)
Lemma fresh_for_dict (cb : CometCallback Sd) w r es :
  wf_world w -> wf_cb cb w -> _trial_experiments cb = PyDict es -> refines_registry r es ->
  RegistrySpec.fresh_for r (key_of (w_next_key w)).
Proof.
  intros Hwf [_ (es0 & Hes0 & Hv)] Hes [Hty Hr] m Hm. rewrite Hes in Hes0. injection Hes0 as <-.
  rewrite Hr in Hm. destruct (dict_key_Some es m _ Hm) as [Hf Hne].
  destruct (dict_find_In _ _ _ Hf) as [k' Hin].
  destruct (Hv k' _ Hin) as (s & [= <-] & Hkn); [apply key_of_truthy|].
  by rewrite (wf_fresh_known w (w_next_key w) Hwf (le_n _)) in Hkn.
Qed.

(** A resolution whose stored value is truthy leaves [self] alone. *)
Lemma init_trial_truthy_self (cb : CometCallback Sd) study t w key cb' h w' :
  py_dict_get (_trial_experiments cb) (trial_key t) = inr key -> py_truthy key = true ->
  runs (_init_optuna_trial_experiment study t) (cb, w) h (cb', w') -> cb' = cb.
Proof.
  intros Hget Ht Hrun%init_trial_runs_reliable. revert Hrun. reliable_world w'. reliable_world w.
  unfold runs. rewrite init_trial_run, Hget by done.
  destruct (w_active w) as [a|]; [|intros Hrun; by destruct (load_or_create_truthy_inv _ _ _ _ _ _ _ _ Ht Hr0 Hrun) as (? & _ & -> & _)].
  destruct (w_objs w !! a) as [o|]; [|discriminate].
  destruct (py_eq_str key (o_key o)); [by intros [= _ <- _]|].
  destruct (o_ended o); intros Hrun.
  - by destruct (load_or_create_truthy_inv _ _ _ _ _ _ _ _ Ht Hr0 Hrun) as (? & _ & -> & _).
  - by destruct (load_or_create_truthy_inv _ _ _ _ _ _ _ _ Ht
                   (Hr0 : w_fail (end_world a o w) = None) Hrun) as (? & _ & -> & _).
Qed.

(** The resolution implements [RegistrySpec.resolve]. *)
Lemma init_trial_refines (cb : CometCallback Sd) study t w es r :
  wf_world w -> wf_cb cb w -> _trial_experiments cb = PyDict es -> refines_registry r es ->
  exists cb' h w' o es',
    runs (_init_optuna_trial_experiment study t) (cb, w) h (cb', w') /\
    w_active w' = Some h /\ w_objs w' !! h = Some o /\ _trial_experiments cb' = PyDict es' /\
    RegistrySpec.fresh_for r (key_of (w_next_key w)) /\
    o_key o = (RegistrySpec.resolve r (number t) (key_of (w_next_key w))).1 /\
    refines_registry (RegistrySpec.resolve r (number t) (key_of (w_next_key w))).2 es'.
Proof.
  intros Hwf Hcb Hes Href. pose proof (fresh_for_dict cb w r es Hwf Hcb Hes Href) as Hfresh.
  destruct Href as [Hty Hr]. unfold RegistrySpec.resolve. rewrite Hr.
  destruct (dict_key es (number t)) as [k|] eqn:Hk.
  - destruct (dict_key_Some es _ k Hk) as [Hf Hne].
    assert (Hget : py_dict_get (_trial_experiments cb) (trial_key t) = inr (PyStr k))
      by (rewrite Hes, py_dict_get_dict; unfold trial_key; by rewrite Hf).
    destruct (init_trial_wf cb study t w Hwf Hcb) as (cb' & h & w' & Hinit & _).
    pose proof (init_trial_truthy_self cb study t w _ cb' h w' Hget
                  ltac:(simpl; by apply String.eqb_neq in Hne; rewrite Hne) Hinit) as ->.
    destruct (init_trial_post cb study t w cb h w' Hinit) as (_ & o & Ho & Hact & Hget').
    rewrite Hget in Hget'. injection Hget' as Hko.
    exists cb, h, w', o, es. split_ands; done.
  - destruct (init_trial_run_first cb study t w es Hwf Hes (dict_key_None es _ Hty Hk))
      as (w_mid & Hinit & _).
    do 5 eexists. split; [exact Hinit|]. simpl. split_ands; [done|apply lookup_snoc_length|done|done|done|].
    apply (refines_assign r es (number t) (key_of (w_next_key w))); [by split|].
    unfold key_of. by rewrite str_app_cons.
Qed.

(** ** Claims *)

(** C4: the resolution of a trial refines the registry specification.
    Take a well-formed state whose dict implements an abstract registry
    [r].  [_init_optuna_trial_experiment] returns, and makes active, the
    object of the record [RegistrySpec.resolve] returns.  The fresh key
    is the next key of the client, and no trial holds it.  The updated
    dict implements the updated registry. *)
Theorem init_trial_experiment_refines_registry (cb : CometCallback Sd) study t w es r :
  wf_world w -> wf_cb cb w -> _trial_experiments cb = PyDict es -> refines_registry r es ->
  exists cb' h w' o es',
    runs (_init_optuna_trial_experiment study t) (cb, w) h (cb', w') /\
    w_active w' = Some h /\ w_objs w' !! h = Some o /\ _trial_experiments cb' = PyDict es' /\
    RegistrySpec.fresh_for r (key_of (w_next_key w)) /\
    o_key o = (RegistrySpec.resolve r (number t) (key_of (w_next_key w))).1 /\
    refines_registry (RegistrySpec.resolve r (number t) (key_of (w_next_key w))).2 es'.
Proof. apply init_trial_refines. Qed.

End Resolution.

Section Simulation.
Context {Sd : Type} `{!StudyHandle Sd} `{!StudyLaws Sd}.

(** One step of the process is one step of the registry: both
    [__call__] and the wrapper resolve the trial first, and nothing
    after the resolution writes the dict. *)
Lemma step_refines (s s' : CometCallback Sd * world) es r :
  wf_world (snd s) -> wf_cb (fst s) (snd s) -> _trial_experiments (fst s) = PyDict es ->
  refines_registry r es -> proc_step s s' ->
  exists r' es', RegistrySpec.step r r' /\ _trial_experiments (fst s') = PyDict es' /\
                 refines_registry r' es'.
Proof.
  intros Hwf Hcb Hes Href Hstep.
  destruct Hstep as [study t [cb w] r0 [cb' w'] E|R func t [cb w] r0 [cb' w'] Hfunc E]; simpl in *.
  - destruct (init_trial_refines cb study t w es r Hwf Hcb Hes Href)
      as (cb1 & h & w1 & o & es' & Hinit & _ & Ho & Hes' & Hfresh & _ & Href').
    destruct (call_count_new cb study t w cb1 h w1 o (wf_reliable _ Hwf) Hinit Ho) as [Hc1 _].
    rewrite E in Hc1. simpl in Hc1. subst cb1.
    exists (RegistrySpec.resolve r (number t) (key_of (w_next_key w))).2, es'.
    split_ands; [by constructor|done|done].
  - destruct (init_trial_refines cb (_study cb) t w es r Hwf Hcb Hes Href)
      as (cb1 & h & w1 & o & es' & Hinit & _ & Ho & Hes' & Hfresh & _ & Href').
    rewrite track_run, Hinit in E. injection E as _ <- _.
    exists (RegistrySpec.resolve r (number t) (key_of (w_next_key w))).2, es'.
    split_ands; [by constructor|done|done].
Qed.

(** The simulation extended to runs of the process. *)
Lemma run_refines (s s' : CometCallback Sd * world) es r :
  rtc proc_step s s' ->
  wf_world (snd s) -> wf_cb (fst s) (snd s) -> _trial_experiments (fst s) = PyDict es ->
  refines_registry r es ->
  exists r' es', rtc RegistrySpec.step r r' /\ _trial_experiments (fst s') = PyDict es' /\
                 refines_registry r' es'.
Proof.
  intros Hrun. revert es r. induction Hrun as [s|s s1 s' Hstep _ IH]; intros es r Hwf Hcb Hes Href.
  - exists r, es. split_ands; [constructor|done|done].
  - destruct (step_refines s s1 es r Hwf Hcb Hes Href Hstep) as (r1 & es1 & Hr1 & Hes1 & Href1).
    destruct (step_wf s s1 Hwf Hcb Hstep) as [Hwf1 Hcb1].
    destruct (IH es1 r1 Hwf1 Hcb1 Hes1 Href1) as (r' & es' & Hr' & Hes' & Href').
    exists r', es'. split_ands; [by econstructor|done|done].
Qed.

(** A run from a reachable state stays reachable. *)
Lemma rtc_reach (s s' : CometCallback Sd * world) : rtc proc_step s s' -> proc_reach s -> proc_reach s'.
Proof. induction 1 as [|x y z Hxy _ IH]; [done|]. intros Hx. apply IH. by eapply reach_step. Qed.

(** The state [__init__] builds implements the empty registry. *)
Lemma init_refines (study : Sd) ws proj names w0 cb0 st w1 :
  wf_world w0 -> user_attr study "trial_experiments" = None ->
  runs (CometCallback_init study ws proj names) w0 (cb0, st) w1 ->
  wf_world w1 /\ wf_cb cb0 w1 /\ _trial_experiments cb0 = PyDict [] /\ refines_registry ∅ [].
Proof.
  intros Hwf0 Hte Hinit. destruct (init_wf _ _ _ _ _ _ _ _ Hwf0 Hte Hinit) as [Hwf1 Hcb1].
  destruct (init_count _ _ _ _ _ _ _ _ Hte (wf_reliable _ Hwf0) Hinit) as [Hd _].
  split_ands; [done|done|done|apply refines_empty].
Qed.


(** C5: a trial's record never changes.  Along a run from [__init__],
    once the dict maps a trial to a key, every later state maps it to
    the same key: the dict is never cleared, and a stored entry is never
    overwritten. *)
Theorem trial_record_stable (study : Sd) ws proj names w0 cb0 st w1 s s' :
  wf_world w0 -> user_attr study "trial_experiments" = None ->
  runs (CometCallback_init study ws proj names) w0 (cb0, st) w1 ->
  rtc proc_step (cb0, w1) s -> rtc proc_step s s' ->
  exists es es', _trial_experiments (fst s) = PyDict es /\ _trial_experiments (fst s') = PyDict es' /\
    forall n k, dict_key es n = Some k -> dict_key es' n = Some k.
Proof.
  intros Hwf0 Hte Hinit Hrun Hrun'.
  destruct (init_refines _ _ _ _ _ _ _ _ Hwf0 Hte Hinit) as (Hwf1 & Hcb1 & Hd & Hre).
  destruct (run_refines (cb0, w1) s [] ∅ Hrun) as (r & es & _ & Hes & Href); try done.
  assert (Hwfs : wf_world (snd s) /\ wf_cb (fst s) (snd s)).
  { apply reach_wf. apply (rtc_reach _ _ Hrun). exact (reach_init study ws proj names w0 cb0 st w1 Hwf0 Hte Hinit). }
  destruct Hwfs as [Hwfs Hcbs].
  destruct (run_refines s s' es r Hrun' Hwfs Hcbs Hes Href) as (r' & es' & Hr' & Hes' & Href').
  exists es, es'. split_ands; [done|done|]. intros n k.
  rewrite <- (proj2 Href n), <- (proj2 Href' n). intros Hn. by apply (lookup_weaken r r' n k Hn),
    rtc_step_subseteq.
Qed.

(** A resolution only reassigns [_trial_experiments]. *)
Lemma init_trial_same_fields (cb : CometCallback Sd) study t w cb' h w' :
  runs (_init_optuna_trial_experiment study t) (cb, w) h (cb', w') -> same_fields cb cb'.
Proof. intros (Hcb & _)%init_trial_post. by destruct Hcb as [->|[d ->]]. Qed.

Lemma same_fields_trans (a b c : CometCallback Sd) : same_fields a b -> same_fields b c -> same_fields a c.
Proof. unfold same_fields. intros (? & ? & ? & ? & ?) (? & ? & ? & ? & ?). split_ands; congruence. Qed.

Lemma step_same_fields (s s' : CometCallback Sd * world) :
  wf_world (snd s) -> wf_cb (fst s) (snd s) -> proc_step s s' -> same_fields (fst s) (fst s').
Proof.
  intros Hwf Hcb Hstep.
  destruct Hstep as [study t [cb w] r0 [cb' w'] E|R func t [cb w] r0 [cb' w'] Hfunc E]; simpl in *.
  - destruct (init_trial_wf cb study t w Hwf Hcb) as (cb1 & h & w1 & Hinit & _ & _ & _ & [o Ho] & _).
    destruct (call_count_new cb study t w cb1 h w1 o (wf_reliable _ Hwf) Hinit Ho) as [Hc1 _].
    rewrite E in Hc1. simpl in Hc1. subst cb1. by eapply init_trial_same_fields.
  - destruct (init_trial_wf cb (_study cb) t w Hwf Hcb) as (cb1 & h & w1 & Hinit & _).
    rewrite track_run, Hinit in E. injection E as _ <- _. by eapply init_trial_same_fields.
Qed.

Lemma run_same_fields (s s' : CometCallback Sd * world) :
  rtc proc_step s s' -> proc_reach s -> same_fields (fst s) (fst s').
Proof.
  induction 1 as [s|s s1 s' Hstep _ IH]; intros Hr; [by split_ands|].
  destruct (reach_wf s Hr) as [Hwf Hcb].
  apply (same_fields_trans _ (fst s1)); [by apply step_same_fields|].
  apply IH. by eapply reach_step.
Qed.

(** C12: the callback keeps the types the code relies on.  In every
    state of a run from [__init__], [_trial_experiments] is a dict from
    non-negative ints to non-empty strs, as [.get(trial.number)] and the
    truth test of line 173 expect.  [study_experiment] is the key of an
    existing record.  No other attribute has changed since [__init__]. *)
Theorem callback_attributes_typed (study : Sd) ws proj names w0 cb0 st w1 s :
  wf_world w0 -> user_attr study "trial_experiments" = None ->
  runs (CometCallback_init study ws proj names) w0 (cb0, st) w1 ->
  rtc proc_step (cb0, w1) s ->
  (exists es, _trial_experiments (fst s) = PyDict es /\ dict_typed es) /\
  known (w_trace (snd s)) (study_experiment (fst s)) = true /\ same_fields cb0 (fst s).
Proof.
  intros Hwf0 Hte Hinit Hrun. destruct (init_refines _ _ _ _ _ _ _ _ Hwf0 Hte Hinit) as (? & ? & ? & ?).
  destruct (run_refines (cb0, w1) s [] ∅ Hrun) as (r & es & _ & Hes & [Hty _]); try done.
  pose proof (reach_init study ws proj names w0 cb0 st w1 Hwf0 Hte Hinit) as Hr0.
  destruct (reach_wf s (rtc_reach _ _ Hrun Hr0)) as [_ [Hse _]].
  split_ands; [eauto|done|exact (run_same_fields _ _ Hrun Hr0)].
Qed.

End Simulation.

(** ** Witnesses *)

Lemma init_trial_experiment_refines_registry_witness :
  exists cb' h w' o es',
    runs (_init_optuna_trial_experiment ex_study ex_trial_multi) (ex_cb_active, ex_world_active) h (cb', w') /\
    w_active w' = Some h /\ w_objs w' !! h = Some o /\ _trial_experiments cb' = PyDict es' /\
    RegistrySpec.fresh_for {[0 := "exp-1"]} (key_of (w_next_key ex_world_active)) /\
    o_key o = (RegistrySpec.resolve {[0 := "exp-1"]} (number ex_trial_multi)
                                    (key_of (w_next_key ex_world_active))).1 /\
    refines_registry (RegistrySpec.resolve {[0 := "exp-1"]} (number ex_trial_multi)
                                           (key_of (w_next_key ex_world_active))).2 es'.
Proof.
  apply (init_trial_experiment_refines_registry _ _ _ _ [(PyInt 0, PyStr "exp-1")]);
    [apply wf_worldb_sound; vm_compute; reflexivity|apply wf_cbb_sound; vm_compute; reflexivity
    |reflexivity|].
  split; [constructor; [eexists _, _; by split_ands|constructor]|].
  intros [|n]; [reflexivity|]. rewrite lookup_singleton_ne by lia. reflexivity.
Defined.

Ltac ex_run :=
  eapply rtc_l; [eapply (step_call ex_study ex_trial); vm_compute; reflexivity|];
  eapply rtc_l; [eapply (step_track _ ex_objective ex_trial_multi);
                 [apply logs_only_log_other|vm_compute; reflexivity]|];
  apply rtc_refl.


Lemma trial_record_stable_witness :
  exists (cb0 : CometCallback study_rec) st w1 s s',
    runs (CometCallback_init ex_study (Some "ws") (Some "general") None) ex_world (cb0, st) w1 /\
    rtc proc_step (cb0, w1) s /\ rtc proc_step s s' /\
    exists es es', _trial_experiments (fst s) = PyDict es /\ _trial_experiments (fst s') = PyDict es' /\
      forall n k, dict_key es n = Some k -> dict_key es' n = Some k.
Proof.
  do 5 eexists.
  lazymatch goal with
  | |- ?A /\ ?B /\ ?C /\ _ =>
      assert (H1 : A) by (vm_compute; reflexivity);
      assert (H2 : B) by (eapply rtc_l; [eapply (step_call ex_study ex_trial); vm_compute; reflexivity|];
                          apply rtc_refl);
      assert (H3 : C) by (eapply rtc_l; [eapply (step_track _ ex_objective ex_trial_multi);
                                         [apply logs_only_log_other|vm_compute; reflexivity]|];
                          apply rtc_refl);
      exact (conj H1 (conj H2 (conj H3 (trial_record_stable
                                 ex_study (Some "ws") (Some "general") None ex_world _ _ _ _ _
                                 (wf_worldb_sound ex_world eq_refl) eq_refl H1 H2 H3))))
  end.
Defined.

Lemma callback_attributes_typed_witness :
  exists (cb0 : CometCallback study_rec) st w1 s,
    runs (CometCallback_init ex_study (Some "ws") (Some "general") None) ex_world (cb0, st) w1 /\
    rtc proc_step (cb0, w1) s /\
    (exists es, _trial_experiments (fst s) = PyDict es /\ dict_typed es) /\
    known (w_trace (snd s)) (study_experiment (fst s)) = true /\ same_fields cb0 (fst s).
Proof.
  do 4 eexists.
  lazymatch goal with
  | |- ?A /\ ?B /\ _ =>
      assert (H1 : A) by (vm_compute; reflexivity); assert (H2 : B) by ex_run;
      exact (conj H1 (conj H2 (callback_attributes_typed
                                 ex_study (Some "ws") (Some "general") None ex_world _ _ _ _
                                 (wf_worldb_sound ex_world eq_refl) eq_refl H1 H2)))
  end.
Defined.
