(* ===== verification/Workers.v ===== *)
(** * Workers: several processes on one study

    In a distributed optimisation, several worker processes run the
    same script against one study storage (spec sections 2 and 5).  Each
    builds its own [CometCallback]; the study storage and the Comet
    service are shared, and the storage is the only means of
    coordination.  [__init__] reads the stored key at line 141 and writes
    a new one at line 151, with no lock between the two.

    A [cluster] holds the shared study store, the service, and the
    progress of each worker's [__init__].  A worker's [__init__] is split
    at its read of the store: [OpRead] runs lines 75-86 and the read of
    line 141; [OpInit] runs lines 143-153 on the store as it is then,
    with the write of line 151, and the rest of [__init__] (lines
    91-101).  The other reads of the store in that part (the name and
    storage at lines 149-150, the directions at line 92, the dict at
    line 98) read attributes that no worker writes, so nothing observable
    is lost by running it as one step.  Run back to back, the two steps
    are [CometCallback_init] itself ([worker_steps_are_init]), except
    that the store keeps the write of line 151 when the direction loop
    fails afterwards, as Optuna's storage does.  The claims: workers
    that run one after another share one study record; workers that
    all read before any writes create one record each; and a failure
    between the creation of the record and the write of its key
    orphans the record, so that the next worker creates another. *)

From Stdlib Require Import List ZArith String Lia.
From stdpp Require Import base list strings.
From S2P Require Import Prelude PyData Optuna CometClient CometCallback Fixtures StudyExperiment.
Import ListNotations.
Local Open Scope string_scope.

(** ** Definitions *)

Section WorkerDefs.
Context {Sd : Type} `{!StudyHandle Sd}.

(** Line 141: [study.user_attrs.get("comet_study_experiment_key")]. *)
Definition read_study_key (study : Sd) : pyval :=
  default PyNone (user_attr study "comet_study_experiment_key").

(** Lines 143-153 of [_init_optuna_study_experiment], after the read
    of line 141, on the store as it is when they run. *)
Definition study_experiment_of_key (ws : string) (proj : option string) (experiment_key : pyval)
           (study : Sd) : CM (string * Sd) :=
  if py_truthy experiment_key then
    k <- resume_api_experiment experiment_key ;;
    mret (k, study)
  else
    k <- new_api_experiment ws proj ;;
    api_add_tag k "optuna_study" ;;;
    api_log_other k "optuna_study_name" (PyStr (study_name study)) ;;;
    api_log_other k "optuna_storage" (PyStr (storage_name study)) ;;;
    mret (k, set_user_attr "comet_study_experiment_key" (PyStr k) study).

(** The progress of one worker's [__init__]. *)
Inductive worker : Type :=
| WStart                                  (** before [__init__] *)
| WRead (ws : string) (key : pyval)       (** after line 141 *)
| WReady (cb : CometCallback Sd)          (** [__init__] returned *)
| WFailed (e : exn).                      (** [__init__] raised *)

(** The shared store and service, and the workers. *)
Record cluster : Type := mkCluster {
  cl_store : Sd;
  cl_world : world;
  cl_workers : list worker
}.

(** The atomic steps of a worker. *)
Inductive wop : Type :=
| OpRead (i : nat)
| OpInit (i : nat).

(** Every worker runs [CometCallback(study, workspace, project_name,
    metric_names)] with the same arguments. *)
Context (workspace : option string) (project_name : option string)
        (metric_names : option (list string)).

(** Lines 75-86 and the read of line 141. *)
Definition worker_read (study : Sd) : CM (string * pyval) :=
  ws <- match workspace with
        | Some w => mret w
        | None => api_get_default_workspace
        end ;;
  mret (ws, read_study_key study).

(** Lines 143-153 and 91-101, on the store [c]; the store keeps the
    write of line 151 whatever follows. *)
Definition worker_init (c : cluster) (i : nat) (ws : string) (key : pyval) : cluster :=
  let names := default [] metric_names in
  match study_experiment_of_key ws project_name key (cl_store c) (cl_world c) with
  | (inl e, w1) => mkCluster (cl_store c) w1 (<[i := WFailed e]> (cl_workers c))
  | (inr (se, st'), w1) =>
      match log_directions se names (directions st') w1 with
      | (inl e, w2) => mkCluster st' w2 (<[i := WFailed e]> (cl_workers c))
      | (inr _, w2) =>
          mkCluster st' w2
            (<[i := WReady (mkCallback project_name ws st' names se (load_trial_experiments st'))]>
               (cl_workers c))
      end
  end.

(** One step of worker [i].  A step of a worker that has nothing
    left to do at that point changes nothing. *)
Definition cluster_step (c : cluster) (op : wop) : cluster :=
  match op with
  | OpRead i =>
      match cl_workers c !! i with
      | Some WStart =>
          match worker_read (cl_store c) (cl_world c) with
          | (inl e, w') => mkCluster (cl_store c) w' (<[i := WFailed e]> (cl_workers c))
          | (inr (ws, key), w') => mkCluster (cl_store c) w' (<[i := WRead ws key]> (cl_workers c))
          end
      | _ => c
      end
  | OpInit i =>
      match cl_workers c !! i with
      | Some (WRead ws key) => worker_init c i ws key
      | _ => c
      end
  end.

(** A schedule: the steps of the workers in the order they happen. *)
Fixpoint run_ops (c : cluster) (ops : list wop) : cluster :=
  match ops with
  | [] => c
  | op :: ops' => run_ops (cluster_step c op) ops'
  end.

End WorkerDefs.

Arguments worker : clear implicits.
Arguments cluster : clear implicits.

(** The schedules of [n] workers: all read, then all initialise; and
    one after the other. *)
Definition racing_ops (n : nat) : list wop := map OpRead (seq 0 n) ++ map OpInit (seq 0 n).
Definition serial_ops (n : nat) : list wop := flat_map (fun i => [OpRead i; OpInit i]) (seq 0 n).

(** Two workers that have not started, on the new study [ex_study] and
    a service with no record. *)
Definition ex_cluster : cluster study_rec := mkCluster ex_study ex_world [WStart; WStart].


(** How the shared service evolves while workers run [__init__] on a
    reliable service: [d] study records are created, and the trace and
    the key counter grow with them. *)
Record wext (w w' : world) (d : nat) : Prop := {
  wext_reliable : w_fail w' = None;
  wext_next : w_next_key w' = w_next_key w + d;
  wext_count : count_calls is_new_api_experiment (w_trace w')
               = count_calls is_new_api_experiment (w_trace w) + d;
  wext_trace : w_trace w `prefix_of` w_trace w';
  wext_ws : w_default_ws w' = w_default_ws w
}.

(** ** Lemmas *)

Lemma wext_refl w : w_fail w = None -> wext w w 0.
Proof. intros Hr. split; [done|lia|lia|done|done]. Qed.

Lemma wext_trans w1 w2 w3 d1 d2 : wext w1 w2 d1 -> wext w2 w3 d2 -> wext w1 w3 (d1 + d2).
Proof.
  intros [_ Hn1 Hc1 Ht1 Hw1] [Hr2 Hn2 Hc2 Ht2 Hw2].
  split; [done|lia|lia|by etrans|congruence].
Qed.

Lemma wext_known w w' d k : wext w w' d -> known (w_trace w) k = true -> known (w_trace w') k = true.
Proof. intros [_ _ _ [l Hl] _] Hk. rewrite Hl. by apply known_app_l. Qed.

Lemma wext_after_workspace ws w : w_fail w = None -> wext w (after_workspace ws w) 0.
Proof.
  intros Hr. split; [by rewrite after_workspace_fail| | | |]; destruct ws as [ws|]; simpl; try lia.
  - rewrite count_calls_app. change (count_calls is_new_api_experiment [GetDefaultWorkspace]) with 0. lia.
  - done.
  - by eexists.
  - done.
  - done.
Qed.

Lemma count_study_creation ws proj k n s :
  count_calls is_new_api_experiment (study_creation_calls ws proj k n s) = 1.
Proof. reflexivity. Qed.

Lemma count_new_api_directions k names ds :
  count_calls is_new_api_experiment (direction_calls k names ds) = 0.
Proof. by apply count_direction_calls. Qed.

Section WorkerLemmas.
Context {Sd : Type} `{!StudyHandle Sd} `{!StudyLaws Sd}.
Context (workspace : option string) (project_name : option string)
        (metric_names : option (list string)).

Local Abbreviation step := (cluster_step workspace project_name metric_names).
Local Abbreviation run := (run_ops workspace project_name metric_names).

Lemma read_study_key_set k (study : Sd) :
  read_study_key (set_user_attr "comet_study_experiment_key" (PyStr k) study) = PyStr k.
Proof. unfold read_study_key. by rewrite user_attr_set_eq. Qed.

(** [_init_optuna_study_experiment] is its read of line 141 followed by
    the rest. *)
Lemma init_study_split ws proj (study : Sd) :
  _init_optuna_study_experiment ws proj study
  = study_experiment_of_key ws proj (read_study_key study) study.
Proof. reflexivity. Qed.

Lemma study_experiment_of_key_create ws proj key (study : Sd) w :
  py_truthy key = false -> w_fail w = None ->
  study_experiment_of_key ws proj key study w =
  (inr (key_of (w_next_key w),
        set_user_attr "comet_study_experiment_key" (PyStr (key_of (w_next_key w))) study),
   mkWorld (w_trace w ++ study_creation_calls ws proj (key_of (w_next_key w))
                           (study_name study) (storage_name study))
           (S (w_next_key w)) (w_objs w) (w_active w) (w_default_ws w) (w_fail w)).
Proof. intros Hk Hr. unfold study_experiment_of_key. rewrite Hk. crun. by rewrite <- !app_assoc. Qed.


Lemma study_experiment_of_key_resume ws proj k (study : Sd) w :
  k <> "" -> known (w_trace w) k = true -> w_fail w = None ->
  study_experiment_of_key ws proj (PyStr k) study w =
  (inr (k, study), set_trace (w_trace w ++ [ResumeAPIExperiment k]) w).
Proof.
  intros Hne Hkn Hr. unfold study_experiment_of_key. simpl.
  apply String.eqb_neq in Hne. rewrite Hne. simpl. crun. rewrite Hkn. by crun.
Qed.

(** *** One step *)

Lemma step_read (c : cluster Sd) i :
  cl_workers c !! i = Some WStart -> w_fail (cl_world c) = None ->
  exists w', step c (OpRead i)
    = mkCluster (cl_store c) w'
        (<[i := WRead (default (w_default_ws (cl_world c)) workspace) (read_study_key (cl_store c))]>
           (cl_workers c)) /\
    wext (cl_world c) w' 0.
Proof.
  intros Hi Hr. exists (after_workspace workspace (cl_world c)). split; [|by apply wext_after_workspace].
  simpl. rewrite Hi. unfold worker_read, mbind at 1. by rewrite workspace_run.
Qed.

Lemma worker_read_unfold (study : Sd) w :
  worker_read workspace study w =
  match match workspace with Some ws => mret ws | None => api_get_default_workspace end w with
  | (inl e, w') => (inl e, w')
  | (inr ws, w') => (inr (ws, read_study_key study), w')
  end.
Proof. unfold worker_read, mbind. by destruct (match workspace with _ => _ end w) as [[]]. Qed.

Lemma step_read_unfold (c : cluster Sd) i :
  cl_workers c !! i = Some WStart ->
  step c (OpRead i) =
  match worker_read workspace (cl_store c) (cl_world c) with
  | (inl e, w') => mkCluster (cl_store c) w' (<[i := WFailed e]> (cl_workers c))
  | (inr (ws, key), w') => mkCluster (cl_store c) w' (<[i := WRead ws key]> (cl_workers c))
  end.
Proof. intros Hi. simpl. by rewrite Hi. Qed.

(** A worker that read no key creates a record and stores its key. *)
Lemma step_init_create (c : cluster Sd) i ws key :
  cl_workers c !! i = Some (WRead ws key) -> py_truthy key = false -> w_fail (cl_world c) = None ->
  exists cb w', step c (OpInit i)
    = mkCluster (set_user_attr "comet_study_experiment_key" (PyStr (key_of (w_next_key (cl_world c))))
                               (cl_store c)) w' (<[i := WReady cb]> (cl_workers c)) /\
    study_experiment cb = key_of (w_next_key (cl_world c)) /\
    wext (cl_world c) w' 1 /\ known (w_trace w') (key_of (w_next_key (cl_world c))) = true.
Proof.
  intros Hi Hk Hr. simpl. rewrite Hi. unfold worker_init.
  rewrite study_experiment_of_key_create by done. rewrite log_directions_run by done.
  do 2 eexists. split_and!; [reflexivity|reflexivity| |].
  - split; simpl; [done|lia| |by do 2 apply prefix_app_r|done].
    rewrite !count_calls_app, count_study_creation, count_new_api_directions. lia.
  - simpl. apply known_app_l, known_study_creation.
Qed.

(** A worker that read a stored key resumes its record and writes
    nothing. *)
Lemma step_init_resume (c : cluster Sd) i ws k :
  cl_workers c !! i = Some (WRead ws (PyStr k)) -> k <> "" ->
  known (w_trace (cl_world c)) k = true -> w_fail (cl_world c) = None ->
  exists cb w', step c (OpInit i) = mkCluster (cl_store c) w' (<[i := WReady cb]> (cl_workers c)) /\
    study_experiment cb = k /\ wext (cl_world c) w' 0.
Proof.
  intros Hi Hne Hkn Hr. simpl. rewrite Hi. unfold worker_init.
  rewrite study_experiment_of_key_resume by done. rewrite log_directions_run by done.
  do 2 eexists. split_and!; [reflexivity|reflexivity|].
  split; simpl; [done|lia| |by do 2 apply prefix_app_r|done].
  rewrite !count_calls_app, count_new_api_directions, count_calls_cons, count_calls_nil. simpl. lia.
Qed.

(** A step changes the progress of one worker, and no worker joins
    or leaves. *)
Lemma step_length (c : cluster Sd) op : length (cl_workers (step c op)) = length (cl_workers c).
Proof.
  destruct op as [i|i]; simpl; destruct (cl_workers c !! i) as [[]|]; try done.
  - destruct (worker_read _ _ _) as [[e|[ws key]] w']; simpl; by rewrite length_insert.
  - unfold worker_init. destruct (study_experiment_of_key _ _ _ _ _) as [[e|[se st]] w1]; simpl;
      [|destruct (log_directions _ _ _ _) as [[e|[]] w2]]; simpl; by rewrite length_insert.
Qed.

Lemma run_length (c : cluster Sd) ops : length (cl_workers (run c ops)) = length (cl_workers c).
Proof.
  revert c. induction ops as [|op ops IH]; intros c; [done|]. simpl. by rewrite IH, step_length.
Qed.

Lemma run_ops_app (c : cluster Sd) ops ops' : run c (ops ++ ops') = run (run c ops) ops'.
Proof. revert c. induction ops as [|op ops IH]; intros c; [done|apply IH]. Qed.

(** *** Phases of a schedule *)

Lemma insert_lookup_same (ws : list (worker Sd)) i x y :
  ws !! i = Some y -> <[i := x]> ws !! i = Some x.
Proof. intros Hi. apply list_lookup_insert_eq. by eapply lookup_lt_Some. Qed.

(** Workers [j .. j+m-1] read, one after the other, with no write
    between: they all read the same key. *)
Lemma run_reads (c : cluster Sd) j m :
  (forall x, x < m -> cl_workers c !! (j + x) = Some WStart) -> w_fail (cl_world c) = None ->
  cl_store (run c (map OpRead (seq j m))) = cl_store c /\
  wext (cl_world c) (cl_world (run c (map OpRead (seq j m)))) 0 /\
  (forall x, x < m -> cl_workers (run c (map OpRead (seq j m))) !! (j + x)
                     = Some (WRead (default (w_default_ws (cl_world c)) workspace)
                                   (read_study_key (cl_store c)))) /\
  (forall i, i < j \/ j + m <= i -> cl_workers (run c (map OpRead (seq j m))) !! i = cl_workers c !! i).
Proof.
  revert j c. induction m as [|m IH]; intros j c Hs Hr.
  - split_and!; [done|by apply wext_refl|lia|done].
  - destruct (step_read c j) as (w1 & E1 & Hw1); [rewrite <- (Nat.add_0_r j); apply Hs; lia|done|].
    cbn [seq map run_ops]. rewrite E1.
    destruct (IH (S j) (mkCluster (cl_store c) w1 (<[j := WRead (default (w_default_ws (cl_world c)) workspace)
                 (read_study_key (cl_store c))]> (cl_workers c)))) as (Hst & Hw & Hin & Hout).
    { intros x Hx. cbn [cl_workers]. rewrite list_lookup_insert_ne by lia.
      replace (S j + x) with (j + S x) by lia. apply Hs. lia. }
    { apply Hw1. }
    cbn [cl_store cl_world cl_workers] in Hst, Hw, Hin, Hout. rewrite (wext_ws _ _ _ Hw1) in Hin.
    split_and!; [done|exact (wext_trans _ _ _ 0 0 Hw1 Hw)| |].
    + intros [|x] Hx.
      * rewrite Nat.add_0_r, Hout by lia. eapply insert_lookup_same.
        rewrite <- (Nat.add_0_r j). apply Hs. lia.
      * replace (j + S x) with (S j + x) by lia. apply Hin. lia.
    + intros i Hi. rewrite Hout by lia. apply list_lookup_insert_ne. lia.
Qed.

(** Workers [j .. j+m-1], all of which read no key, initialise one
    after the other: each creates its own record, and the store ends
    with the last one's key. *)
Lemma run_inits_create (c : cluster Sd) j m ws key :
  (forall x, x < m -> cl_workers c !! (j + x) = Some (WRead ws key)) ->
  py_truthy key = false -> w_fail (cl_world c) = None ->
  wext (cl_world c) (cl_world (run c (map OpInit (seq j m)))) m /\
  (forall x, x < m -> exists cb, cl_workers (run c (map OpInit (seq j m))) !! (j + x) = Some (WReady cb) /\
                                study_experiment cb = key_of (w_next_key (cl_world c) + x)) /\
  (forall i, i < j \/ j + m <= i -> cl_workers (run c (map OpInit (seq j m))) !! i = cl_workers c !! i) /\
  (0 < m -> read_study_key (cl_store (run c (map OpInit (seq j m))))
            = PyStr (key_of (w_next_key (cl_world c) + (m - 1)))).
Proof.
  revert j c. induction m as [|m IH]; intros j c Hs Hk Hr.
  - split_and!; [by apply wext_refl|lia|done|lia].
  - destruct (step_init_create c j ws key) as (cb & w1 & E1 & Hse & Hw1 & _);
      [rewrite <- (Nat.add_0_r j); apply Hs; lia|done|done|].
    cbn [seq map run_ops]. rewrite E1.
    set (c1 := mkCluster _ w1 (<[j := WReady cb]> (cl_workers c))).
    destruct (IH (S j) c1) as (Hw & Hin & Hout & Hst).
    { intros x Hx. cbn [cl_workers c1]. rewrite list_lookup_insert_ne by lia.
      replace (S j + x) with (j + S x) by lia. apply Hs. lia. }
    { done. }
    { apply Hw1. }
    cbn [cl_world c1] in Hw, Hin, Hst. rewrite (wext_next _ _ _ Hw1) in Hin, Hst.
    split_and!; [exact (wext_trans _ _ _ 1 m Hw1 Hw)| | |].
    + intros [|x] Hx.
      * exists cb. rewrite Nat.add_0_r, Hout by lia. split; [|by rewrite Nat.add_0_r].
        eapply insert_lookup_same. rewrite <- (Nat.add_0_r j). apply Hs. lia.
      * replace (j + S x) with (S j + x) by lia.
        replace (w_next_key (cl_world c) + S x) with (w_next_key (cl_world c) + 1 + x) by lia.
        apply Hin. lia.
    + intros i Hi. rewrite Hout by lia. apply list_lookup_insert_ne. lia.
    + intros _. destruct m as [|m].
      * cbn [seq map run_ops c1 cl_store]. by rewrite read_study_key_set, Nat.add_0_r.
      * rewrite Hst by lia. do 2 f_equal. lia.
Qed.

(** Workers [j .. j+m-1] run [__init__] one after the other while the
    store names the record [k0]: each resumes it, and nothing is
    created or written. *)
Lemma run_serial_resume (c : cluster Sd) j m k0 :
  (forall x, x < m -> cl_workers c !! (j + x) = Some WStart) ->
  read_study_key (cl_store c) = PyStr k0 -> k0 <> "" ->
  known (w_trace (cl_world c)) k0 = true -> w_fail (cl_world c) = None ->
  cl_store (run c (flat_map (fun i => [OpRead i; OpInit i]) (seq j m))) = cl_store c /\
  wext (cl_world c) (cl_world (run c (flat_map (fun i => [OpRead i; OpInit i]) (seq j m)))) 0 /\
  (forall x, x < m -> exists cb,
     cl_workers (run c (flat_map (fun i => [OpRead i; OpInit i]) (seq j m))) !! (j + x) = Some (WReady cb) /\
     study_experiment cb = k0) /\
  (forall i, i < j \/ j + m <= i ->
     cl_workers (run c (flat_map (fun i => [OpRead i; OpInit i]) (seq j m))) !! i = cl_workers c !! i).
Proof.
  revert j c. induction m as [|m IH]; intros j c Hs Hk Hne Hkn Hr.
  - split_and!; [done|by apply wext_refl|lia|done].
  - destruct (step_read c j) as (w1 & E1 & Hw1); [rewrite <- (Nat.add_0_r j); apply Hs; lia|done|].
    cbn [seq flat_map app run_ops]. rewrite E1. rewrite Hk.
    set (c1 := mkCluster _ w1 _).
    destruct (step_init_resume c1 j (default (w_default_ws (cl_world c)) workspace) k0)
      as (cb & w2 & E2 & Hse & Hw2).
    { eapply insert_lookup_same. rewrite <- (Nat.add_0_r j). apply Hs. lia. }
    { done. }
    { exact (wext_known _ _ _ _ Hw1 Hkn). }
    { apply Hw1. }
    rewrite E2. set (c2 := mkCluster _ w2 _).
    destruct (IH (S j) c2) as (Hst & Hw & Hin & Hout).
    { intros x Hx. cbn [cl_workers c2 c1]. rewrite !list_lookup_insert_ne by lia.
      replace (S j + x) with (j + S x) by lia. apply Hs. lia. }
    { done. }
    { done. }
    { cbn [cl_world c2 c1] in Hw2 |- *. apply (wext_known _ _ _ _ Hw2), (wext_known _ _ _ _ Hw1), Hkn. }
    { apply Hw2. }
    cbn [cl_store cl_world c2 c1] in Hst, Hw, Hw2.
    split_and!; [done|exact (wext_trans _ _ _ 0 0 (wext_trans _ _ _ 0 0 Hw1 Hw2) Hw)| |].
    + intros [|x] Hx.
      * exists cb. rewrite Nat.add_0_r, Hout by lia. split; [|done].
        cbn [cl_workers c2]. eapply insert_lookup_same, insert_lookup_same.
        rewrite <- (Nat.add_0_r j). apply Hs. lia.
      * replace (j + S x) with (S j + x) by lia. apply Hin. lia.
    + intros i Hi. rewrite Hout by lia. cbn [cl_workers c2 c1].
      rewrite !list_lookup_insert_ne by lia. done.
Qed.
End WorkerLemmas.

(** ** Claims *)

Section WorkerClaims.
Context {Sd : Type} `{!StudyHandle Sd} `{!StudyLaws Sd}.
Context (workspace : option string) (project_name : option string)
        (metric_names : option (list string)).

Local Abbreviation run := (run_ops workspace project_name metric_names).

(** A worker's two steps, run back to back with no other worker in
    between, are [CometCallback.__init__]: the split of the model at
    line 141 loses nothing.  When [__init__] returns the callback and
    the study, the worker holds that callback and the store holds that
    study; when it raises, the worker failed with the same exception,
    after the same calls to the service. *)
Theorem worker_steps_are_init (c : cluster Sd) i :
  cl_workers c !! i = Some WStart ->
  match CometCallback_init (cl_store c) workspace project_name metric_names (cl_world c) with
  | (inr (cb, st'), w') => run c [OpRead i; OpInit i] = mkCluster st' w' (<[i := WReady cb]> (cl_workers c))
  | (inl e, w') => exists st', run c [OpRead i; OpInit i] = mkCluster st' w' (<[i := WFailed e]> (cl_workers c))
  end.
Proof.
  intros Hi. cbn [run_ops]. rewrite step_read_unfold, worker_read_unfold by done.
  unfold CometCallback_init. unfold mbind at 1.
  destruct (match workspace with Some w => mret w | None => api_get_default_workspace end (cl_world c))
    as [[e|ws] w1]; cbn [cluster_step cl_workers]; (erewrite insert_lookup_same; [|exact Hi]).
  { by exists (cl_store c). }
  rewrite init_study_split. unfold worker_init, mbind. cbn [cl_store cl_world cl_workers].
  destruct (study_experiment_of_key ws project_name (read_study_key (cl_store c)) (cl_store c) w1)
    as [[e|[se st]] w2].
  { exists (cl_store c). by rewrite list_insert_insert_eq. }
  destruct (log_directions se (default [] metric_names) (directions st) w2) as [[e|[]] w3].
  { exists st. by rewrite list_insert_insert_eq. }
  unfold mret. cbn beta iota. by rewrite list_insert_insert_eq.
Qed.

(** C29: the check of line 141 and the write of line 151 are not
    atomic.  When [n] workers all read the store before any of them
    writes it, which nothing in the code prevents, each creates its own
    study record: [n] records where the spec promises exactly one per
    study, worker [i] keeps logging to the [i]-th, and the store ends
    naming only the last. *)
Theorem racing_inits_duplicate_study_record (c : cluster Sd) n :
  w_fail (cl_world c) = None -> py_truthy (read_study_key (cl_store c)) = false ->
  cl_workers c = replicate n WStart ->
  count_calls is_new_api_experiment (w_trace (cl_world (run c (racing_ops n))))
    = count_calls is_new_api_experiment (w_trace (cl_world c)) + n /\
  (forall i, i < n -> exists cb, cl_workers (run c (racing_ops n)) !! i = Some (WReady cb) /\
                                study_experiment cb = key_of (w_next_key (cl_world c) + i)) /\
  (forall i j cbi cbj, cl_workers (run c (racing_ops n)) !! i = Some (WReady cbi) ->
     cl_workers (run c (racing_ops n)) !! j = Some (WReady cbj) -> i <> j ->
     study_experiment cbi <> study_experiment cbj) /\
  (0 < n -> read_study_key (cl_store (run c (racing_ops n)))
            = PyStr (key_of (w_next_key (cl_world c) + (n - 1)))).
Proof.
  intros Hr Hk Hws. unfold racing_ops. rewrite run_ops_app.
  destruct (run_reads workspace project_name metric_names c 0 n) as (Hst & Hw & Hin & _).
  { intros x Hx. rewrite Hws. by apply lookup_replicate_2. }
  { done. }
  set (c1 := run c (map OpRead (seq 0 n))) in *.
  destruct (run_inits_create workspace project_name metric_names c1 0 n
              (default (w_default_ws (cl_world c)) workspace) (read_study_key (cl_store c)))
    as (Hw' & Hcb & _ & Hlast); [done|done|apply Hw|].
  rewrite (wext_next _ _ _ Hw), Nat.add_0_r in Hcb, Hlast.
  assert (Hready : forall i cb, i < n -> cl_workers (run c1 (map OpInit (seq 0 n))) !! i = Some (WReady cb) ->
                                study_experiment cb = key_of (w_next_key (cl_world c) + i)).
  { intros i cb Hi Hl. destruct (Hcb i Hi) as (cb' & Hl' & Hse). simpl in Hl'. congruence. }
  split_and!; [|exact Hcb| |exact Hlast].
  - rewrite (wext_count _ _ _ Hw'), (wext_count _ _ _ Hw). lia.
  - intros i j cbi cbj Hi Hj Hne.
    assert (Hlen : length (cl_workers (run c1 (map OpInit (seq 0 n)))) = n).
    { rewrite run_length. unfold c1. by rewrite run_length, Hws, length_replicate. }
    pose proof (lookup_lt_Some _ _ _ Hi). pose proof (lookup_lt_Some _ _ _ Hj).
    rewrite (Hready i cbi ltac:(lia) Hi), (Hready j cbj ltac:(lia) Hj). intros ?%key_of_inj. lia.
Qed.

(** C30: when the workers run [__init__] one after the other, as the
    spec's consistency argument assumes, the first creates the study
    record and writes its key, and every later worker resumes it: one
    record for the study, shared by all [n] workers. *)
Theorem serial_inits_share_study_record (c : cluster Sd) n :
  w_fail (cl_world c) = None -> py_truthy (read_study_key (cl_store c)) = false ->
  cl_workers c = replicate n WStart -> 0 < n ->
  count_calls is_new_api_experiment (w_trace (cl_world (run c (serial_ops n))))
    = count_calls is_new_api_experiment (w_trace (cl_world c)) + 1 /\
  (forall i, i < n -> exists cb, cl_workers (run c (serial_ops n)) !! i = Some (WReady cb) /\
                                study_experiment cb = key_of (w_next_key (cl_world c))) /\
  read_study_key (cl_store (run c (serial_ops n))) = PyStr (key_of (w_next_key (cl_world c))).
Proof.
  intros Hr Hk Hws Hn. destruct n as [|n]; [lia|]. unfold serial_ops. cbn [seq flat_map app run_ops].
  assert (H0 : cl_workers c !! 0 = Some WStart) by (rewrite Hws; done).
  destruct (step_read workspace project_name metric_names c 0) as (w1 & E1 & Hw1); [done|done|].
  rewrite E1. set (c1 := mkCluster _ w1 _).
  destruct (step_init_create workspace project_name metric_names c1 0
              (default (w_default_ws (cl_world c)) workspace) (read_study_key (cl_store c)))
    as (cb & w2 & E2 & Hse & Hw2 & Hkn); [by eapply insert_lookup_same|done|apply Hw1|].
  rewrite E2. set (c2 := mkCluster _ w2 _).
  cbn [cl_world c1] in Hse, Hw2, Hkn.
  assert (Ew1 : w_next_key w1 = w_next_key (cl_world c)) by (rewrite (wext_next _ _ _ Hw1); lia).
  rewrite Ew1 in Hse. rewrite Ew1 in Hkn.
  destruct (run_serial_resume workspace project_name metric_names c2 1 n
              (key_of (w_next_key (cl_world c)))) as (Hst & Hw & Hin & Hout).
  { intros x Hx. cbn [cl_workers c2 c1]. rewrite !list_lookup_insert_ne by lia.
    rewrite Hws. apply lookup_replicate_2. lia. }
  { cbn [cl_store cl_world c2 c1]. rewrite Ew1. apply read_study_key_set. }
  { unfold key_of. discriminate. }
  { done. }
  { apply Hw2. }
  split_and!.
  - rewrite (wext_count _ _ _ Hw). cbn [cl_world c2]. rewrite (wext_count _ _ _ Hw2), (wext_count _ _ _ Hw1). lia.
  - intros [|i] Hi.
    + exists cb. rewrite Hout by lia. split; [|done]. cbn [cl_workers c2 c1]. eapply insert_lookup_same, insert_lookup_same, H0.
    + apply (Hin i). lia.
  - rewrite Hst. cbn [cl_store cl_world c2 c1]. rewrite Ew1. apply read_study_key_set.
Qed.

End WorkerClaims.

(** ** Witnesses *)

Lemma racing_inits_duplicate_study_record_witness :
  w_fail (cl_world ex_cluster) = None /\ py_truthy (read_study_key (cl_store ex_cluster)) = false /\
  cl_workers ex_cluster = replicate 2 WStart /\
  let c := run_ops (Some "ws") (Some "general") None ex_cluster (racing_ops 2) in
  count_calls is_new_api_experiment (w_trace (cl_world c))
    = count_calls is_new_api_experiment (w_trace (cl_world ex_cluster)) + 2 /\
  (forall i, i < 2 -> exists cb, cl_workers c !! i = Some (WReady cb) /\
                                study_experiment cb = key_of (w_next_key (cl_world ex_cluster) + i)) /\
  (forall i j cbi cbj, cl_workers c !! i = Some (WReady cbi) -> cl_workers c !! j = Some (WReady cbj) ->
     i <> j -> study_experiment cbi <> study_experiment cbj) /\
  (0 < 2 -> read_study_key (cl_store c) = PyStr (key_of (w_next_key (cl_world ex_cluster) + (2 - 1)))).
Proof.
  assert (H1 : w_fail (cl_world ex_cluster) = None) by reflexivity.
  assert (H2 : py_truthy (read_study_key (cl_store ex_cluster)) = false) by (vm_compute; reflexivity).
  assert (H3 : cl_workers ex_cluster = replicate 2 WStart) by reflexivity.
  exact (conj H1 (conj H2 (conj H3
    (racing_inits_duplicate_study_record (Some "ws") (Some "general") None ex_cluster 2 H1 H2 H3)))).
Defined.

Lemma serial_inits_share_study_record_witness :
  w_fail (cl_world ex_cluster) = None /\ py_truthy (read_study_key (cl_store ex_cluster)) = false /\
  cl_workers ex_cluster = replicate 2 WStart /\ 0 < 2 /\
  let c := run_ops (Some "ws") (Some "general") None ex_cluster (serial_ops 2) in
  count_calls is_new_api_experiment (w_trace (cl_world c))
    = count_calls is_new_api_experiment (w_trace (cl_world ex_cluster)) + 1 /\
  (forall i, i < 2 -> exists cb, cl_workers c !! i = Some (WReady cb) /\
                                study_experiment cb = key_of (w_next_key (cl_world ex_cluster))) /\
  read_study_key (cl_store c) = PyStr (key_of (w_next_key (cl_world ex_cluster))).
Proof.
  assert (H1 : w_fail (cl_world ex_cluster) = None) by reflexivity.
  assert (H2 : py_truthy (read_study_key (cl_store ex_cluster)) = false) by (vm_compute; reflexivity).
  assert (H3 : cl_workers ex_cluster = replicate 2 WStart) by reflexivity.
  assert (H4 : 0 < 2) by lia.
  exact (conj H1 (conj H2 (conj H3 (conj H4
    (serial_inits_share_study_record (Some "ws") (Some "general") None ex_cluster 2 H1 H2 H3 H4))))).
Defined.


